(** * Taiwan AQI monitor: a shallow embedding of [main.py]

    The development follows the class [AQIMonitor] of [main.py]:
    the fetcher ([fetch_aqi_data]), the normalizer ([process_data],
    [calculate_distance_to_taipei]), the classifier ([get_aqi_color],
    [get_aqi_level]), the renderer ([create_map]), the persister
    ([save_map], [save_data]) and the orchestrator ([run]); the entry
    point [main] of the file comes after them.

    Python values are modelled as they reach the code: JSON values for what
    [response.json()] returns and for the cells of a pandas frame, Python
    numbers as extended rationals (every finite float and every int is a
    rational; the two infinities and NaN are added), dicts as finite maps,
    exceptions as an explicit [Raise] outcome, and the fields of [self]
    together with the effects on the file system as a threaded state. *)

From Stdlib Require Import QArith Qround Qabs Lqa.
From stdpp Require Import base gmap strings list option.

Set Warnings "-register-all".

Open Scope string_scope.

(** ** Python numbers *)

Module PyNum.

(** A Python [int] or [float]: a rational, an infinity, or NaN. Arithmetic
    is the exact one on the rationals; rounding is not modelled. *)
Inductive pyfloat : Type :=
| Fin (q : Q)
| PInf
| NInf
| NaN.

(** [a <= b] on Python numbers: every comparison with NaN is false. *)
Definition py_le (a b : pyfloat) : bool :=
  match a, b with
  | NaN, _ | _, NaN => false
  | NInf, _ => true
  | _, PInf => true
  | Fin x, Fin y => Qle_bool x y
  | Fin _, NInf => false
  | PInf, _ => false
  end.

(** [a < b] on Python numbers. *)
Definition py_lt (a b : pyfloat) : bool :=
  match a, b with
  | NaN, _ | _, NaN => false
  | PInf, _ => false
  | _, NInf => false
  | Fin x, Fin y => negb (Qle_bool y x)
  | NInf, _ => true
  | Fin _, PInf => true
  end.

(** [a == b] on Python numbers. *)
Definition py_eq (a b : pyfloat) : bool := py_le a b && py_le b a.

Definition is_nan (a : pyfloat) : bool :=
  match a with NaN => true | _ => false end.

(** [a + b]. *)
Definition py_add (a b : pyfloat) : pyfloat :=
  match a, b with
  | NaN, _ | _, NaN => NaN
  | PInf, NInf | NInf, PInf => NaN
  | PInf, _ | _, PInf => PInf
  | NInf, _ | _, NInf => NInf
  | Fin x, Fin y => Fin (x + y)
  end.

(** [a / n] for a positive count [n] (the divisions of the code are by the
    constant 50 and by a number of rows). *)
Definition py_div_pos (a : pyfloat) (n : positive) : pyfloat :=
  match a with
  | Fin x => Fin (x / inject_Z (Z.pos n))
  | other => other
  end.

End PyNum.
Export PyNum.

(** ** The classifier *)

(** [AQIMonitor.get_aqi_color]. *)
Definition get_aqi_color (aqi_value : pyfloat) : string :=
  if py_le aqi_value (Fin 50) then "#00E400"
  else if py_le aqi_value (Fin 100) then "#FFFF00"
  else "#FF0000".

(** [AQIMonitor.get_aqi_level]; the labels are the UTF-8 strings of the
    source. *)
Definition get_aqi_level (aqi_value : pyfloat) : string :=
  if py_le aqi_value (Fin 50) then "良好"
  else if py_le aqi_value (Fin 100) then "中等"
  else "不健康".

(** The position of a display color in the severity order of the legend
    (green, yellow, red); a string that is no band color has none. *)
Definition color_rank (c : string) : option nat :=
  if decide (c = "#00E400") then Some 0%nat
  else if decide (c = "#FFFF00") then Some 1%nat
  else if decide (c = "#FF0000") then Some 2%nat
  else None.

(** ** Python values and exceptions *)

(** What [response.json()] can return, and what a cell of a pandas frame
    can hold. [JNull] is [None]; a missing cell is [JNum NaN]. *)
Inductive json : Type :=
| JNull
| JBool (b : bool)
| JNum (x : pyfloat)
| JStr (s : string)
| JArr (items : list json)
| JObj (members : list (string * json)).

(** The exception classes the program meets. *)
Inductive exn : Type :=
| KeyError (key : string)
| TypeError
| ValueError
| OSError
| RequestException
| JSONDecodeError.

(** The outcome of evaluating a Python expression. *)
Inductive result (A : Type) : Type :=
| Ret (a : A)
| Raise (e : exn).
Arguments Ret {A} a.
Arguments Raise {A} e.

#[export] Instance result_ret : MRet result := @Ret.
#[export] Instance result_bind : MBind result :=
  fun A B f m => match m with Ret a => f a | Raise e => Raise e end.

(** [try: body / except: handler]. *)
Definition try_except {A} (body : result A) (handler : exn -> result A) : result A :=
  match body with
  | Ret a => Ret a
  | Raise e => handler e
  end.

(** The value of an expression that is known not to raise. *)
Definition or_default {A} (d : A) (r : result A) : A :=
  match r with
  | Ret a => a
  | Raise _ => d
  end.

(** A [for] loop that rebinds one variable, [b], and stops at the first
    exception. *)
Fixpoint for_loop {A B} (body : B -> A -> result B) (b : B) (items : list A) : result B :=
  match items with
  | [] => Ret b
  | x :: items => b' ← body b x; for_loop body b' items
  end.

(** [bool(x)]. *)
Definition truthy (x : json) : bool :=
  match x with
  | JNull => false
  | JBool b => b
  | JNum v => negb (py_eq v (Fin 0))
  | JStr s => negb (bool_decide (s = ""))
  | JArr items => negb (bool_decide (items = []))
  | JObj members => negb (bool_decide (members = []))
  end.

(** A Python dict built from the members of a JSON object: a later
    duplicate of a key replaces the earlier value. *)
Definition dict_of (members : list (string * json)) : gmap string json :=
  foldl (fun d kv => <[kv.1 := kv.2]> d) ∅ members.

(** [len(x)]. *)
Definition py_len (x : json) : result nat :=
  match x with
  | JStr s => Ret (String.length s)
  | JArr items => Ret (length items)
  | JObj members => Ret (size (dict_of members))
  | _ => Raise TypeError
  end.

(** [key in x] for a string [key]: membership among the keys of a dict,
    the substring test on a string, equality with an element of a list. *)
Definition py_contains (key : string) (x : json) : result bool :=
  match x with
  | JObj members => Ret (bool_decide (is_Some (dict_of members !! key)))
  | JStr s => Ret (bool_decide (is_Some (String.index 0 key s)))
  | JArr items => Ret (existsb (fun i => match i with JStr s => bool_decide (s = key) | _ => false end) items)
  | _ => Raise TypeError
  end.

(** [x[key]] for a string [key]. *)
Definition py_getitem (x : json) (key : string) : result json :=
  match x with
  | JObj members =>
      match dict_of members !! key with
      | Some v => Ret v
      | None => Raise (KeyError key)
      end
  | _ => Raise TypeError
  end.

(** [pd.isna(x)] on a scalar. *)
Definition isna (x : json) : bool :=
  match x with
  | JNull => true
  | JNum v => is_nan v
  | _ => false
  end.

(** A Python [bool]. *)
Definition is_bool (x : json) : bool :=
  match x with JBool _ => true | _ => false end.

(** The number a cell stands for in a comparison or in arithmetic;
    [bool] is a subclass of [int], anything else is a [TypeError]. *)
Definition as_number (x : json) : result pyfloat :=
  match x with
  | JNum v => Ret v
  | JBool b => Ret (Fin (if b then 1 else 0))
  | _ => Raise TypeError
  end.

(** [round(x, 2)]: the nearest multiple of 1/100, ties to even. *)
Definition round_half_even (q : Q) : Z :=
  let n := Qfloor q in
  let frac := (q - inject_Z n)%Q in
  match (frac ?= 1 # 2)%Q with
  | Lt => n
  | Gt => (n + 1)%Z
  | Eq => if Z.even n then n else (n + 1)%Z
  end.

Definition py_round2 (x : pyfloat) : pyfloat :=
  match x with
  | Fin q => Fin (Qmake (round_half_even (q * 100)) 100)
  | other => other
  end.

(** ** Frames *)

(** A pandas [DataFrame]: the column labels in order and the rows in index
    order. A row holds the cells that were given a value; a cell of a
    column that a row has no entry for is NaN, as in a frame built from
    dicts with differing keys. *)
Record DataFrame : Type := {
  columns : list string;
  rows : list (gmap string json)
}.

(** [row[c]] for a column [c] of the frame the row comes from. *)
Definition cell (c : string) (row : gmap string json) : json :=
  default (JNum NaN) (row !! c).

(** [df.empty]: one of the two axes has length 0. *)
Definition empty (df : DataFrame) : bool :=
  bool_decide (rows df = []) || bool_decide (columns df = []).

(** The union of the keys of the records, in order of first appearance. *)
Definition add_keys (seen : list string) (members : list (string * json)) : list string :=
  foldl (fun acc kv => if decide (kv.1 ∈ acc) then acc else (acc ++ [kv.1])%list) seen members.

Definition frame_of_records (records : list (list (string * json))) : DataFrame :=
  {| columns := foldl add_keys [] records;
     rows := dict_of <$> records |}.

(** A list of JSON objects, the shape [pd.DataFrame] reads as one row per
    object. *)
Definition as_record (x : json) : option (list (string * json)) :=
  match x with JObj members => Some members | _ => None end.

Definition as_records (data : json) : option (list (list (string * json))) :=
  match data with
  | JArr items => mapM as_record items
  | _ => None
  end.

(** [df[cols]] for a list of labels that are all columns of [df]. *)
Definition getitem_columns (df : DataFrame) (cols : list string) : DataFrame :=
  {| columns := cols;
     rows := (fun row => filter (fun kv => kv.1 ∈ cols) row) <$> rows df |}.

(** [df[c]]: the cells of one column. *)
Definition getitem_column (df : DataFrame) (c : string) : result (list json) :=
  if decide (c ∈ columns df) then Ret (cell c <$> rows df)
  else Raise (KeyError c).

(** [df[c] = values], for a series that has the index of [df]. *)
Definition setitem_column (df : DataFrame) (c : string) (values : list json) : DataFrame :=
  {| columns := if decide (c ∈ columns df) then columns df else (columns df ++ [c])%list;
     rows := zip_with (fun row v => <[c := v]> row) (rows df) values |}.

(** [df.dropna(subset=cols)]. *)
Definition dropna (df : DataFrame) (subset : list string) : DataFrame :=
  {| columns := columns df;
     rows := filter (fun row => forallb (fun c => negb (isna (cell c row))) subset = true) (rows df) |}.

(** [df.rename(columns={old: new})]. *)
Definition rename_key (old new : string) (row : gmap string json) : gmap string json :=
  match row !! old with
  | Some v => <[new := v]> (delete old row)
  | None => row
  end.

Definition rename (df : DataFrame) (old new : string) : DataFrame :=
  {| columns := (fun c => if decide (c = old) then new else c) <$> columns df;
     rows := rename_key old new <$> rows df |}.

(** [series.mean()]: the NaN cells are skipped. *)
Definition series_sum (values : list pyfloat) : pyfloat :=
  foldl py_add (Fin 0) values.

Definition series_mean (cells : list json) : result pyfloat :=
  values ← mapM as_number cells;
  let present := filter (fun v => is_nan v = false) values in
  match Pos.of_nat (length present), present with
  | _, [] => Ret NaN
  | n, _ => Ret (py_div_pos (series_sum present) n)
  end.

(** ** The monitor's constants *)

(** [self.taipei_station]. *)
Definition taipei_station : Q * Q := (25.0478, 121.5170)%Q.

(** [self.station_coordinates]: no key occurs twice in the literal. *)
Definition station_coordinates : gmap string (Q * Q) :=
  list_to_map [
    ("汐止", (25.0645, 121.6321)); ("中山", (25.0645, 121.5241));
    ("大安", (25.0263, 121.5438)); ("古亭", (25.0128, 121.5274));
    ("松山", (25.0477, 121.5750)); ("士林", (25.0877, 121.5240));
    ("大同", (25.0645, 121.5178)); ("內湖", (25.0698, 121.5808));
    ("南港", (25.0548, 121.6069)); ("文山", (24.9876, 121.5718));
    ("板橋", (25.0167, 121.4624)); ("新莊", (25.0358, 121.4497));
    ("土城", (24.9791, 121.4599)); ("蘆洲", (25.0848, 121.4660));
    ("三重", (25.0829, 121.4914)); ("淡水", (25.1646, 121.4459));
    ("林口", (25.0789, 121.3198)); ("桃園", (24.9936, 121.3010));
    ("中壢", (24.9539, 121.2256)); ("平鎮", (24.9446, 121.2188));
    ("龍潭", (24.8626, 121.2299)); ("新竹", (24.8138, 120.9675));
    ("竹東", (24.7446, 121.0865)); ("苗栗", (24.5629, 120.8214));
    ("頭份", (24.6876, 120.8806)); ("台中", (24.1477, 120.6736));
    ("沙鹿", (24.2332, 120.5654)); ("豐原", (24.2525, 120.7176));
    ("大里", (24.0995, 120.6788)); ("彰化", (24.0766, 120.5422));
    ("員林", (23.9623, 120.5744)); ("南投", (23.9099, 120.6838));
    ("雲林", (23.7090, 120.4316)); ("斗六", (23.7089, 120.4316));
    ("嘉義", (23.4801, 120.4491)); ("朴子", (23.4619, 120.2479));
    ("台南", (22.9999, 120.2269)); ("新營", (23.3005, 120.3169));
    ("善化", (23.1327, 120.2995)); ("高雄", (22.6273, 120.3014));
    ("林園", (22.5019, 120.3943)); ("大寮", (22.5598, 120.3543));
    ("鳳山", (22.6287, 120.3566)); ("左營", (22.6900, 120.2982));
    ("楠梓", (22.7287, 120.3014)); ("小港", (22.5667, 120.3512));
    ("屏東", (22.6828, 120.4908)); ("恆春", (22.0011, 120.7460));
    ("宜蘭", (24.6929, 121.7355)); ("羅東", (24.6770, 121.7707));
    ("花蓮", (23.9979, 121.6070)); ("台東", (22.7560, 121.1606));
    ("馬祖", (26.1634, 119.9518)); ("金門", (24.4368, 118.3168));
    ("澎湖", (23.5697, 119.5802))
  ]%Q.

(** [columns_to_keep] of [process_data]. *)
Definition columns_to_keep : list string :=
  ["sitename"; "county"; "aqi"; "pm25"; "pm10"; "o3"; "no2"; "so2"; "co"; "publishtime"].

(** [numeric_columns] of [process_data]. *)
Definition numeric_columns : list string :=
  ["aqi"; "pm25"; "pm10"; "o3"; "no2"; "so2"; "co"; "latitude"; "longitude"].

(** [self.station_coordinates.get(x, [None, None])]: a key that is a list
    or a dict cannot be hashed; a key that is no string equals none of the
    table's keys. *)
Definition coordinates_get (x : json) : result (json * json) :=
  match x with
  | JArr _ | JObj _ => Raise TypeError
  | JStr s =>
      match station_coordinates !! s with
      | Some (lat, lon) => Ret (JNum (Fin lat), JNum (Fin lon))
      | None => Ret (JNull, JNull)
      end
  | _ => Ret (JNull, JNull)
  end.

(** ** The rendered map *)

(** The values the popup of a station marker is formatted from. *)
Record Popup : Type := {
  popup_sitename : json;
  popup_county : json;
  popup_aqi : pyfloat;
  popup_color : string;
  popup_distance : json;
  popup_level : string
}.

(** A [folium.CircleMarker] as [create_map] builds it. *)
Record CircleMarker : Type := {
  location : pyfloat * pyfloat;
  radius : pyfloat;
  popup : Popup;
  tooltip : json * pyfloat;
  fillColor : string
}.

(** A [folium.Map] with the children [create_map] adds to it. *)
Record Map : Type := {
  map_location : pyfloat * pyfloat;
  circle_markers : list CircleMarker;
  station_markers : list (Q * Q);
  legend : list (string * string)
}.

(** folium rejects a location with a coordinate that is not a number or
    is NaN. *)
Definition validate_location (lat lon : json) : result (pyfloat * pyfloat) :=
  match lat, lon with
  | JNum a, JNum b =>
      if is_nan a || is_nan b then Raise ValueError else Ret (a, b)
  | _, _ => Raise ValueError
  end.

(** ** The monitor object and the outside world *)

(** What the program does to the outside: the lines it logs at level ERROR,
    each under the fixed text its message starts with, and the calls it
    makes on the file system (a call is recorded when it is made, whether
    it then succeeds or raises). The lines it logs at level INFO are not
    part of this trace: no statement below is about them. *)
Inductive event : Type :=
| LogError (message : string)
| MakeDirs (path : string)
| MapSave (path : string) (m : Map)
| ToCsv (path : string) (df : DataFrame).

(** The answer of the HTTP request of [fetch_aqi_data]: an exception of
    [requests.get], [raise_for_status] or [response.json()], or the parsed
    body. *)
Inductive http_outcome : Type :=
| HttpRaises (e : exn)
| HttpBody (data : json).

(** The outside world of one run: the HTTP answer and, for each path, the
    exception a file-system call on it raises, if any. *)
Record World : Type := {
  http_get : http_outcome;
  fs_makedirs : string -> option exn;
  fs_map_save : string -> option exn;
  fs_to_csv : string -> option exn
}.

(** The fields of [self] that the methods assign, and the events so far.
    [self_data = JNull] is [self.data is None]. *)
Record Monitor : Type := {
  self_data : json;
  self_map : option Map;
  effects : list event
}.

(** [AQIMonitor.__init__]. *)
Definition init : Monitor :=
  {| self_data := JNull; self_map := None; effects := [] |}.

(** A method body: it runs on the monitor, returns or raises, and leaves
    the monitor as it has changed it up to that point. *)
Definition M (A : Type) : Type := Monitor -> result A * Monitor.

#[export] Instance M_ret : MRet M := fun A a self => (Ret a, self).
#[export] Instance M_bind : MBind M :=
  fun A B f m self =>
    match m self with
    | (Ret a, self') => f a self'
    | (Raise e, self') => (Raise e, self')
    end.

Definition lift {A} (r : result A) : M A := fun self => (r, self).

Definition raise {A} (e : exn) : M A := lift (Raise e).

Definition get_data : M json := fun self => (Ret (self_data self), self).

Definition set_data (data : json) : M unit := fun self =>
  (Ret tt, {| self_data := data; self_map := self_map self; effects := effects self |}).

Definition get_map : M (option Map) := fun self => (Ret (self_map self), self).

Definition set_map (m : option Map) : M unit := fun self =>
  (Ret tt, {| self_data := self_data self; self_map := m; effects := effects self |}).

Definition emit (e : event) : M unit := fun self =>
  (Ret tt, {| self_data := self_data self; self_map := self_map self;
              effects := (effects self ++ [e])%list |}).

(** [try: body / except ...: handler]; the handler answers [None] for an
    exception that no [except] clause matches, which then propagates. *)
Definition try_catch {A} (body : M A) (handler : exn -> option (M A)) : M A :=
  fun self =>
    match body self with
    | (Ret a, self') => (Ret a, self')
    | (Raise e, self') =>
        match handler e with
        | Some h => h self'
        | None => (Raise e, self')
        end
    end.

(** A [for] loop over a list. *)
Fixpoint for_each {A} (items : list A) (body : A -> M unit) : M unit :=
  match items with
  | [] => mret tt
  | x :: rest => _ ← body x; for_each rest body
  end.

(** [os.makedirs(path, exist_ok=True)]. *)
Definition os_makedirs (w : World) (path : string) : M unit :=
  _ ← emit (MakeDirs path);
  match fs_makedirs w path with
  | Some e => raise e
  | None => mret tt
  end.

(** The character [/]. *)
Definition slash : Ascii.ascii := Ascii.ascii_of_nat 47.

Fixpoint rstrip_slash (s : string) : string :=
  match s with
  | EmptyString => EmptyString
  | String c rest =>
      match rstrip_slash rest with
      | EmptyString => if Ascii.eqb c slash then EmptyString else String c EmptyString
      | rest' => String c rest'
      end
  end.

Fixpoint head_to_last_slash (s : string) : option string :=
  match s with
  | EmptyString => None
  | String c rest =>
      match head_to_last_slash rest with
      | Some h => Some (String c h)
      | None => if Ascii.eqb c slash then Some (String c EmptyString) else None
      end
  end.

(** [os.path.dirname] (posixpath): everything up to the last slash, with
    the trailing slashes removed unless the head is made of slashes only. *)
Definition dirname (p : string) : string :=
  match head_to_last_slash p with
  | None => ""
  | Some head =>
      match rstrip_slash head with
      | EmptyString => head
      | stripped => stripped
      end
  end.

(** ** The methods of [AQIMonitor] *)

Section AQIMonitor.

(** The library routines whose results the program only passes on: the
    number pandas reads in a string ([None] when it reads none), the
    geodesic distance in kilometers of geopy (which raises on a point it
    rejects), and what [pd.DataFrame] makes of data that is not a list of
    JSON objects. *)
Variable parse_float : string -> option pyfloat.
Variable geodesic_km : json * json -> Q * Q -> result pyfloat.
Variable DataFrame_other : json -> result DataFrame.

(** [pd.DataFrame(data)]. *)
Definition pd_DataFrame (data : json) : result DataFrame :=
  match as_records data with
  | Some records => Ret (frame_of_records records)
  | None => DataFrame_other data
  end.

(** What [pd.to_numeric] reads in one cell of a column it converts: a
    number is itself, a [bool] is 0 or 1, [None] and what has length 0 are
    NaN; a text that is no number is a [ValueError] and a list or a dict a
    [TypeError]. *)
Definition read_number (x : json) : result pyfloat :=
  match x with
  | JNum v => Ret v
  | JBool b => Ret (Fin (if b then 1 else 0))
  | JNull | JStr "" | JArr [] | JObj [] => Ret NaN
  | JStr s =>
      match parse_float s with
      | Some v => Ret v
      | None => Raise ValueError
      end
  | JArr _ | JObj _ => Raise TypeError
  end.

(** The [errors] argument of [pd.to_numeric]: ['raise'], its default, and
    ['coerce']. *)
Inductive errors_policy : Type :=
| errors_raise
| errors_coerce.

(** What [pd.to_numeric] makes of one cell it could not read. *)
Definition unread (errors : errors_policy) (e : exn) : result json :=
  match errors with
  | errors_raise => Raise e
  | errors_coerce => Ret (JNum NaN)
  end.

(** [pd.to_numeric(column, errors=errors)] on the cells of one column. It
    works on the column: a column of [bool]s only has a numeric dtype
    already and is returned as it is; any other column is converted cell
    by cell. *)
Definition to_numeric (column : list json) (errors : errors_policy) : result (list json) :=
  if forallb is_bool column then Ret column
  else mapM (fun x => match read_number x with
                      | Ret v => Ret (JNum v)
                      | Raise e => unread errors e
                      end) column.

(** [AQIMonitor.calculate_distance_to_taipei]; the bare [except:] catches
    every exception. *)
Definition calculate_distance_to_taipei (lat lon : json) : result json :=
  try_except
    (let station_coords := (lat, lon) in
     let taipei_coords := (taipei_station.1, taipei_station.2) in
     distance ← geodesic_km station_coords taipei_coords;
     mret (JNum (py_round2 distance)))
    (fun _ => Ret JNull).

(** One turn of the loop over [numeric_columns] in [process_data]. *)
Definition coerce_column (df : DataFrame) (col : string) : result DataFrame :=
  if decide (col ∈ columns df) then
    column ← getitem_column df col;
    values ← to_numeric column errors_coerce;
    Ret (setitem_column df col values)
  else Ret df.

(** [AQIMonitor.process_data], on the value of [self.data]; [Ret None] is
    the [return None] of the method. *)
Definition process_data (data : json) : result (option DataFrame) :=
  if negb (truthy data) then Ret None
  else
    df ← pd_DataFrame data;
    let available_columns := filter (fun col => col ∈ columns df) columns_to_keep in
    let df := getitem_columns df available_columns in
    sitename ← getitem_column df "sitename";
    latitude ← mapM (fun x => c ← coordinates_get x; mret c.1) sitename;
    let df := setitem_column df "latitude" latitude in
    sitename ← getitem_column df "sitename";
    longitude ← mapM (fun x => c ← coordinates_get x; mret c.2) sitename;
    let df := setitem_column df "longitude" longitude in
    df ← for_loop coerce_column df numeric_columns;
    let df := dropna df ["latitude"; "longitude"] in
    let df := if decide ("publishtime" ∈ columns df)
              then rename df "publishtime" "datacreationdate" else df in
    distance ← mapM (fun row => calculate_distance_to_taipei
                                  (cell "latitude" row) (cell "longitude" row)) (rows df);
    let df := setitem_column df "distance_to_taipei" distance in
    Ret (Some df).

(** [AQIMonitor.fetch_aqi_data]: the two [except] clauses catch
    [RequestException] and [JSONDecodeError] and nothing else. *)
Definition fetch_aqi_data (w : World) : M bool :=
  try_catch
    (data ← lift (match http_get w with
                  | HttpRaises e => Raise e
                  | HttpBody data => Ret data
                  end);
     match data with
     | JArr _ =>
         _ ← set_data data;
         _ ← lift (py_len data);
         mret true
     | _ =>
         has_records ← lift (py_contains "records" data);
         if (has_records : bool) then
           records ← lift (py_getitem data "records");
           _ ← set_data records;
           _ ← lift (py_len records);
           mret true
         else
           _ ← emit (LogError "API 回應格式錯誤");
           _ ← emit (LogError "回應內容");
           mret false
     end)
    (fun e =>
       match e with
       | RequestException => Some (_ ← emit (LogError "獲取數據時發生錯誤"); mret false)
       | JSONDecodeError => Some (_ ← emit (LogError "JSON 解析錯誤"); mret false)
       | _ => None
       end).

(** [row[c]] for a row of [df]. *)
Definition row_getitem (df : DataFrame) (row : gmap string json) (c : string) : result json :=
  if decide (c ∈ columns df) then Ret (cell c row) else Raise (KeyError c).

(** [folium.CircleMarker(...).add_to(self.map)]. *)
Definition add_circle_marker (mk : CircleMarker) : M unit :=
  m ← get_map;
  match m with
  | Some m =>
      set_map (Some {| map_location := map_location m;
                       circle_markers := (circle_markers m ++ [mk])%list;
                       station_markers := station_markers m;
                       legend := legend m |})
  | None => raise TypeError
  end.

(** The marker of Taipei station and the legend, added after the loop. *)
Definition add_station_marker_and_legend : M unit :=
  m ← get_map;
  match m with
  | Some m =>
      set_map (Some {| map_location := map_location m;
                       circle_markers := circle_markers m;
                       station_markers := (station_markers m ++ [taipei_station])%list;
                       legend := [("#00E400", "0-50 良好"); ("#FFFF00", "51-100 中等");
                                  ("#FF0000", "101+ 不健康")] |})
  | None => raise TypeError
  end.

(** The marker the loop of [create_map] builds for one row. *)
Definition circle_marker_of_row (df : DataFrame) (row : gmap string json) : result CircleMarker :=
  aqi ← row_getitem df row "aqi";
  aqi_value ← (if negb (isna aqi) then as_number aqi else Ret (Fin 0));
  let color := get_aqi_color aqi_value in
  let level := get_aqi_level aqi_value in
  sitename ← row_getitem df row "sitename";
  county ← row_getitem df row "county";
  distance ← row_getitem df row "distance_to_taipei";
  latitude ← row_getitem df row "latitude";
  longitude ← row_getitem df row "longitude";
  loc ← validate_location latitude longitude;
  mret {| location := loc;
          radius := py_add (Fin 8) (py_div_pos aqi_value 50);
          popup := {| popup_sitename := sitename; popup_county := county;
                      popup_aqi := aqi_value; popup_color := color;
                      popup_distance := distance; popup_level := level |};
          tooltip := (sitename, aqi_value);
          fillColor := color |}.

(** The body of the loop of [create_map] for one row. *)
Definition add_row_marker (df : DataFrame) (row : gmap string json) : M unit :=
  mk ← lift (circle_marker_of_row df row);
  add_circle_marker mk.

(** [AQIMonitor.create_map]. *)
Definition create_map (df : DataFrame) : M (option Map) :=
  if empty df then
    _ ← emit (LogError "沒有有效數據可創建地圖");
    mret None
  else
    latitude ← lift (getitem_column df "latitude");
    center_lat ← lift (series_mean latitude);
    longitude ← lift (getitem_column df "longitude");
    center_lon ← lift (series_mean longitude);
    center ← lift (validate_location (JNum center_lat) (JNum center_lon));
    _ ← set_map (Some {| map_location := center; circle_markers := [];
                          station_markers := []; legend := [] |});
    _ ← for_each (rows df) (add_row_marker df);
    _ ← add_station_marker_and_legend;
    get_map.

(** [AQIMonitor.save_map]; [except Exception] catches every exception of
    the model. *)
Definition save_map (w : World) (filename : string) : M bool :=
  m ← get_map;
  match m with
  | None =>
      _ ← emit (LogError "沒有地圖可保存");
      mret false
  | Some m =>
      _ ← os_makedirs w (dirname filename);
      try_catch
        (_ ← emit (MapSave filename m);
         match fs_map_save w filename with
         | Some e => raise e
         | None => mret true
         end)
        (fun e => Some (_ ← emit (LogError "保存地圖時發生錯誤"); mret false))
  end.

(** [AQIMonitor.save_data]; [Some b] is [return b], [None] is the end of
    the body reached without a [return]. *)
Definition save_data (w : World) (filename : string) : M (option bool) :=
  data ← get_data;
  match data with
  | JNull =>
      _ ← emit (LogError "沒有數據可保存");
      mret (Some false)
  | _ =>
      _ ← os_makedirs w (dirname filename);
      try_catch
        (df ← lift (process_data data);
         match df with
         | Some df =>
             _ ← emit (ToCsv filename df);
             match fs_to_csv w filename with
             | Some e => raise e
             | None => mret (Some true)
             end
         | None => mret None
         end)
        (fun e => Some (_ ← emit (LogError "保存數據時發生錯誤"); mret (Some false)))
  end.

(** [AQIMonitor.run]. *)
Definition run (w : World) : M bool :=
  fetched ← fetch_aqi_data w;
  if negb fetched then
    _ ← emit (LogError "無法獲取 AQI 數據");
    mret false
  else
    data ← get_data;
    df ← lift (process_data data);
    match df with
    | None =>
        _ ← emit (LogError "數據處理失敗");
        mret false
    | Some df =>
        if empty df then
          _ ← emit (LogError "數據處理失敗");
          mret false
        else
          aqi_map ← create_map df;
          match aqi_map with
          | None =>
              _ ← emit (LogError "地圖創建失敗");
              mret false
          | Some _ =>
              _ ← save_map w "outputs/taiwan_aqi_map.html";
              _ ← save_data w "outputs/aqi_data.csv";
              mret true
          end
    end.

(** *** [process_data] read row by row

    Apart from the test for a column of [bool]s, the column operations of
    [process_data] act on each row on its own; the functions below give
    what they make of one row. *)

Definition latitude_of (row : gmap string json) : json :=
  match coordinates_get (cell "sitename" row) with
  | Ret c => c.1
  | Raise _ => JNull
  end.

Definition longitude_of (row : gmap string json) : json :=
  match coordinates_get (cell "sitename" row) with
  | Ret c => c.2
  | Raise _ => JNull
  end.

(** The number that [errors='coerce'] leaves in one cell of a column that
    is converted: the one read in it, NaN where none is read. *)
Definition to_numeric_coerce (x : json) : pyfloat :=
  match read_number x with
  | Ret v => v
  | Raise _ => NaN
  end.

(** The column holds [bool]s only. *)
Definition bool_column (rows : list (gmap string json)) (c : string) : bool :=
  forallb (fun row => is_bool (cell c row)) rows.

(** The columns of a frame that [pd.to_numeric] converts. *)
Definition converted_columns (df : DataFrame) : list string :=
  filter (fun c => bool_column (rows df) c = false) (columns df).

(** What the loop makes of one column, when nothing raises. *)
Definition coerced_column (df : DataFrame) (col : string) : DataFrame :=
  if decide (col ∈ converted_columns df) then
    setitem_column df col ((fun x => JNum (to_numeric_coerce x)) <$> (cell col <$> rows df))
  else df.

Definition coerce_cell (cols : list string) (row : gmap string json) (col : string)
  : gmap string json :=
  if decide (col ∈ cols) then <[col := JNum (to_numeric_coerce (cell col row))]> row
  else row.

(** A raw record up to the coercion loop; [cols] are the columns that the
    loop converts. *)
Definition normalize_row (cols available : list string) (record : gmap string json)
  : gmap string json :=
  let r0 := filter (fun kv => kv.1 ∈ available) record in
  let r1 := <["latitude" := latitude_of r0]> r0 in
  let r2 := <["longitude" := longitude_of r1]> r1 in
  foldl (coerce_cell cols) r2 numeric_columns.

(** The columns that the loop converts, from the raw records: the
    coordinates, and the kept columns that do not hold [bool]s only. *)
Definition converted_of (records : list (gmap string json)) (available : list string)
  : list string :=
  (filter (fun c => bool_column records c = false) available
   ++ ["latitude"; "longitude"])%list.

(** The test of [dropna] on one row. *)
Definition has_coordinates (row : gmap string json) : bool :=
  forallb (fun c => negb (isna (cell c row))) ["latitude"; "longitude"].

Definition distance_of (row : gmap string json) : json :=
  match calculate_distance_to_taipei (cell "latitude" row) (cell "longitude" row) with
  | Ret d => d
  | Raise _ => JNull
  end.

(** A surviving row from [dropna] to the end. *)
Definition finish_row (available : list string) (row : gmap string json)
  : gmap string json :=
  let r := if decide ("publishtime" ∈ available)
           then rename_key "publishtime" "datacreationdate" row else row in
  <["distance_to_taipei" := distance_of r]> r.

End AQIMonitor.

(** ** The entry point *)

(** The rule ["=" * 50]. *)
Definition rule : string := "==================================================".

(** What [main] leaves behind: the lines it has printed, whether it has
    returned or raised, and the monitor it has made, if any. *)
Record Session : Type := {
  printed : list string;
  outcome : result unit;
  monitor : option Monitor
}.

Section Main.

Variable parse_float : string -> option pyfloat.
Variable geodesic_km : json * json -> Q * Q -> result pyfloat.
Variable DataFrame_other : json -> result DataFrame.

(** [main] of [main.py]; [getenv] is [os.getenv], and [print("\n...")]
    prints an empty line first. *)
Definition main (getenv : string -> option string) (w : World) : Session :=
  let header := [rule; "台灣即時空氣品質監測系統"; rule] in
  match getenv "MOENV_API_KEY" with
  | None | Some "" =>
      {| printed := (header ++ ["錯誤：請在 .env 文件中設置 MOENV_API_KEY"])%list;
         outcome := Ret tt;
         monitor := None |}
  | Some _ =>
      let (success, self) := run parse_float geodesic_km DataFrame_other w init in
      match success with
      | Raise e => {| printed := header; outcome := Raise e; monitor := Some self |}
      | Ret true =>
          {| printed := (header ++ [""; "✅ 監測完成！";
                                    "📍 地圖文件：outputs/taiwan_aqi_map.html";
                                    "📊 數據文件：outputs/aqi_data.csv";
                                    ""; "請在地圖文件中查看結果。"])%list;
             outcome := Ret tt;
             monitor := Some self |}
      | Ret false =>
          {| printed := (header ++ [""; "❌ 監測失敗，請檢查日誌訊息。"])%list;
             outcome := Ret tt;
             monitor := Some self |}
      end
  end.

End Main.

(** ** Vocabulary of the statements *)

(** The site-name field of a raw record (NaN when the record has none). *)
Definition site_of (record : list (string * json)) : json :=
  cell "sitename" (dict_of record).

(** The site name is a key of the coordinate table. *)
Definition known_site (x : json) : bool :=
  match x with
  | JStr s => bool_decide (is_Some (station_coordinates !! s))
  | _ => false
  end.

(** The world [w] with the API answering [body]. *)
Definition answering (w : World) (body : json) : World :=
  {| http_get := HttpBody body;
     fs_makedirs := fs_makedirs w;
     fs_map_save := fs_map_save w;
     fs_to_csv := fs_to_csv w |}.

(** The monitor with another map. *)
Definition with_map (m : option Map) (self : Monitor) : Monitor :=
  {| self_data := self_data self; self_map := m; effects := effects self |}.

(** The map [m] with the circle markers [mks] added. *)
Definition add_markers (m : Map) (mks : list CircleMarker) : Map :=
  {| map_location := map_location m;
     circle_markers := (circle_markers m ++ mks)%list;
     station_markers := station_markers m;
     legend := legend m |}.

(** The two response shapes of the API: a bare array, or an object whose
    [records] member is an array. *)
Definition records_shape (body : json) : Prop :=
  (∃ items, body = JArr items) ∨
  (∃ members items, body = JObj members ∧ dict_of members !! "records" = Some (JArr items)).

(** The monitor with [data] stored in [self.data]. *)
Definition with_data (data : json) (self : Monitor) : Monitor :=
  {| self_data := data; self_map := self_map self; effects := effects self |}.

(** The monitor after one more error line. *)
Definition logged (message : string) (self : Monitor) : Monitor :=
  {| self_data := self_data self; self_map := self_map self;
     effects := (effects self ++ [LogError message])%list |}.

(** A value that can be a key of a dict: anything but a list or a dict. *)
Definition hashable (x : json) : bool :=
  match x with
  | JArr _ | JObj _ => false
  | _ => true
  end.

(** The columns an enriched frame can have, in the order it has them. *)
Definition output_columns : list string :=
  ["sitename"; "county"; "aqi"; "pm25"; "pm10"; "o3"; "no2"; "so2"; "co";
   "datacreationdate"; "latitude"; "longitude"; "distance_to_taipei"].

(** The numbers that every numeric dtype holds as they are: those of
    absolute value at most 2^53, the infinities and NaN. (A larger integer
    is rounded when a column is converted to float64; the exact numbers of
    this development do not show that.) *)
Definition same_in_float64 (v : pyfloat) : bool :=
  match v with
  | Fin q => Qle_bool (Qabs q) (inject_Z (2 ^ 53))
  | _ => true
  end.

(** [after] is what the conversion of a column that does not hold [bool]s
    only makes of the cell [before]: a number stays a number, a [bool]
    becomes 0 or 1, a text becomes the number that is read in it, and what
    is no number becomes NaN. *)
Definition converted_cell (parse_float : string -> option pyfloat)
    (before : json) (after : option json) : Prop :=
  match before with
  | JNum v => exists v', after = Some (JNum v') /\ (same_in_float64 v = true -> v' = v)
  | JBool b => after = Some (JNum (Fin (if b then 1 else 0)))
  | JStr s => after = Some (JNum (if decide (s = "") then NaN
                                  else default NaN (parse_float s)))
  | JNull | JArr _ | JObj _ => after = Some (JNum NaN)
  end.

(** Some record of the response has the field. *)
Definition has_field (records : list (list (string * json))) (field : string) : bool :=
  bool_decide (Exists (fun record => field ∈ record.*1) records).

(** The column is computed by [process_data], or some record has the
    field it is taken from. *)
Definition column_present (records : list (list (string * json))) (c : string) : bool :=
  if decide (c ∈ ["latitude"; "longitude"; "distance_to_taipei"]) then true
  else if decide (c = "datacreationdate") then has_field records "publishtime"
  else has_field records c.

(** ** Sample library routines and worlds

    Concrete stand-ins for the library routines, used to run the model on
    sample inputs: a reader of unsigned decimal integers, a distance that
    is defined on finite coordinates only, and a frame constructor that
    rejects whatever is not a list of JSON objects. *)

Module Sample.

Definition digit_of (c : Ascii.ascii) : option Z :=
  let n := Z.of_nat (Ascii.nat_of_ascii c) in
  if ((48 <=? n) && (n <=? 57))%Z then Some (n - 48)%Z else None.

Fixpoint digits_value (acc : Z) (s : string) : option Z :=
  match s with
  | EmptyString => Some acc
  | String c rest =>
      match digit_of c with
      | Some d => digits_value (acc * 10 + d)%Z rest
      | None => None
      end
  end.

Definition parse_float (s : string) : option pyfloat :=
  match s with
  | EmptyString => None
  | _ => (fun z => Fin (inject_Z z)) <$> digits_value 0 s
  end.

Definition geodesic_km (p : json * json) (q : Q * Q) : result pyfloat :=
  match p with
  | (JNum (Fin lat), JNum (Fin lon)) =>
      Ret (Fin ((Qabs (lat - q.1) + Qabs (lon - q.2)) * 111))
  | _ => Raise ValueError
  end.

Definition DataFrame_other (data : json) : result DataFrame := Raise ValueError.

(** A world in which the API answers [body] and every file-system call
    succeeds. *)
Definition world (body : json) : World :=
  {| http_get := HttpBody body;
     fs_makedirs := fun _ => None;
     fs_map_save := fun _ => None;
     fs_to_csv := fun _ => None |}.

(** The same world with a file system on which no directory can be
    created. *)
Definition world_no_mkdir (body : json) : World :=
  {| http_get := HttpBody body;
     fs_makedirs := fun _ => Some OSError;
     fs_map_save := fun _ => None;
     fs_to_csv := fun _ => None |}.

(** The same world with a file system on which the map cannot be written. *)
Definition world_no_map_save (body : json) : World :=
  {| http_get := HttpBody body;
     fs_makedirs := fun _ => None;
     fs_map_save := fun _ => Some OSError;
     fs_to_csv := fun _ => None |}.

Definition process_data := process_data parse_float geodesic_km DataFrame_other.
Definition run := run parse_float geodesic_km DataFrame_other.

(** Sample API bodies. *)
Definition daan : json :=
  JArr [JObj [("sitename", JStr "大安"); ("county", JStr "臺北市");
              ("aqi", JStr "45"); ("pm25", JStr "12")]].

Definition unknown_station : json :=
  JArr [JObj [("sitename", JStr "未知測站"); ("aqi", JStr "80")]].

Definition no_sitename : json :=
  JArr [JObj [("aqi", JStr "80")]].

Definition no_county : json :=
  JArr [JObj [("sitename", JStr "大安"); ("aqi", JStr "45")]].


Definition no_aqi : json :=
  JArr [JObj [("sitename", JStr "大安"); ("county", JStr "臺北市")]].

Definition null_aqi_records : list (list (string * json)) :=
  [[("sitename", JStr "大安"); ("county", JStr "臺北市"); ("aqi", JStr "")];
   [("sitename", JStr "未知測站"); ("county", JStr "x"); ("aqi", JStr "80")];
   [("sitename", JStr "古亭"); ("county", JStr "臺北市"); ("aqi", JStr "120")]].

Definition null_aqi : json := JArr (JObj <$> null_aqi_records).

(** The frame [process_data] makes of [null_aqi]. *)
Definition null_aqi_frame : DataFrame :=
  Eval vm_compute in
    match process_data null_aqi with
    | Ret (Some df) => df
    | _ => {| columns := []; rows := [] |}
    end.

(** The monitor after a run on [null_aqi] in a world without failures. *)
Definition null_aqi_final : Monitor :=
  Eval vm_compute in (run (world null_aqi) init).2.

End Sample.

(** * Properties *)

(** The coordinate table is looked up, never unfolded, in the proofs. *)
#[local] Opaque station_coordinates.

(** ** The order on Python numbers *)

Lemma py_le_lt_false a b : py_le a b = true -> py_lt b a = false.
Proof.
  destruct a, b; simpl; try congruence.
  intros ->. reflexivity.
Qed.

Lemma py_le_trans a b c : py_le a b = true -> py_le b c = true -> py_le a c = true.
Proof.
  destruct a, b, c; simpl; try congruence.
  rewrite !Qle_bool_iff. apply Qle_trans.
Qed.

(** ** The classifier *)

Lemma color_of_band_cases v :
  (py_le v (Fin 50) = true ∧ get_aqi_color v = "#00E400" ∧ get_aqi_level v = "良好") ∨
  (py_le v (Fin 50) = false ∧ py_le v (Fin 100) = true
     ∧ get_aqi_color v = "#FFFF00" ∧ get_aqi_level v = "中等") ∨
  (py_le v (Fin 50) = false ∧ py_le v (Fin 100) = false
     ∧ get_aqi_color v = "#FF0000" ∧ get_aqi_level v = "不健康").
Proof.
  unfold get_aqi_color, get_aqi_level.
  destruct (py_le v (Fin 50)); [tauto|].
  destruct (py_le v (Fin 100)); tauto.
Qed.

Lemma le_50_le_100 v : py_le v (Fin 50) = true -> py_le v (Fin 100) = true.
Proof. intros H. apply (py_le_trans _ _ _ H). reflexivity. Qed.

(** C2. The classifier partitions the numbers at 50 and 100: a value at
    most 50 is Good (#00E400), a value above 50 and at most 100 is Moderate
    (#FFFF00), a value above 100 is Unhealthy (#FF0000); 50 is Good, 51 and
    100 are Moderate, 101 is Unhealthy; and the band never decreases when
    the value increases. The comparisons are Python's, so the statement
    covers the infinities and NaN as well. *)
Theorem aqi_band_partition :
  (∀ v, py_le v (Fin 50) = true →
        get_aqi_color v = "#00E400" ∧ get_aqi_level v = "良好") ∧
  (∀ v, py_lt (Fin 50) v = true → py_le v (Fin 100) = true →
        get_aqi_color v = "#FFFF00" ∧ get_aqi_level v = "中等") ∧
  (∀ v, py_lt (Fin 100) v = true →
        get_aqi_color v = "#FF0000" ∧ get_aqi_level v = "不健康") ∧
  (get_aqi_color (Fin 50) = "#00E400" ∧ get_aqi_level (Fin 50) = "良好") ∧
  (get_aqi_color (Fin 51) = "#FFFF00" ∧ get_aqi_level (Fin 51) = "中等") ∧
  (get_aqi_color (Fin 100) = "#FFFF00" ∧ get_aqi_level (Fin 100) = "中等") ∧
  (get_aqi_color (Fin 101) = "#FF0000" ∧ get_aqi_level (Fin 101) = "不健康") ∧
  (∀ v w, py_le v w = true →
        ∃ i j, color_rank (get_aqi_color v) = Some i
               ∧ color_rank (get_aqi_color w) = Some j ∧ (i ≤ j)%nat).
Proof.
  split; [|split; [|split]].
  - intros v Hv. unfold get_aqi_color, get_aqi_level. rewrite Hv. done.
  - intros v Hlo Hhi. unfold get_aqi_color, get_aqi_level.
    destruct (py_le v (Fin 50)) eqn:E.
    + apply py_le_lt_false in E. congruence.
    + rewrite Hhi. done.
  - intros v Hlo. unfold get_aqi_color, get_aqi_level.
    destruct (py_le v (Fin 100)) eqn:E.
    + apply py_le_lt_false in E. congruence.
    + destruct (py_le v (Fin 50)) eqn:E'; [|done].
      apply le_50_le_100 in E'. congruence.
  - repeat split; try reflexivity.
    intros v w Hvw.
    destruct (color_of_band_cases v) as [(Hv & -> & _)|[(Hv & Hv' & -> & _)|(Hv & Hv' & -> & _)]];
      destruct (color_of_band_cases w) as [(Hw & -> & _)|[(Hw & Hw' & -> & _)|(Hw & Hw' & -> & _)]];
      try (eexists _, _; split; [reflexivity|split; [reflexivity|lia]]);
      exfalso.
    + pose proof (py_le_trans _ _ _ Hvw Hw). congruence.
    + pose proof (py_le_trans _ _ _ Hvw Hw). congruence.
    + pose proof (py_le_trans _ _ _ Hvw Hw'). congruence.
Qed.

(** The partition at three sample values, one in each band. *)
Lemma aqi_band_partition_witness :
  (get_aqi_color (Fin 30) = "#00E400" ∧ get_aqi_level (Fin 30) = "良好") ∧
  (get_aqi_color (Fin 75.5) = "#FFFF00" ∧ get_aqi_level (Fin 75.5) = "中等") ∧
  (get_aqi_color PInf = "#FF0000" ∧ get_aqi_level PInf = "不健康") ∧
  (∃ i j, color_rank (get_aqi_color (Fin 30)) = Some i
          ∧ color_rank (get_aqi_color (Fin 75.5)) = Some j ∧ (i ≤ j)%nat).
Proof.
  destruct aqi_band_partition as (Hgood & Hmoderate & Hunhealthy & _ & _ & _ & _ & Hmono).
  split; [apply (Hgood (Fin 30)); reflexivity|].
  split; [apply (Hmoderate (Fin 75.5)); reflexivity|].
  split; [apply (Hunhealthy PInf); reflexivity|].
  apply (Hmono (Fin 30) (Fin 75.5)); reflexivity.
Defined.

(** C9. The color and the level of a value always name the same band:
    green exactly with 良好, yellow exactly with 中等, red exactly with
    不健康. *)
Theorem color_and_level_agree (v : pyfloat) :
  (get_aqi_color v = "#00E400" ↔ get_aqi_level v = "良好") ∧
  (get_aqi_color v = "#FFFF00" ↔ get_aqi_level v = "中等") ∧
  (get_aqi_color v = "#FF0000" ↔ get_aqi_level v = "不健康").
Proof.
  destruct (color_of_band_cases v) as [(_ & -> & ->)|[(_ & _ & -> & ->)|(_ & _ & -> & ->)]];
    repeat split; intros; done.
Qed.

(** ** The distance to Taipei station *)

Lemma round_half_even_close (x : Q) :
  (Qabs (inject_Z (round_half_even x) - x) <= 1 # 2)%Q.
Proof.
  unfold round_half_even.
  pose proof (Qfloor_le x) as Hlo.
  pose proof (Qlt_floor x) as Hhi.
  rewrite inject_Z_plus in Hhi. change (inject_Z 1) with 1%Q in Hhi.
  assert (∀ z, inject_Z (z + 1) == inject_Z z + 1)%Q as Hplus
    by (intros z; rewrite inject_Z_plus; reflexivity).
  destruct (Qcompare_spec (x - inject_Z (Qfloor x)) (1 # 2)) as [Heq|Hlt|Hgt].
  - destruct (Z.even (Qfloor x)); apply Qabs_Qle_condition;
      rewrite ?Hplus; split; lra.
  - apply Qabs_Qle_condition. split; lra.
  - apply Qabs_Qle_condition. rewrite Hplus. split; lra.
Qed.

Lemma py_round2_close (q : Q) :
  ∃ n : Z, py_round2 (Fin q) = Fin (n # 100) ∧ (Qabs ((n # 100) - q) <= 1 # 200)%Q.
Proof.
  exists (round_half_even (q * 100)). split; [reflexivity|].
  pose proof (round_half_even_close (q * 100)) as H.
  apply Qabs_Qle_condition in H. apply Qabs_Qle_condition.
  rewrite (Qmake_Qdiv (round_half_even (q * 100)) 100).
  change (inject_Z (Z.pos 100)) with 100%Q.
  set (r := inject_Z (round_half_even (q * 100))) in *.
  assert (r / 100 == r * (1 # 100))%Q as -> by (field).
  split; lra.
Qed.

Lemma calculate_distance_cases
  (geodesic_km : json * json → Q * Q → result pyfloat) (lat lon : json) :
  (∃ d, geodesic_km (lat, lon) taipei_station = Ret d
        ∧ calculate_distance_to_taipei geodesic_km lat lon = Ret (JNum (py_round2 d)))
  ∨ (∃ e, geodesic_km (lat, lon) taipei_station = Raise e
          ∧ calculate_distance_to_taipei geodesic_km lat lon = Ret JNull).
Proof.
  unfold calculate_distance_to_taipei.
  change (taipei_station.1, taipei_station.2) with taipei_station.
  destruct (geodesic_km (lat, lon) taipei_station) as [d|e] eqn:E.
  - left. exists d. split; reflexivity.
  - right. exists e. split; reflexivity.
Qed.

Lemma calculate_distance_returns geodesic_km lat lon :
  ∃ d, calculate_distance_to_taipei geodesic_km lat lon = Ret d.
Proof.
  destruct (calculate_distance_cases geodesic_km lat lon)
    as [(d & _ & ->)|(e & _ & ->)]; eauto.
Qed.

(** C10. [calculate_distance_to_taipei] never raises: when geopy returns a
    distance the result is that distance rounded to two decimals, and when
    geopy raises, whatever the exception, the result is [None]. The rounded
    value is a multiple of 1/100 at most 1/200 away from the distance. *)
Theorem calculate_distance_to_taipei_total
  (geodesic_km : json * json → Q * Q → result pyfloat) (lat lon : json) :
  ((∃ d, geodesic_km (lat, lon) taipei_station = Ret d
         ∧ calculate_distance_to_taipei geodesic_km lat lon = Ret (JNum (py_round2 d)))
   ∨ (∃ e, geodesic_km (lat, lon) taipei_station = Raise e
           ∧ calculate_distance_to_taipei geodesic_km lat lon = Ret JNull))
  ∧ (∀ q, ∃ n : Z, py_round2 (Fin q) = Fin (n # 100)
                   ∧ (Qabs ((n # 100) - q) <= 1 # 200)%Q).
Proof.
  split; [apply calculate_distance_cases|apply py_round2_close].
Qed.

(** ** Lists, loops and frames *)

Lemma mapM_Ret_fmap {A B} (f : A → result B) (d : B) (l : list A) (ys : list B) :
  mapM f l = Ret ys → ys = (fun x => or_default d (f x)) <$> l.
Proof.
  revert ys. induction l as [|x l IH]; intros ys; simpl.
  - intros [= <-]. reflexivity.
  - destruct (f x) as [y|e] eqn:Hx; simpl; [|discriminate].
    destruct (mapM f l) as [k|e]; simpl; [|discriminate].
    intros [= <-]. f_equal. by apply IH.
Qed.

Lemma filter_fmap {A B} (f : A → B) (P : B → Prop) `{!∀ y, Decision (P y)} (l : list A) :
  filter P (f <$> l) = f <$> filter (P ∘ f) l.
Proof.
  induction l as [|x l IH]; [reflexivity|].
  rewrite fmap_cons, !filter_cons, IH.
  repeat case_decide; try reflexivity; unfold compose in *; tauto.
Qed.

Lemma filter_ext_elem {A} (P Q : A → Prop) `{!∀ x, Decision (P x)} `{!∀ x, Decision (Q x)}
  (l : list A) :
  (∀ x, x ∈ l → P x ↔ Q x) → filter P l = filter Q l.
Proof.
  induction l as [|x l IH]; intros Hext; [reflexivity|].
  rewrite !filter_cons. rewrite IH by (intros y Hy; apply Hext; by right).
  assert (P x ↔ Q x) as Hx by (apply Hext; left).
  repeat case_decide; try reflexivity; tauto.
Qed.

Lemma forallb_fmap {A B} (f : B → bool) (g : A → B) (l : list A) :
  forallb f (g <$> l) = forallb (fun x => f (g x)) l.
Proof. induction l as [|x l IH]; [reflexivity|]. cbn [forallb fmap list_fmap]. by f_equal. Qed.

Lemma forallb_pointwise {A} (f g : A → bool) (l : list A) :
  (∀ x, f x = g x) → forallb f l = forallb g l.
Proof. intros H. induction l as [|x l IH]; [reflexivity|]. cbn [forallb]. by rewrite H, IH. Qed.

Lemma setitem_column_rows df c (g : gmap string json → json) :
  rows (setitem_column df c (g <$> rows df))
  = (fun row => <[c := g row]> row) <$> rows df.
Proof.
  simpl. rewrite zip_with_fmap_r. apply zip_with_diag.
Qed.

(** Membership of a literal in a list of literals that does not hold it. *)
Ltac absurd_member H :=
  repeat (apply elem_of_cons in H as [H|H]; [discriminate|]);
  by apply elem_of_nil in H.

Lemma not_kept_latitude : "latitude" ∉ columns_to_keep.
Proof. intros H. unfold columns_to_keep in H. absurd_member H. Qed.

Lemma not_kept_longitude : "longitude" ∉ columns_to_keep.
Proof. intros H. unfold columns_to_keep in H. absurd_member H. Qed.

Lemma not_kept_distance : "distance_to_taipei" ∉ columns_to_keep.
Proof. intros H. unfold columns_to_keep in H. absurd_member H. Qed.

Section Normalizer.

Set Default Proof Using "Type".

Variable parse_float : string → option pyfloat.
Variable geodesic_km : json * json → Q * Q → result pyfloat.
Variable DataFrame_other : json → result DataFrame.

Lemma bind_Ret_inv {A B} (m : result A) (f : A → result B) (b : B) :
  m ≫= f = Ret b → ∃ a, m = Ret a ∧ f a = Ret b.
Proof. destruct m as [a|e]; [eauto|discriminate]. Qed.

Lemma Ret_inj {A} (a b : A) : Ret a = Ret b → a = b.
Proof. by intros [= ->]. Qed.

(** With [errors='coerce'] the conversion of a column returns, whatever
    the column holds. *)
Lemma to_numeric_coerce_returns column :
  to_numeric parse_float column errors_coerce
  = Ret (if forallb is_bool column then column
         else (fun x => JNum (to_numeric_coerce parse_float x)) <$> column).
Proof.
  unfold to_numeric. destruct (forallb is_bool column); [reflexivity|].
  induction column as [|x column IH]; [reflexivity|].
  rewrite fmap_cons.
  change (mapM ?f (x :: column)) with (y ← f x; k ← mapM f column; mret (y :: k)).
  rewrite IH. unfold to_numeric_coerce. by destruct (read_number parse_float x).
Qed.

Lemma bool_column_lookup rows c row :
  bool_column rows c = true → row ∈ rows → row !! c = Some (cell c row).
Proof.
  unfold bool_column. intros Hall Hrow.
  induction Hrow as [row rest|row' row rest _ IH]; cbn [forallb] in Hall;
    apply andb_true_iff in Hall as [Hrow Hrest]; [|by apply IH].
  unfold cell in *. by destruct (row !! c) as [x|].
Qed.

Lemma coerce_column_returns df col :
  coerce_column parse_float df col = Ret (coerced_column parse_float df col).
Proof.
  unfold coerce_column, coerced_column, converted_columns.
  destruct (decide (col ∈ columns df)) as [Hin|Hin].
  2: { rewrite decide_False; [done|]. intros H. by apply list_elem_of_filter in H as [_ H]. }
  unfold getitem_column. rewrite decide_True by done.
  change (Ret ?a ≫= ?f) with (f a). cbv beta.
  rewrite to_numeric_coerce_returns.
  change (Ret ?a ≫= ?f) with (f a). cbv beta.
  rewrite forallb_fmap. change (forallb _ (rows df)) with (bool_column (rows df) col).
  destruct (bool_column (rows df) col) eqn:Hbool.
  - rewrite decide_False by (intros H; apply list_elem_of_filter in H as [H _]; congruence).
    f_equal. destruct df as [cols rws]. unfold setitem_column. cbn [columns rows] in *.
    rewrite decide_True by done. f_equal.
    rewrite zip_with_fmap_r, zip_with_diag.
    rewrite <- (list_fmap_id rws) at 2. apply list_fmap_ext. intros i row Hrow.
    apply insert_id. eapply bool_column_lookup; [exact Hbool|].
    eapply list_elem_of_lookup_2, Hrow.
  - rewrite decide_True by (by apply list_elem_of_filter).
    by rewrite <- list_fmap_compose.
Qed.

Lemma coerced_column_columns df col :
  columns (coerced_column parse_float df col) = columns df.
Proof.
  unfold coerced_column. case_decide as Hin; [|reflexivity].
  apply list_elem_of_filter in Hin as [_ Hin].
  simpl. by rewrite decide_True.
Qed.

Lemma coerced_column_rows df col :
  rows (coerced_column parse_float df col)
  = (fun row => coerce_cell parse_float (converted_columns df) row col) <$> rows df.
Proof.
  unfold coerced_column, coerce_cell. case_decide as Hin.
  - rewrite <- list_fmap_compose.
    apply (setitem_column_rows df col (fun row => JNum (to_numeric_coerce parse_float (cell col row)))).
  - symmetry. apply list_fmap_id.
Qed.

(** Converting one column leaves every column as it was with respect to
    holding [bool]s only. *)
Lemma coerced_column_bool df col c :
  bool_column (rows (coerced_column parse_float df col)) c = bool_column (rows df) c.
Proof.
  rewrite coerced_column_rows. unfold bool_column, coerce_cell. rewrite forallb_fmap.
  case_decide as Hin; [|reflexivity].
  destruct (decide (c = col)) as [->|Hne].
  - apply list_elem_of_filter in Hin as [Hbool _]. unfold bool_column in Hbool.
    rewrite Hbool. destruct (rows df) as [|row rest]; [discriminate Hbool|].
    cbn [forallb]. unfold cell at 1. by rewrite lookup_insert_eq.
  - apply forallb_pointwise. intros row. unfold cell.
    by rewrite lookup_insert_ne.
Qed.

Lemma coerced_column_converted df col :
  converted_columns (coerced_column parse_float df col) = converted_columns df.
Proof.
  unfold converted_columns. rewrite coerced_column_columns.
  apply list_filter_iff. intros c. by rewrite coerced_column_bool.
Qed.

Lemma coerce_loop df cols :
  columns (foldl (coerced_column parse_float) df cols) = columns df
  ∧ rows (foldl (coerced_column parse_float) df cols)
    = (fun row => foldl (coerce_cell parse_float (converted_columns df)) row cols)
        <$> rows df.
Proof.
  revert df. induction cols as [|col cols IH]; intros df; simpl.
  - split; [reflexivity|]. symmetry. apply list_fmap_id.
  - destruct (IH (coerced_column parse_float df col)) as [Hc Hr].
    rewrite Hc, Hr, coerced_column_columns, coerced_column_rows, coerced_column_converted.
    split; [reflexivity|]. by rewrite <- list_fmap_compose.
Qed.

(** The loop over the numeric columns never raises. *)
Lemma coerce_loop_returns df cols :
  for_loop (coerce_column parse_float) df cols
  = Ret (foldl (coerced_column parse_float) df cols).
Proof.
  revert df. induction cols as [|col cols IH]; intros df; [reflexivity|].
  cbn [for_loop foldl]. rewrite coerce_column_returns.
  change (Ret ?a ≫= ?f) with (f a). cbv beta. apply IH.
Qed.

Lemma lookup_project (available : list string) (record : gmap string json) c :
  c ∈ available →
  filter (fun kv : string * json => kv.1 ∈ available) record !! c = record !! c.
Proof.
  intros Hc. rewrite map_lookup_filter.
  destruct (record !! c) as [x|]; simpl; [|reflexivity].
  by rewrite option_guard_True.
Qed.

Lemma latitude_of_not_bool row : is_bool (latitude_of row) = false.
Proof.
  unfold latitude_of, coordinates_get.
  destruct (cell "sitename" row) as [| | |s| |]; try reflexivity.
  by destruct (station_coordinates !! s) as [[lat lon]|].
Qed.

Lemma longitude_of_not_bool row : is_bool (longitude_of row) = false.
Proof.
  unfold longitude_of, coordinates_get.
  destruct (cell "sitename" row) as [| | |s| |]; try reflexivity.
  by destruct (station_coordinates !! s) as [[lat lon]|].
Qed.

Lemma as_records_nonempty data records :
  as_records data = Some records → truthy data = true → records ≠ [].
Proof.
  destruct data as [| | | |items|]; try discriminate. cbn [as_records truthy].
  destruct items as [|x items]; [discriminate|]. intros H _ ->.
  change (mapM as_record (x :: items))
    with (y ← as_record x; k ← mapM as_record items; mret (y :: k)) in H.
  destruct (as_record x); [|discriminate].
  destruct (mapM as_record items); discriminate.
Qed.

(** The columns that the loop converts in the frame of the projected
    records with their coordinates. *)
Lemma converted_columns_of (available : list string) (records : list (gmap string json))
    (df2 : DataFrame) :
  records ≠ [] →
  available ⊆ columns_to_keep →
  columns df2 = (available ++ ["latitude"; "longitude"])%list →
  rows df2
  = (fun r0 => let r1 := <["latitude" := latitude_of r0]> r0 in
               <["longitude" := longitude_of r1]> r1)
      <$> ((fun row => filter (fun kv => kv.1 ∈ available) row) <$> records) →
  converted_columns df2 = converted_of records available.
Proof.
  intros Hne Hsub Hc Hr. unfold converted_columns, converted_of.
  rewrite Hc, list.filter_app, Hr, <- list_fmap_compose. f_equal.
  - apply filter_ext_elem. intros c Hin.
    assert (c ≠ "latitude") by (intros ->; by apply not_kept_latitude, Hsub).
    assert (c ≠ "longitude") by (intros ->; by apply not_kept_longitude, Hsub).
    unfold bool_column. rewrite forallb_fmap.
    rewrite (forallb_pointwise _ (fun row => is_bool (cell c row))); [done|].
    intros row. unfold compose, cell. cbv zeta.
    rewrite !lookup_insert_ne by done. by rewrite lookup_project.
  - destruct records as [|record records]; [done|].
    rewrite !filter_cons, filter_nil. unfold bool_column.
    cbn [fmap list_fmap forallb compose]. unfold cell. cbv zeta.
    rewrite lookup_insert_eq. rewrite lookup_insert_ne by done. rewrite lookup_insert_eq.
    cbn [default from_option id]. rewrite latitude_of_not_bool, longitude_of_not_bool.
    cbn [andb]. by rewrite !decide_True.
Qed.

(** The rows [process_data] returns are the input records, each normalized
    on its own, without those that lack a coordinate. *)
Lemma process_data_rows data records df :
  as_records data = Some records →
  process_data parse_float geodesic_km DataFrame_other data = Ret (Some df) →
  let available :=
    filter (fun col => col ∈ columns (frame_of_records records)) columns_to_keep in
  "sitename" ∈ available
  ∧ columns df
    = (((fun c => if decide (c = "publishtime") then "datacreationdate" else c)
          <$> (available ++ ["latitude"; "longitude"]))
       ++ ["distance_to_taipei"])%list
  ∧ rows df
    = finish_row geodesic_km available
        <$> filter (fun row => has_coordinates row = true)
              (normalize_row parse_float (converted_of (dict_of <$> records) available)
                 available <$> (dict_of <$> records)).
Proof.
  intros Hrecords. unfold process_data, pd_DataFrame. rewrite Hrecords.
  destruct (truthy data) eqn:Htruthy; [|discriminate].
  pose proof (as_records_nonempty _ _ Hrecords Htruthy) as Hne.
  change (negb true) with false. cbv iota.
  intros H. apply bind_Ret_inv in H as (df0 & [= <-] & H).
  cbv zeta in H.
  set (available := filter _ columns_to_keep) in *.
  set (dfa := getitem_columns (frame_of_records records) available) in *.
  assert (columns dfa = available) as Hca by reflexivity.
  assert (rows dfa = (fun row => filter (fun kv => kv.1 ∈ available) row)
                       <$> (dict_of <$> records)) as Hra by reflexivity.
  clearbody dfa.
  (* latitude *)
  apply bind_Ret_inv in H as (sitename & Hsite & H).
  unfold getitem_column in Hsite. rewrite Hca in Hsite.
  case_decide as Hin; [|discriminate]. injection Hsite as <-.
  apply bind_Ret_inv in H as (latitude & Hlat & H).
  apply (mapM_Ret_fmap _ JNull) in Hlat. rewrite <- list_fmap_compose in Hlat.
  subst latitude.
  set (df1 := setitem_column dfa "latitude" _) in *.
  assert (columns df1 = (available ++ ["latitude"])%list) as Hc1.
  { unfold df1. simpl. rewrite Hca, decide_False; [done|].
    intros Hx. apply list_elem_of_filter in Hx as [_ Hx]. by apply not_kept_latitude. }
  assert (rows df1 = (fun row => <["latitude" := latitude_of row]> row) <$> rows dfa) as Hr1.
  { unfold df1. rewrite setitem_column_rows. apply list_fmap_ext. intros i row _.
    f_equal. unfold compose, latitude_of.
    destruct (coordinates_get (cell "sitename" row)) as [[? ?]|]; reflexivity. }
  clearbody df1.
  (* longitude *)
  apply bind_Ret_inv in H as (sitename & Hsite & H).
  unfold getitem_column in Hsite. rewrite Hc1 in Hsite.
  rewrite decide_True in Hsite by (apply elem_of_app; auto). injection Hsite as <-.
  apply bind_Ret_inv in H as (longitude & Hlon & H).
  apply (mapM_Ret_fmap _ JNull) in Hlon. rewrite <- list_fmap_compose in Hlon.
  subst longitude.
  set (df2 := setitem_column df1 "longitude" _) in *.
  assert (columns df2 = (available ++ ["latitude"; "longitude"])%list) as Hc2.
  { unfold df2. simpl. rewrite Hc1, decide_False; [by rewrite <- app_assoc|].
    intros Hx. apply elem_of_app in Hx as [Hx|Hx].
    - apply list_elem_of_filter in Hx as [_ Hx]. by apply not_kept_longitude.
    - apply elem_of_cons in Hx as [Hx|Hx]; [discriminate|by apply elem_of_nil in Hx]. }
  assert (rows df2 = (fun row => <["longitude" := longitude_of row]> row) <$> rows df1) as Hr2.
  { unfold df2. rewrite setitem_column_rows. apply list_fmap_ext. intros i row _.
    f_equal. unfold compose, longitude_of.
    destruct (coordinates_get (cell "sitename" row)) as [[? ?]|]; reflexivity. }
  clearbody df2.
  (* coercion, dropna, rename *)
  apply bind_Ret_inv in H as (df3 & Hloop & H).
  rewrite coerce_loop_returns in Hloop. apply Ret_inj in Hloop as Hd3.
  destruct (coerce_loop df2 numeric_columns) as [Hc3 Hr3].
  rewrite Hd3 in Hc3, Hr3. clear Hd3.
  assert (converted_columns df2 = converted_of (dict_of <$> records) available) as Hconv.
  { apply converted_columns_of; [by destruct records| |exact Hc2|].
    - intros c Hc. by apply list_elem_of_filter in Hc as [_ Hc].
    - by rewrite Hr2, Hr1, Hra, <- !list_fmap_compose. }
  set (df4 := dropna df3 _) in *.
  assert (columns df4 = columns df3) as Hc4 by reflexivity.
  assert (rows df4 = filter (fun row => has_coordinates row = true) (rows df3)) as Hr4
    by reflexivity.
  clearbody df4.
  assert ("publishtime" ∈ columns df4 ↔ "publishtime" ∈ available) as Hpub.
  { rewrite Hc4, Hc3, Hc2, elem_of_app, !elem_of_cons, elem_of_nil.
    split; [intros [?|[?|[?|[]]]]; [done|discriminate..]|auto]. }
  set (df5 := if decide ("publishtime" ∈ columns df4) then _ else _) in *.
  assert (rows df5 = (fun row => if decide ("publishtime" ∈ available)
                                 then rename_key "publishtime" "datacreationdate" row
                                 else row) <$> rows df4) as Hr5.
  { unfold df5. destruct (decide ("publishtime" ∈ columns df4)) as [Hp|Hp].
    - simpl. apply list_fmap_ext. intros i row _. rewrite decide_True; [done|tauto].
    - rewrite <- (list_fmap_id (rows df4)) at 1.
      apply list_fmap_ext. intros i row _. rewrite decide_False; [done|tauto]. }
  assert (columns df5
          = (fun c => if decide (c = "publishtime") then "datacreationdate" else c)
              <$> (available ++ ["latitude"; "longitude"])%list) as Hc5.
  { unfold df5. rewrite <- Hc2, <- Hc3, <- Hc4.
    destruct (decide ("publishtime" ∈ columns df4)) as [Hp|Hp]; [reflexivity|].
    rewrite <- (list_fmap_id (columns df4)) at 1.
    apply list_fmap_ext. intros i c Hc. rewrite decide_False; [done|].
    intros ->. apply Hp. eapply list_elem_of_lookup_2, Hc. }
  clearbody df5.
  (* distance *)
  apply bind_Ret_inv in H as (distance & Hdist & H).
  apply (mapM_Ret_fmap _ JNull) in Hdist. subst distance. injection H as <-.
  split; [exact Hin|]. split.
  { unfold setitem_column at 1. cbn [columns]. rewrite decide_False; rewrite Hc5; [done|].
    intros Hx. apply list_elem_of_fmap in Hx as (c & Hc & Hx).
    case_decide; [discriminate|]. subst c.
    apply elem_of_app in Hx as [Hx|Hx]; [|absurd_member Hx].
    apply list_elem_of_filter in Hx as [_ Hx]. by apply not_kept_distance. }
  rewrite setitem_column_rows, Hr5, Hr4, Hr3, Hconv, Hr2, Hr1, Hra.
  rewrite <- !list_fmap_compose.
  unfold finish_row, normalize_row, distance_of, compose. reflexivity.
Qed.


(** *** What the normalization makes of one row *)

Lemma coerce_cell_lookup cols row col c :
  coerce_cell parse_float cols row col !! c
  = if decide (c = col ∧ c ∈ cols)
    then Some (JNum (to_numeric_coerce parse_float (cell c row)))
    else row !! c.
Proof.
  unfold coerce_cell.
  destruct (decide (col ∈ cols)) as [Hin|Hin].
  - destruct (decide (c = col)) as [->|Hne].
    + rewrite lookup_insert_eq, decide_True; done.
    + rewrite lookup_insert_ne by done. rewrite decide_False; [done|by intros [? _]].
  - rewrite decide_False; [done|]. intros [-> ?]. done.
Qed.

Lemma coerce_fold_lookup cols (l : list string) row c :
  foldl (coerce_cell parse_float cols) row l !! c
  = if decide (c ∈ l ∧ c ∈ cols)
    then Some (JNum (to_numeric_coerce parse_float (cell c row)))
    else row !! c.
Proof.
  revert row. induction l as [|col l IH]; intros row; cbn [foldl].
  - rewrite decide_False; [done|]. intros [H _]. by apply elem_of_nil in H.
  - rewrite IH. unfold cell at 1. rewrite !coerce_cell_lookup.
    destruct (decide (c = col ∧ c ∈ cols)) as [[-> Hin]|Hne].
    + cbn [default]. rewrite (decide_True (P := col ∈ col :: l ∧ col ∈ cols))
        by (split; [left|done]).
      by destruct (decide (col ∈ l ∧ col ∈ cols)).
    + destruct (decide (c ∈ l ∧ c ∈ cols)) as [[Hl Hin]|Hnl].
      * rewrite decide_True by (split; [by right|done]). reflexivity.
      * rewrite decide_False; [done|].
        intros [Hc Hin]. apply elem_of_cons in Hc as [->|Hc]; [by apply Hne|by apply Hnl].
Qed.

Lemma rename_key_lookup_ne old new (row : gmap string json) c :
  c ≠ old → c ≠ new → rename_key old new row !! c = row !! c.
Proof.
  intros Ho Hn. unfold rename_key. destruct (row !! old); [|done].
  rewrite lookup_insert_ne by done. by rewrite lookup_delete_ne.
Qed.

Lemma finish_row_lookup available row c :
  c ≠ "publishtime" → c ≠ "datacreationdate" → c ≠ "distance_to_taipei" →
  finish_row geodesic_km available row !! c = row !! c.
Proof.
  intros H1 H2 H3. unfold finish_row.
  rewrite lookup_insert_ne by done.
  case_decide; [by apply rename_key_lookup_ne|done].
Qed.

Lemma normalize_row_sitename cols available record :
  "sitename" ∈ available →
  normalize_row parse_float cols available record !! "sitename" = record !! "sitename".
Proof.
  intros Hin. unfold normalize_row. rewrite coerce_fold_lookup.
  rewrite decide_False.
  - rewrite !lookup_insert_ne by done. by apply lookup_project.
  - intros [H _]. unfold numeric_columns in H.
    absurd_member H.
Qed.

Lemma normalize_row_numeric cols available record c :
  c ∈ numeric_columns → c ∈ available → c ∈ cols → c ≠ "latitude" → c ≠ "longitude" →
  normalize_row parse_float cols available record !! c
  = Some (JNum (to_numeric_coerce parse_float (cell c record))).
Proof.
  intros Hnum Hin Hcols Hlat Hlon. unfold normalize_row. rewrite coerce_fold_lookup.
  rewrite decide_True by done.
  unfold cell. rewrite !lookup_insert_ne by done. by rewrite lookup_project.
Qed.

(** A kept column that the loop does not convert holds what the record
    has. *)
Lemma normalize_row_kept cols available record c :
  c ∈ available → c ∉ cols → c ≠ "latitude" → c ≠ "longitude" →
  normalize_row parse_float cols available record !! c = record !! c.
Proof.
  intros Hin Hcols Hlat Hlon. unfold normalize_row. rewrite coerce_fold_lookup.
  rewrite decide_False by (by intros [_ ?]).
  rewrite !lookup_insert_ne by done. by rewrite lookup_project.
Qed.

Lemma coordinates_of_known x :
  known_site x = true →
  ∃ s lat lon, x = JStr s ∧ station_coordinates !! s = Some (lat, lon)
               ∧ coordinates_get x = Ret (JNum (Fin lat), JNum (Fin lon)).
Proof.
  destruct x as [| | |s| |]; try discriminate. unfold known_site, coordinates_get.
  rewrite bool_decide_eq_true. intros [[lat lon] Hs].
  exists s, lat, lon. rewrite Hs. auto.
Qed.

Lemma coordinates_of_unknown x :
  known_site x = false → or_default (JNull, JNull) (coordinates_get x) = (JNull, JNull).
Proof.
  destruct x as [| | |s| |]; try reflexivity. unfold known_site, coordinates_get.
  rewrite bool_decide_eq_false. intros Hs.
  destruct (station_coordinates !! s) as [[lat lon]|] eqn:E; [|reflexivity].
  exfalso. apply Hs. eauto.
Qed.

Lemma normalize_row_latitude cols available record :
  "sitename" ∈ available → "latitude" ∈ cols →
  normalize_row parse_float cols available record !! "latitude"
  = Some (JNum (to_numeric_coerce parse_float
                  (or_default (JNull, JNull) (coordinates_get (cell "sitename" record))).1)).
Proof.
  intros Hin Hcols. unfold normalize_row. rewrite coerce_fold_lookup.
  rewrite decide_True.
  - unfold cell at 1. rewrite lookup_insert_ne by done. rewrite lookup_insert_eq.
    cbn [default]. unfold latitude_of, cell. rewrite lookup_project by done.
    by destruct (coordinates_get _).
  - split; [|done].
    unfold numeric_columns. do 7 right. left.
Qed.

Lemma normalize_row_longitude cols available record :
  "sitename" ∈ available → "longitude" ∈ cols →
  normalize_row parse_float cols available record !! "longitude"
  = Some (JNum (to_numeric_coerce parse_float
                  (or_default (JNull, JNull) (coordinates_get (cell "sitename" record))).2)).
Proof.
  intros Hin Hcols. unfold normalize_row. rewrite coerce_fold_lookup.
  rewrite decide_True.
  - unfold cell at 1. rewrite lookup_insert_eq.
    cbn [default]. unfold longitude_of, cell.
    rewrite lookup_insert_ne by done. rewrite lookup_project by done.
    by destruct (coordinates_get _).
  - split; [|done].
    unfold numeric_columns. do 8 right. left.
Qed.

Lemma converted_latitude records available :
  "latitude" ∈ converted_of records available.
Proof. unfold converted_of. apply elem_of_app. right. left. Qed.

Lemma converted_longitude records available :
  "longitude" ∈ converted_of records available.
Proof. unfold converted_of. apply elem_of_app. right. right. left. Qed.

Lemma has_coordinates_known cols available record :
  "sitename" ∈ available → "latitude" ∈ cols → "longitude" ∈ cols →
  has_coordinates (normalize_row parse_float cols available record)
  = known_site (cell "sitename" record).
Proof.
  intros Hin Hlat Hlon. unfold has_coordinates. cbn [forallb]. unfold cell at 1 2.
  rewrite normalize_row_latitude, normalize_row_longitude by done. cbn [default].
  destruct (known_site (cell "sitename" record)) eqn:Hk.
  - apply coordinates_of_known in Hk as (s & lat & lon & _ & _ & ->). reflexivity.
  - apply coordinates_of_unknown in Hk as ->. reflexivity.
Qed.

(** The rows of the enriched frame, from the raw records: the records with
    a known site name, in input order, each normalized on its own. *)
Lemma process_data_enriched data records df :
  as_records data = Some records →
  process_data parse_float geodesic_km DataFrame_other data = Ret (Some df) →
  let available :=
    filter (fun col => col ∈ columns (frame_of_records records)) columns_to_keep in
  "sitename" ∈ available
  ∧ columns df
    = (((fun c => if decide (c = "publishtime") then "datacreationdate" else c)
          <$> (available ++ ["latitude"; "longitude"]))
       ++ ["distance_to_taipei"])%list
  ∧ rows df
    = (fun record => finish_row geodesic_km available
                       (normalize_row parse_float
                          (converted_of (dict_of <$> records) available)
                          available (dict_of record)))
        <$> filter (fun record => known_site (site_of record) = true) records.
Proof.
  intros Hrecords Hdf.
  destruct (process_data_rows _ _ _ Hrecords Hdf) as (Hin & Hcols & Hrows).
  split; [exact Hin|]. split; [exact Hcols|]. rewrite Hrows.
  rewrite <- list_fmap_compose, filter_fmap, <- list_fmap_compose.
  f_equal. apply list_filter_iff. intros record. unfold compose, site_of.
  rewrite has_coordinates_known; [done|done|apply converted_latitude|apply converted_longitude].
Qed.

End Normalizer.

(** ** The normalizer *)

Lemma cell_enriched parse_float geodesic_km cols available record :
  "sitename" ∈ available →
  cell "sitename" (finish_row geodesic_km available
                     (normalize_row parse_float cols available (dict_of record)))
  = site_of record.
Proof.
  intros Hin. unfold cell, site_of, cell.
  rewrite finish_row_lookup by done. by rewrite normalize_row_sitename.
Qed.

Lemma coordinates_enriched parse_float geodesic_km cols available record :
  "sitename" ∈ available → "latitude" ∈ cols → "longitude" ∈ cols →
  known_site (site_of record) = true →
  let row := finish_row geodesic_km available
               (normalize_row parse_float cols available (dict_of record)) in
  ∃ s lat lon,
    row !! "sitename" = Some (JStr s)
    ∧ station_coordinates !! s = Some (lat, lon)
    ∧ row !! "latitude" = Some (JNum (Fin lat))
    ∧ row !! "longitude" = Some (JNum (Fin lon)).
Proof.
  intros Hin Hlatitude Hlongitude Hknown row. unfold row.
  destruct (coordinates_of_known _ Hknown) as (s & lat & lon & Hs & Htable & Hget).
  exists s, lat, lon.
  rewrite !finish_row_lookup by done.
  rewrite normalize_row_sitename, normalize_row_latitude, normalize_row_longitude by done.
  fold (site_of record). rewrite Hget.
  cbn [or_default fst snd]. unfold to_numeric_coerce. cbn [read_number].
  split; [|auto].
  unfold site_of, cell in Hs.
  destruct (dict_of record !! "sitename") as [x|]; [|discriminate Hs].
  simpl in Hs. by rewrite Hs.
Qed.

Lemma enriched_rows_coordinates parse_float geodesic_km DataFrame_other data records df :
  as_records data = Some records →
  process_data parse_float geodesic_km DataFrame_other data = Ret (Some df) →
  Forall (fun row => ∃ s lat lon,
            row !! "sitename" = Some (JStr s)
            ∧ station_coordinates !! s = Some (lat, lon)
            ∧ row !! "latitude" = Some (JNum (Fin lat))
            ∧ row !! "longitude" = Some (JNum (Fin lon))) (rows df).
Proof.
  intros Hrecords Hdf.
  destruct (process_data_enriched _ _ _ _ _ _ Hrecords Hdf) as (Hin & _ & ->).
  apply Forall_fmap, list.Forall_forall. intros record Hrecord.
  apply list_elem_of_filter in Hrecord as [Hknown _].
  apply coordinates_enriched;
    [done|apply converted_latitude|apply converted_longitude|done].
Qed.

Lemma enriched_columns parse_float geodesic_km DataFrame_other data records df :
  as_records data = Some records →
  process_data parse_float geodesic_km DataFrame_other data = Ret (Some df) →
  "sitename" ∈ columns df ∧ "latitude" ∈ columns df ∧ "longitude" ∈ columns df
  ∧ "distance_to_taipei" ∈ columns df.
Proof.
  intros Hrecords Hdf.
  destruct (process_data_enriched _ _ _ _ _ _ Hrecords Hdf) as (Hin & -> & _).
  repeat split; apply elem_of_app.
  - left. apply list_elem_of_fmap. exists "sitename". split; [reflexivity|].
    apply elem_of_app. by left.
  - left. apply list_elem_of_fmap. exists "latitude". split; [reflexivity|].
    apply elem_of_app. right. left.
  - left. apply list_elem_of_fmap. exists "longitude". split; [reflexivity|].
    apply elem_of_app. right. right. left.
  - right. left.
Qed.

(** C3. Of a list of raw records, the enriched frame holds exactly those
    whose site name is a key of the coordinate table, in input order: its
    rows are the image of the filtered input list, its site-name column is
    the filtered input column, and every row carries the latitude and the
    longitude of the table as numbers. *)
Theorem unknown_stations_excluded
  (parse_float : string → option pyfloat)
  (geodesic_km : json * json → Q * Q → result pyfloat)
  (DataFrame_other : json → result DataFrame)
  (data : json) (records : list (list (string * json))) (df : DataFrame) :
  as_records data = Some records →
  process_data parse_float geodesic_km DataFrame_other data = Ret (Some df) →
  (∃ f, rows df = f <$> filter (fun record => known_site (site_of record) = true) records)
  ∧ cell "sitename" <$> rows df
    = filter (fun x => known_site x = true) (site_of <$> records)
  ∧ Forall (fun row => ∃ s lat lon,
              row !! "sitename" = Some (JStr s)
              ∧ station_coordinates !! s = Some (lat, lon)
              ∧ row !! "latitude" = Some (JNum (Fin lat))
              ∧ row !! "longitude" = Some (JNum (Fin lon))) (rows df).
Proof.
  intros Hrecords Hdf.
  destruct (process_data_enriched _ _ _ _ _ _ Hrecords Hdf) as (Hin & _ & Hrows).
  rewrite Hrows. split; [eauto|]. split.
  - rewrite <- list_fmap_compose, filter_fmap.
    apply list_fmap_ext. intros i record _. by apply cell_enriched.
  - rewrite <- Hrows. by eapply enriched_rows_coordinates.
Qed.

(** Three records, the second of an unknown station: the first and the
    third survive, in that order. *)
Lemma unknown_stations_excluded_witness :
  cell "sitename" <$> rows Sample.null_aqi_frame = [JStr "大安"; JStr "古亭"].
Proof.
  pose proof (unknown_stations_excluded
                Sample.parse_float Sample.geodesic_km Sample.DataFrame_other
                Sample.null_aqi Sample.null_aqi_records Sample.null_aqi_frame
                ltac:(reflexivity) ltac:(vm_compute; reflexivity)) as (_ & H & _).
  rewrite H. vm_compute. reflexivity.
Defined.

Lemma numeric_not_renamed col :
  col ∈ numeric_columns →
  col ≠ "publishtime" ∧ col ≠ "datacreationdate" ∧ col ≠ "distance_to_taipei"
  ∧ col ≠ "sitename".
Proof.
  intros H. repeat split; intros ->; unfold numeric_columns in H; absurd_member H.
Qed.

Lemma bool_column_elem rows c row :
  bool_column rows c = true → row ∈ rows → ∃ b, row !! c = Some (JBool b).
Proof.
  intros Hbool Hrow. rewrite (bool_column_lookup _ _ _ Hbool Hrow).
  unfold bool_column in Hbool.
  induction Hrow as [row rest|row' row rest _ IH]; cbn [forallb] in Hbool;
    apply andb_true_iff in Hbool as [Hrow Hrest]; [|by apply IH].
  destruct (cell c row); try discriminate. eauto.
Qed.

(** A kept column is converted unless every record has a [bool] in it. *)
Lemma converted_of_elem records available c :
  c ∈ available →
  c ∈ converted_of records available ∨ bool_column records c = true.
Proof.
  intros Hin. destruct (bool_column records c) eqn:Hbool; [by right|].
  left. unfold converted_of. apply elem_of_app. left. by apply list_elem_of_filter.
Qed.

(** In the enriched frame a cell of a numeric column stands for a number:
    it is a number (NaN included), or a [bool] where every record has a
    [bool] in that column. *)
Lemma process_data_numeric parse_float geodesic_km DataFrame_other data records df col :
  as_records data = Some records →
  process_data parse_float geodesic_km DataFrame_other data = Ret (Some df) →
  col ∈ numeric_columns → col ∈ columns df →
  Forall (fun row => (∃ v, row !! col = Some (JNum v))
                     ∨ (∃ b, row !! col = Some (JBool b)
                             ∧ bool_column (dict_of <$> records) col = true))
    (rows df).
Proof.
  intros Hrecords Hdf Hnum Hcol.
  destruct (process_data_enriched _ _ _ _ _ _ Hrecords Hdf) as (Hin & Hcols & Hrows).
  destruct (numeric_not_renamed _ Hnum) as (H1 & H2 & H3 & H4).
  rewrite Hcols in Hcol. rewrite Hrows. clear Hcols Hrows.
  apply elem_of_app in Hcol as [Hcol|Hcol].
  2: { apply elem_of_cons in Hcol as [->|Hcol]; [done|by apply elem_of_nil in Hcol]. }
  apply list_elem_of_fmap in Hcol as (c & Hc & Hcol).
  case_decide; [done|]. subst c.
  apply Forall_fmap, list.Forall_forall. intros record Hrecord. cbn [compose].
  apply list_elem_of_filter in Hrecord as [_ Hrecord].
  rewrite finish_row_lookup by done.
  apply elem_of_app in Hcol as [Hcol|Hcol].
  - assert (col ≠ "latitude") as Hla
      by (intros ->; apply list_elem_of_filter in Hcol as [_ Hcol];
          by apply not_kept_latitude).
    assert (col ≠ "longitude") as Hlo
      by (intros ->; apply list_elem_of_filter in Hcol as [_ Hcol];
          by apply not_kept_longitude).
    destruct (converted_of_elem (dict_of <$> records) _ col Hcol) as [Hconv|Hbool].
    + left. rewrite normalize_row_numeric by done. eauto.
    + right. rewrite normalize_row_kept; [|done| |done|done].
      * destruct (bool_column_elem _ _ (dict_of record) Hbool) as [b Hb];
          [by apply list_elem_of_fmap_2|]. eauto.
      * unfold converted_of. intros Hx. apply elem_of_app in Hx as [Hx|Hx].
        -- apply list_elem_of_filter in Hx as [Hx _]. congruence.
        -- apply elem_of_cons in Hx as [->|Hx]; [done|].
           apply elem_of_cons in Hx as [->|Hx]; [done|by apply elem_of_nil in Hx].
  - left. apply elem_of_cons in Hcol as [->|Hcol].
    + rewrite normalize_row_latitude; [eauto|done|apply converted_latitude].
    + apply elem_of_cons in Hcol as [->|Hcol]; [|by apply elem_of_nil in Hcol].
      rewrite normalize_row_longitude; [eauto|done|apply converted_longitude].
Qed.

(** What the loop over the numeric columns makes of one cell of a column
    that is not a column of [bool]s. *)
Lemma coerced_cell_cases parse_float (x : json) :
  match x with
  | JNum v => to_numeric_coerce parse_float x = v
  | JBool b => to_numeric_coerce parse_float x = Fin (if b then 1 else 0)
  | JStr s =>
      to_numeric_coerce parse_float x
      = if decide (s = "") then NaN else default NaN (parse_float s)
  | JNull | JArr _ | JObj _ => to_numeric_coerce parse_float x = NaN
  end.
Proof.
  unfold to_numeric_coerce.
  destruct x as [| | |s|items|members]; try reflexivity.
  - destruct s as [|a s]; [reflexivity|]. rewrite decide_False by discriminate.
    cbn [read_number]. by destruct (parse_float (String a s)).
  - by destruct items.
  - by destruct members.
Qed.

Lemma coerced_cell_converted parse_float (x : json) :
  converted_cell parse_float x (Some (JNum (to_numeric_coerce parse_float x))).
Proof.
  pose proof (coerced_cell_cases parse_float x) as Hcases.
  unfold converted_cell. destruct x; rewrite Hcases; eauto.
Qed.

Lemma to_numeric_raise_text parse_float (s : string) :
  s ≠ "" → parse_float s = None →
  to_numeric parse_float [JStr s] errors_raise = Raise ValueError.
Proof.
  intros Hs Hparse. unfold to_numeric. cbn [forallb is_bool andb].
  change (mapM ?f [JStr s]) with (y ← f (JStr s); k ← mapM f []; mret (y :: k)).
  destruct s as [|a s]; [done|]. cbn [read_number]. by rewrite Hparse.
Qed.

Lemma coerce_loop_cell parse_float df0 col i row0 :
  col ∈ numeric_columns → col ∈ columns df0 → rows df0 !! i = Some row0 →
  ∃ row1,
    rows (foldl (coerced_column parse_float) df0 numeric_columns) !! i = Some row1
    ∧ row1 !! col
      = if bool_column (rows df0) col then row0 !! col
        else Some (JNum (to_numeric_coerce parse_float (cell col row0))).
Proof.
  intros Hnum Hcol Hrow.
  destruct (coerce_loop parse_float df0 numeric_columns) as [_ ->].
  rewrite list_lookup_fmap, Hrow. eexists; split; [reflexivity|].
  rewrite coerce_fold_lookup. unfold converted_columns.
  destruct (bool_column (rows df0) col) eqn:Hbool.
  - rewrite decide_False; [done|]. intros [_ H].
    apply list_elem_of_filter in H as [H _]. congruence.
  - rewrite decide_True; [done|]. split; [done|]. by apply list_elem_of_filter.
Qed.

(** C4. The coercion of the numeric columns is total. [pd.to_numeric]
    called with [errors='coerce'] returns for every column, where with
    [errors='raise'] it raises on a text that is no number; so the loop of
    [process_data] over the numeric columns returns a frame for every frame
    it is given. In a column that does not hold [bool]s only, a cell that
    cannot be read as a number (a text pandas reads no number in, an empty
    text, [None], a list or a dict) becomes NaN, a text that reads as a
    number becomes that number, a [bool] becomes 0 or 1 and a number stays
    a number, the same one when it is at most 2^53 in absolute value; a
    column of [bool]s is left as it is. So in every frame [process_data]
    returns, a cell of a numeric column is a number (NaN included), or a
    [bool] of a column in which every record has a [bool]. *)
Theorem numeric_coercion_total
  (parse_float : string → option pyfloat)
  (geodesic_km : json * json → Q * Q → result pyfloat)
  (DataFrame_other : json → result DataFrame) :
  (∀ column, ∃ values,
      to_numeric parse_float column errors_coerce = Ret values
      ∧ length values = length column)
  ∧ (∀ s, s ≠ "" → parse_float s = None →
          to_numeric parse_float [JStr s] errors_raise = Raise ValueError)
  ∧ (∀ df0, ∃ df1,
        for_loop (coerce_column parse_float) df0 numeric_columns = Ret df1
        ∧ columns df1 = columns df0
        ∧ (∀ col i row0,
             col ∈ numeric_columns → col ∈ columns df0 → rows df0 !! i = Some row0 →
             ∃ row1,
               rows df1 !! i = Some row1
               ∧ if bool_column (rows df0) col then row1 !! col = row0 !! col
                 else converted_cell parse_float (cell col row0) (row1 !! col)))
  ∧ (∀ data records df col,
       as_records data = Some records →
       process_data parse_float geodesic_km DataFrame_other data = Ret (Some df) →
       col ∈ numeric_columns → col ∈ columns df →
       Forall (fun row => (∃ v, row !! col = Some (JNum v))
                          ∨ (∃ b, row !! col = Some (JBool b)
                                  ∧ bool_column (dict_of <$> records) col = true))
         (rows df)).
Proof.
  split; [|split; [|split]].
  - intros column. rewrite to_numeric_coerce_returns. eexists. split; [reflexivity|].
    destruct (forallb is_bool column); [reflexivity|]. by rewrite length_fmap.
  - apply to_numeric_raise_text.
  - intros df0. rewrite coerce_loop_returns. eexists. split; [reflexivity|].
    split; [apply coerce_loop|].
    intros col i row0 Hnum Hcol Hrow.
    destruct (coerce_loop_cell parse_float df0 col i row0 Hnum Hcol Hrow)
      as (row1 & Hrow1 & Hcell).
    exists row1. split; [exact Hrow1|]. rewrite Hcell.
    destruct (bool_column (rows df0) col); [reflexivity|].
    apply coerced_cell_converted.
  - intros data records df col. apply process_data_numeric.
Qed.

(** A column of two texts and a null: the text 45 becomes the number 45,
    the text N/A and the null become NaN. *)
Lemma numeric_coercion_total_witness :
  let df0 := {| columns := ["aqi"];
                rows := [dict_of [("aqi", JStr "45")]; dict_of [("aqi", JStr "N/A")];
                         dict_of [("aqi", JNull)]] |} in
  ∃ df1 row0 row1 row2,
    for_loop (coerce_column Sample.parse_float) df0 numeric_columns = Ret df1
    ∧ rows df1 !! 0%nat = Some row0 ∧ row0 !! "aqi" = Some (JNum (Fin 45))
    ∧ rows df1 !! 1%nat = Some row1 ∧ row1 !! "aqi" = Some (JNum NaN)
    ∧ rows df1 !! 2%nat = Some row2 ∧ row2 !! "aqi" = Some (JNum NaN).
Proof.
  intros df0.
  destruct (numeric_coercion_total
              Sample.parse_float Sample.geodesic_km Sample.DataFrame_other)
    as (_ & _ & Hloop & _).
  destruct (Hloop df0) as (df1 & Hdf1 & _ & Hcells).
  destruct (Hcells "aqi" 0%nat (dict_of [("aqi", JStr "45")]))
    as (row0 & Hrow0 & Hcell0); [left|left|reflexivity|].
  destruct (Hcells "aqi" 1%nat (dict_of [("aqi", JStr "N/A")]))
    as (row1 & Hrow1 & Hcell1); [left|left|reflexivity|].
  destruct (Hcells "aqi" 2%nat (dict_of [("aqi", JNull)]))
    as (row2 & Hrow2 & Hcell2); [left|left|reflexivity|].
  exists df1, row0, row1, row2.
  split; [exact Hdf1|]. split; [exact Hrow0|]. split; [exact Hcell0|].
  split; [exact Hrow1|]. split; [exact Hcell1|]. split; [exact Hrow2|exact Hcell2].
Defined.

(** ** Method bodies *)

Lemma bind_M_inv {A B} (m : M A) (f : A → M B) self r self' :
  (m ≫= f) self = (r, self') →
  (∃ a s1, m self = (Ret a, s1) ∧ f a s1 = (r, self'))
  ∨ (∃ e, m self = (Raise e, self') ∧ r = Raise e).
Proof.
  unfold mbind, M_bind. destruct (m self) as [[a|e] s1]; intros H.
  - left. eauto.
  - right. injection H as <- <-. eauto.
Qed.

Lemma bind_M_Ret_inv {A B} (m : M A) (f : A → M B) self b self' :
  (m ≫= f) self = (Ret b, self') →
  ∃ a s1, m self = (Ret a, s1) ∧ f a s1 = (Ret b, self').
Proof.
  intros H. apply bind_M_inv in H as [H|(e & _ & [=])]. exact H.
Qed.

Lemma lift_inv {A} (x : result A) self r self' :
  lift x self = (r, self') → r = x ∧ self' = self.
Proof. unfold lift. intros [= <- <-]. done. Qed.

Lemma for_each_markers df (items : list (gmap string json)) self m0 r self' :
  self_map self = Some m0 →
  for_each items (add_row_marker df) self = (r, self') →
  ∃ mks, self' = with_map (Some (add_markers m0 mks)) self
         ∧ match r with
           | Ret _ => Forall2 (fun row mk => circle_marker_of_row df row = Ret mk) items mks
           | Raise _ => True
           end.
Proof.
  revert self m0. induction items as [|row items IH]; intros self m0 Hmap; cbn [for_each].
  - intros [= <- <-]. exists []. split; [|constructor].
    destruct self as [d mp ev]; simpl in *. subst mp. unfold with_map, add_markers; simpl.
    rewrite app_nil_r. by destruct m0.
  - intros H. apply bind_M_inv in H as [(a & s1 & Hrow & H)|(e & Hrow & ->)].
    + unfold add_row_marker in Hrow.
      apply bind_M_Ret_inv in Hrow as (mk & s0 & Hmk & Hadd).
      apply lift_inv in Hmk as [Hmk ->].
      unfold add_circle_marker in Hadd.
      apply bind_M_Ret_inv in Hadd as (om & s0 & Hget & Hadd).
      unfold get_map in Hget. injection Hget as <- <-. rewrite Hmap in Hadd.
      unfold set_map in Hadd. injection Hadd as <- <-.
      eapply IH in H as (mks & -> & Hr); [|reflexivity].
      exists (mk :: mks). split.
      * unfold with_map, add_markers; simpl. by rewrite <- app_assoc.
      * destruct r; [|done]. constructor; done.
    + unfold add_row_marker in Hrow.
      apply bind_M_inv in Hrow as [(mk & s0 & Hmk & Hadd)|(e' & Hmk & _)].
      * apply lift_inv in Hmk as [Hmk ->].
        unfold add_circle_marker in Hadd.
        apply bind_M_inv in Hadd as [(om & s0 & Hget & Hadd)|(e' & Hget & _)].
        -- unfold get_map in Hget. injection Hget as <- <-. rewrite Hmap in Hadd.
           discriminate.
        -- discriminate.
      * apply lift_inv in Hmk as [_ ->]. exists [].
        split; [|done].
        destruct self as [d mp ev]; simpl in *. subst mp. unfold with_map, add_markers; simpl.
        rewrite app_nil_r. by destruct m0.
Qed.

(** One step of a method body that evaluates a pure expression: either it
    returned, or it raised and the body raises with the monitor unchanged. *)
Ltac step_lift H a Ha :=
  let s := fresh "s" in
  let e := fresh "e" in
  apply bind_M_inv in H as [(a & s & Ha & H)|(e & Ha & ->)];
  apply lift_inv in Ha as [Ha ->].

Lemma create_map_inv df self r self' :
  create_map df self = (r, self') →
  if empty df then
    r = Ret None ∧ self_data self' = self_data self ∧ self_map self' = self_map self
  else
    self_data self' = self_data self ∧ effects self' = effects self
    ∧ match r with
      | Ret om =>
          ∃ m, om = Some m ∧ self_map self' = Some m
               ∧ Forall2 (fun row mk => circle_marker_of_row df row = Ret mk)
                   (rows df) (circle_markers m)
      | Raise _ => True
      end.
Proof.
  unfold create_map. destruct (empty df).
  { intros [= <- <-]. done. }
  intros H.
  step_lift H latitude Hlat; [|done].
  step_lift H center_lat Hclat; [|done].
  step_lift H longitude Hlon; [|done].
  step_lift H center_lon Hclon; [|done].
  step_lift H center Hcenter; [|done].
  apply bind_M_inv in H as [(? & s1 & Hset & H)|(e & [=] & _)].
  unfold set_map in Hset. injection Hset as _ <-.
  apply bind_M_inv in H as [(? & s2 & Hloop & H)|(e & Hloop & ->)].
  - eapply for_each_markers in Hloop as (mks & Hs2 & Hmks); [|reflexivity]. subst s2.
    apply bind_M_inv in H as [(? & s3 & Hadd & H)|(e & [=] & _)].
    injection Hadd as _ <-. injection H as <- <-.
    split; [done|]. split; [done|].
    eexists; split; [reflexivity|]. split; [reflexivity|]. exact Hmks.
  - eapply for_each_markers in Hloop as (mks & Hs2 & _); [|reflexivity]. by subst self'.
Qed.

Lemma process_data_has_distance parse_float geodesic_km DataFrame_other data df :
  process_data parse_float geodesic_km DataFrame_other data = Ret (Some df) →
  "distance_to_taipei" ∈ columns df ∧ truthy data = true.
Proof.
  unfold process_data. destruct (truthy data); [|discriminate].
  change (negb true) with false. cbv iota. intros H. split; [|reflexivity].
  apply bind_Ret_inv in H as (df0 & _ & H). cbv zeta in H.
  apply bind_Ret_inv in H as (sitename & _ & H).
  apply bind_Ret_inv in H as (latitude & _ & H).
  apply bind_Ret_inv in H as (sitename' & _ & H).
  apply bind_Ret_inv in H as (longitude & _ & H).
  apply bind_Ret_inv in H as (df3 & _ & H).
  set (df5 := if decide _ then _ else _) in H. clearbody df5.
  apply bind_Ret_inv in H as (distance & _ & H).
  injection H as <-. unfold setitem_column. cbn [columns].
  case_decide; [done|]. apply elem_of_app. right. left.
Qed.

Lemma enriched_empty parse_float geodesic_km DataFrame_other data df :
  process_data parse_float geodesic_km DataFrame_other data = Ret (Some df) →
  empty df = bool_decide (rows df = []).
Proof.
  intros H. apply process_data_has_distance in H as [H _]. unfold empty.
  rewrite (bool_decide_eq_false_2 (columns df = [])); [by rewrite orb_false_r|].
  intros Hnil. rewrite Hnil in H. by apply elem_of_nil in H.
Qed.

Lemma create_map_None_iff df self :
  (create_map df self).1 = Ret None ↔ empty df = true.
Proof.
  destruct (create_map df self) as [r self'] eqn:E.
  apply create_map_inv in E. destruct (empty df).
  - destruct E as (-> & _). done.
  - destruct E as (_ & _ & E). split; [|discriminate].
    simpl. intros ->. by destruct E as (m & [=] & _).
Qed.

(** *** The renderer on an enriched frame *)

Lemma add_row_marker_Ret df row mk self m0 :
  self_map self = Some m0 →
  circle_marker_of_row df row = Ret mk →
  add_row_marker df row self = (Ret tt, with_map (Some (add_markers m0 [mk])) self).
Proof.
  intros Hmap Hmk.
  unfold add_row_marker, add_circle_marker, get_map, set_map, lift, mbind, M_bind.
  rewrite Hmk. cbv beta iota. rewrite Hmap. reflexivity.
Qed.

Lemma for_each_total df (items : list (gmap string json)) mks self m0 :
  self_map self = Some m0 →
  Forall2 (fun row mk => circle_marker_of_row df row = Ret mk) items mks →
  for_each items (add_row_marker df) self
  = (Ret tt, with_map (Some (add_markers m0 mks)) self).
Proof.
  intros Hmap Hall. revert self m0 Hmap.
  induction Hall as [|row mk items mks Hmk _ IH]; intros self m0 Hmap.
  - destruct self as [d mp ev]. simpl in Hmap. subst mp.
    unfold with_map, add_markers. simpl. rewrite app_nil_r. by destruct m0.
  - cbn [for_each]. unfold mbind at 1, M_bind at 1.
    rewrite (add_row_marker_Ret df row mk self m0 Hmap Hmk).
    erewrite IH by reflexivity.
    unfold with_map, add_markers. simpl. by rewrite <- app_assoc.
Qed.

Lemma series_mean_finite (qs : list Q) :
  qs ≠ [] → ∃ q, series_mean ((fun q => JNum (Fin q)) <$> qs) = Ret (Fin q).
Proof.
  intros Hne. unfold series_mean.
  assert (mapM as_number ((fun q => JNum (Fin q)) <$> qs) = Ret (Fin <$> qs)) as ->.
  { clear Hne. induction qs as [|q qs IH]; [reflexivity|].
    rewrite fmap_cons.
    change (mapM as_number (JNum (Fin q) :: ((fun q => JNum (Fin q)) <$> qs)))
      with (y ← as_number (JNum (Fin q));
            k ← mapM as_number ((fun q => JNum (Fin q)) <$> qs); mret (y :: k)).
    rewrite IH. reflexivity. }
  cbn [mbind result_bind].
  assert (filter (fun v => is_nan v = false) (Fin <$> qs) = Fin <$> qs) as ->.
  { clear Hne. induction qs as [|q qs IH]; [reflexivity|].
    rewrite fmap_cons, filter_cons, IH. by rewrite decide_True. }
  assert (∀ a, ∃ s, foldl py_add (Fin a) (Fin <$> qs) = Fin s) as Hsum.
  { clear Hne. induction qs as [|q qs IH]; intros a; [by exists a|].
    simpl. apply IH. }
  destruct (Hsum 0%Q) as [s Hs].
  unfold series_sum. rewrite Hs.
  destruct qs as [|q qs]; [done|]. simpl. eauto.
Qed.

Lemma Forall_exists_Forall2 {A B} (R : A → B → Prop) (l : list A) :
  Forall (fun x => ∃ y, R x y) l → ∃ k, Forall2 R l k.
Proof.
  induction 1 as [|x l [y Hy] _ [k Hk]]; [exists []; constructor|].
  exists (y :: k). by constructor.
Qed.

Lemma series_mean_of_finite (cells : list json) :
  cells ≠ [] → Forall (fun c => ∃ q, c = JNum (Fin q)) cells →
  ∃ q, series_mean cells = Ret (Fin q).
Proof.
  intros Hne Hall. apply Forall_exists_Forall2 in Hall as [qs Hqs].
  assert (cells = (fun q => JNum (Fin q)) <$> qs) as ->.
  { clear Hne. induction Hqs as [|c q cells qs Hc _ IH]; [reflexivity|].
    rewrite fmap_cons, Hc. f_equal. apply IH. }
  apply series_mean_finite. intros ->. by apply Hne.
Qed.

Lemma circle_marker_of_enriched_row df row lat lon :
  "aqi" ∈ columns df → "sitename" ∈ columns df → "county" ∈ columns df →
  "distance_to_taipei" ∈ columns df →
  "latitude" ∈ columns df → "longitude" ∈ columns df →
  (∃ v, row !! "aqi" = Some (JNum v)) ∨ (∃ b, row !! "aqi" = Some (JBool b)) →
  row !! "latitude" = Some (JNum (Fin lat)) →
  row !! "longitude" = Some (JNum (Fin lon)) →
  ∃ mk, circle_marker_of_row df row = Ret mk.
Proof.
  intros ? ? ? ? ? ? [[v Haqi]|[b Haqi]] Hlat Hlon;
    unfold circle_marker_of_row, row_getitem; rewrite !decide_True by done;
    unfold cell; rewrite Haqi, Hlat, Hlon; simpl.
  - destruct (is_nan v); simpl; eexists; reflexivity.
  - eexists; reflexivity.
Qed.
(** On a frame enriched from records that carry the aqi and county fields,
    the renderer returns a map with one marker per row. *)
Lemma create_map_enriched parse_float geodesic_km DataFrame_other data records df self :
  as_records data = Some records →
  process_data parse_float geodesic_km DataFrame_other data = Ret (Some df) →
  rows df ≠ [] → "aqi" ∈ columns df → "county" ∈ columns df →
  ∃ m, (create_map df self).1 = Ret (Some m)
       ∧ length (circle_markers m) = length (rows df).
Proof.
  intros Hrecords Hdf Hrows Haqi Hcounty.
  destruct (enriched_columns _ _ _ _ _ _ Hrecords Hdf) as (Hsite & Hlat & Hlon & Hdist).
  pose proof (enriched_rows_coordinates _ _ _ _ _ _ Hrecords Hdf) as Hcoord.
  pose proof (process_data_numeric _ _ _ _ _ _ "aqi" Hrecords Hdf
                ltac:(unfold numeric_columns; left) Haqi) as Hnum.
  assert (∃ mks, Forall2 (fun row mk => circle_marker_of_row df row = Ret mk) (rows df) mks)
    as [mks Hmks].
  { apply Forall_exists_Forall2.
    eapply list.Forall_impl; [apply list.Forall_and; split; [exact Hcoord|exact Hnum]|].
    intros row [(s & lat & lon & _ & _ & Hla & Hlo) Haqi'].
    eapply circle_marker_of_enriched_row; try done.
    destruct Haqi' as [[v Hv]|(b & Hb & _)]; eauto. }
  destruct (series_mean_of_finite (cell "latitude" <$> rows df)) as [clat Hclat].
  { by destruct (rows df). }
  { apply Forall_fmap. eapply list.Forall_impl; [exact Hcoord|].
    intros row (s & lat & lon & _ & _ & Hla & _). exists lat. unfold cell. by rewrite Hla. }
  destruct (series_mean_of_finite (cell "longitude" <$> rows df)) as [clon Hclon].
  { by destruct (rows df). }
  { apply Forall_fmap. eapply list.Forall_impl; [exact Hcoord|].
    intros row (s & lat & lon & _ & _ & _ & Hlo). exists lon. unfold cell. by rewrite Hlo. }
  unfold create_map.
  rewrite (enriched_empty _ _ _ _ _ Hdf), bool_decide_eq_false_2 by done.
  unfold getitem_column. rewrite !decide_True by done.
  unfold mbind at 1 2 3 4 5 6, M_bind at 1 2 3 4 5 6, lift.
  rewrite Hclat, Hclon. cbn [validate_location is_nan orb]. unfold set_map.
  unfold mbind at 1, M_bind at 1.
  erewrite for_each_total; [|reflexivity|exact Hmks].
  eexists. split; [reflexivity|]. simpl.
  apply list.Forall2_length in Hmks. by rewrite Hmks.
Qed.

(** *** The persister *)

Lemma save_map_inv w filename self m r self' :
  self_map self = Some m →
  save_map w filename self = (r, self') →
  self_data self' = self_data self ∧ self_map self' = self_map self
  ∧ match r with
    | Ret saved =>
        fs_makedirs w (dirname filename) = None
        ∧ saved = bool_decide (fs_map_save w filename = None)
        ∧ effects self'
          = (effects self ++ [MakeDirs (dirname filename); MapSave filename m]
             ++ if saved then [] else [LogError "保存地圖時發生錯誤"])%list
    | Raise e =>
        fs_makedirs w (dirname filename) = Some e
        ∧ effects self' = (effects self ++ [MakeDirs (dirname filename)])%list
    end.
Proof.
  intros Hmap. unfold save_map, mbind, M_bind, get_map. rewrite Hmap.
  unfold os_makedirs, mbind, M_bind, emit. cbn [self_data self_map effects].
  destruct (fs_makedirs w (dirname filename)) as [e|].
  - intros [= <- <-]. done.
  - unfold mret, M_ret, try_catch, mbind, M_bind, emit. cbn [self_data self_map effects].
    destruct (fs_map_save w filename) as [e|]; intros [= <- <-];
      cbn [self_data self_map effects]; rewrite <- ?app_assoc; done.
Qed.

Lemma save_data_inv parse_float geodesic_km DataFrame_other w filename self df r self' :
  process_data parse_float geodesic_km DataFrame_other (self_data self) = Ret (Some df) →
  save_data parse_float geodesic_km DataFrame_other w filename self = (r, self') →
  self_data self' = self_data self ∧ self_map self' = self_map self
  ∧ match r with
    | Ret saved =>
        fs_makedirs w (dirname filename) = None
        ∧ saved = Some (bool_decide (fs_to_csv w filename = None))
        ∧ effects self'
          = (effects self ++ [MakeDirs (dirname filename); ToCsv filename df]
             ++ if bool_decide (fs_to_csv w filename = None) then []
                else [LogError "保存數據時發生錯誤"])%list
    | Raise e =>
        fs_makedirs w (dirname filename) = Some e
        ∧ effects self' = (effects self ++ [MakeDirs (dirname filename)])%list
    end.
Proof.
  intros Hdf.
  unfold save_data, mbind at 1, M_bind at 1, get_data.
  remember (self_data self) as data eqn:Hd.
  destruct data; [discriminate Hdf|..];
    (unfold os_makedirs, mbind, M_bind, emit; cbn [self_data self_map effects];
     destruct (fs_makedirs w (dirname filename)) as [e|];
     [intros [= <- <-]; done|];
     unfold try_catch, mbind, M_bind, lift, mret, M_ret, emit; rewrite Hdf;
     cbn [self_data self_map effects];
     destruct (fs_to_csv w filename) as [e|]; intros [= <- <-];
     cbn [self_data self_map effects]; rewrite <- ?app_assoc; done).
Qed.

(** *** The orchestrator *)

Lemma run_true_inv parse_float geodesic_km DataFrame_other w self self' :
  run parse_float geodesic_km DataFrame_other w self = (Ret true, self') →
  ∃ s1 df m saved,
    fetch_aqi_data w self = (Ret true, s1)
    ∧ process_data parse_float geodesic_km DataFrame_other (self_data s1) = Ret (Some df)
    ∧ empty df = false
    ∧ self_data self' = self_data s1
    ∧ self_map self' = Some m
    ∧ Forall2 (fun row mk => circle_marker_of_row df row = Ret mk)
        (rows df) (circle_markers m)
    ∧ fs_makedirs w "outputs" = None
    ∧ saved = bool_decide (fs_map_save w "outputs/taiwan_aqi_map.html" = None)
    ∧ effects self'
      = (effects s1
         ++ ([MakeDirs "outputs"; MapSave "outputs/taiwan_aqi_map.html" m]
             ++ if saved then [] else [LogError "保存地圖時發生錯誤"])
         ++ ([MakeDirs "outputs"; ToCsv "outputs/aqi_data.csv" df]
             ++ if bool_decide (fs_to_csv w "outputs/aqi_data.csv" = None) then []
                else [LogError "保存數據時發生錯誤"]))%list.
Proof.
  unfold run. intros H.
  apply bind_M_Ret_inv in H as (fetched & s1 & Hfetch & H).
  destruct fetched; [|discriminate H].
  change (negb true) with false in H. cbv iota in H.
  apply bind_M_Ret_inv in H as (data & s & Hget & H).
  injection Hget as <- <-.
  apply bind_M_Ret_inv in H as (odf & s & Hdf & H).
  apply lift_inv in Hdf as [Hdf ->]. symmetry in Hdf.
  destruct odf as [df|]; [|discriminate H].
  destruct (empty df) eqn:Hempty; [discriminate H|].
  apply bind_M_Ret_inv in H as (aqi_map & s2 & Hmap & H).
  apply create_map_inv in Hmap. rewrite Hempty in Hmap.
  destruct Hmap as (Hd2 & He2 & m & -> & Hm2 & Hmarkers).
  apply bind_M_Ret_inv in H as (saved & s3 & Hsave & H).
  eapply save_map_inv in Hsave as (Hd3 & Hm3 & Hdir & Hsaved & He3); [|exact Hm2].
  apply bind_M_Ret_inv in H as (csv & s4 & Hcsv & H).
  eapply save_data_inv in Hcsv as (Hd4 & Hm4 & _ & _ & He4);
    [|rewrite Hd3, Hd2; exact Hdf].
  injection H as <-.
  exists s1, df, m, saved.
  repeat split; try done.
  - by rewrite Hd4, Hd3.
  - by rewrite Hm4, Hm3.
  - rewrite He4, He3, He2. by rewrite <- !app_assoc.
Qed.

Lemma circle_marker_of_null_aqi df row mk :
  circle_marker_of_row df row = Ret mk →
  isna (cell "aqi" row) = true →
  popup_aqi (popup mk) = Fin 0 ∧ (tooltip mk).2 = Fin 0
  ∧ radius mk = py_add (Fin 8) (py_div_pos (Fin 0) 50)
  ∧ py_eq (radius mk) (Fin 8) = true
  ∧ fillColor mk = "#00E400" ∧ popup_level (popup mk) = "良好".
Proof.
  unfold circle_marker_of_row. intros H Hna.
  apply bind_Ret_inv in H as (aqi & Haqi & H).
  unfold row_getitem in Haqi. case_decide; [|discriminate]. injection Haqi as <-.
  rewrite Hna in H. change (negb true) with false in H. cbv iota in H.
  apply bind_Ret_inv in H as (aqi_value & [= <-] & H).
  apply bind_Ret_inv in H as (sitename & _ & H).
  apply bind_Ret_inv in H as (county & _ & H).
  apply bind_Ret_inv in H as (distance & _ & H).
  apply bind_Ret_inv in H as (latitude & _ & H).
  apply bind_Ret_inv in H as (longitude & _ & H).
  apply bind_Ret_inv in H as (loc & _ & H).
  injection H as <-. repeat split; reflexivity.
Qed.

(** Where the run succeeds, a null AQI is drawn as 0 and written as null:
    the frame handed to [to_csv] is the enriched frame itself and the map
    handed to [map.save] has one circle marker per row of it, in order; for
    a row whose AQI is null the marker is built with the value 0 (popup and
    tooltip show 0, the radius is 8, the color is the one of Good), while
    the row written to the CSV file still holds the null. (A run on a
    frame without the [aqi] or the [county] column does not succeed: see
    the last section.) *)
Lemma null_aqi_rendered_as_zero
  (parse_float : string → option pyfloat)
  (geodesic_km : json * json → Q * Q → result pyfloat)
  (DataFrame_other : json → result DataFrame)
  (w : World) (self self' : Monitor) :
  run parse_float geodesic_km DataFrame_other w self = (Ret true, self') →
  ∃ df m,
    process_data parse_float geodesic_km DataFrame_other (self_data self') = Ret (Some df)
    ∧ MapSave "outputs/taiwan_aqi_map.html" m ∈ effects self'
    ∧ ToCsv "outputs/aqi_data.csv" df ∈ effects self'
    ∧ Forall2 (fun row mk =>
                 isna (cell "aqi" row) = true →
                 popup_aqi (popup mk) = Fin 0 ∧ (tooltip mk).2 = Fin 0
                 ∧ radius mk = py_add (Fin 8) (py_div_pos (Fin 0) 50)
                 ∧ py_eq (radius mk) (Fin 8) = true
                 ∧ fillColor mk = "#00E400" ∧ popup_level (popup mk) = "良好")
        (rows df) (circle_markers m).
Proof.
  intros H.
  apply run_true_inv in H
    as (s1 & df & m & saved & _ & Hdf & _ & Hdata & _ & Hmarkers & _ & _ & Heffects).
  exists df, m. rewrite Hdata, Heffects. split; [exact Hdf|].
  split; [|split].
  - rewrite !elem_of_app. right. left. left. do 2 constructor.
  - rewrite !elem_of_app. right. right. left. do 2 constructor.
  - eapply list.Forall2_impl; [exact Hmarkers|].
    intros row mk Hmk Hna. by apply (circle_marker_of_null_aqi df row).
Qed.

(** On the three sample records (the first with an AQI that is no number)
    the run succeeds, and the saved map and CSV frame are related as
    stated. *)
Lemma null_aqi_rendered_as_zero_witness :
  ∃ df m,
    Sample.process_data (self_data Sample.null_aqi_final) = Ret (Some df)
    ∧ MapSave "outputs/taiwan_aqi_map.html" m ∈ effects Sample.null_aqi_final
    ∧ ToCsv "outputs/aqi_data.csv" df ∈ effects Sample.null_aqi_final
    ∧ Forall2 (fun row mk =>
                 isna (cell "aqi" row) = true →
                 popup_aqi (popup mk) = Fin 0 ∧ (tooltip mk).2 = Fin 0
                 ∧ radius mk = py_add (Fin 8) (py_div_pos (Fin 0) 50)
                 ∧ py_eq (radius mk) (Fin 8) = true
                 ∧ fillColor mk = "#00E400" ∧ popup_level (popup mk) = "良好")
        (rows df) (circle_markers m).
Proof.
  apply (null_aqi_rendered_as_zero
           Sample.parse_float Sample.geodesic_km Sample.DataFrame_other
           (Sample.world Sample.null_aqi) init Sample.null_aqi_final).
  vm_compute. reflexivity.
Defined.

(** The first row of the sample frame has a null AQI and its marker is the
    one of the value 0. *)
Example null_aqi_first_marker :
  (isna ∘ cell "aqi") <$> rows Sample.null_aqi_frame = [true; false]
  ∧ (fun mk => (popup_aqi (popup mk), fillColor mk))
      <$> default [] (circle_markers <$> self_map Sample.null_aqi_final)
    = [(Fin 0, "#00E400"); (Fin 120, "#FF0000")].
Proof. split; vm_compute; reflexivity. Qed.

(** ** Exceptions that escape *)

(** C8 (the code departs from the claim). When the output directory cannot
    be created, [os.makedirs] in [save_map] raises outside the [try]
    block: [run] raises, and [save_data] is never called, so no attempt
    is made to write the CSV file. *)
Theorem makedirs_failure_blocks_csv :
  let out := Sample.run (Sample.world_no_mkdir Sample.daan) init in
  out.1 = Raise OSError ∧ effects out.2 = [MakeDirs "outputs"].
Proof. split; vm_compute; reflexivity. Qed.

(** When the directory exists and only [map.save] fails, the failure is
    logged and the CSV file is still written. *)
Example map_save_failure_is_contained :
  let out := Sample.run (Sample.world_no_map_save Sample.null_aqi) init in
  out.1 = Ret true
  ∧ effects out.2
    = [MakeDirs "outputs";
       MapSave "outputs/taiwan_aqi_map.html"
         (default {| map_location := (NaN, NaN); circle_markers := [];
                     station_markers := []; legend := [] |} (self_map out.2));
       LogError "保存地圖時發生錯誤";
       MakeDirs "outputs";
       ToCsv "outputs/aqi_data.csv" Sample.null_aqi_frame].
Proof. split; vm_compute; reflexivity. Qed.

(** C1 (the code departs from the claim). For a response whose records
    have no site-name field, [process_data] raises [KeyError] at
    [df['sitename']] and [run], which has no handler, lets it escape. *)
Theorem missing_sitename_escapes_run
  (parse_float : string → option pyfloat)
  (geodesic_km : json * json → Q * Q → result pyfloat)
  (DataFrame_other : json → result DataFrame) :
  process_data parse_float geodesic_km DataFrame_other Sample.no_sitename
  = Raise (KeyError "sitename")
  ∧ (run parse_float geodesic_km DataFrame_other
       (Sample.world Sample.no_sitename) init).1
    = Raise (KeyError "sitename").
Proof. split; vm_compute; reflexivity. Qed.

(** Other exceptions that leave [run]: a response that is a JSON number,
    and a record without a county. *)
Example scalar_response_escapes_run :
  (Sample.run (Sample.world (JNum (Fin 5))) init).1 = Raise TypeError.
Proof. vm_compute. reflexivity. Qed.

Example missing_county_escapes_run :
  (Sample.run (Sample.world Sample.no_county) init).1 = Raise (KeyError "county").
Proof. vm_compute. reflexivity. Qed.

(** ** The two response shapes *)

Lemma fetch_bare_array w items self :
  fetch_aqi_data (answering w (JArr items)) self
  = (Ret true, {| self_data := JArr items; self_map := self_map self;
                  effects := effects self |}).
Proof. reflexivity. Qed.

Lemma fetch_records_object w members items self :
  dict_of members !! "records" = Some (JArr items) →
  fetch_aqi_data (answering w (JObj members)) self
  = (Ret true, {| self_data := JArr items; self_map := self_map self;
                  effects := effects self |}).
Proof.
  intros H. unfold fetch_aqi_data, try_catch, answering, mbind, M_bind, lift.
  cbn [http_get py_contains py_getitem]. rewrite H. reflexivity.
Qed.

Lemma fetch_object_without_records w members self :
  dict_of members !! "records" = None →
  fetch_aqi_data (answering w (JObj members)) self
  = (Ret false, {| self_data := self_data self; self_map := self_map self;
                   effects := (effects self ++ [LogError "API 回應格式錯誤";
                                                LogError "回應內容"])%list |}).
Proof.
  intros H. unfold fetch_aqi_data, try_catch, answering, mbind, M_bind, lift.
  cbn [http_get py_contains py_getitem]. rewrite H.
  cbn [bool_decide decide_rel]. rewrite bool_decide_eq_false_2 by (by intros [? ?]).
  unfold emit, mret, M_ret. cbn [self_data self_map effects]. by rewrite <- app_assoc.
Qed.

Lemma run_depends_on_fetch parse_float geodesic_km DataFrame_other w1 w2 self :
  fs_makedirs w1 = fs_makedirs w2 →
  fs_map_save w1 = fs_map_save w2 →
  fs_to_csv w1 = fs_to_csv w2 →
  fetch_aqi_data w1 self = fetch_aqi_data w2 self →
  run parse_float geodesic_km DataFrame_other w1 self
  = run parse_float geodesic_km DataFrame_other w2 self.
Proof.
  intros Hdirs Hmap Hcsv Hfetch.
  unfold run, save_map, save_data, os_makedirs, mbind, M_bind.
  rewrite Hfetch, Hdirs, Hmap, Hcsv. reflexivity.
Qed.

(** C5 as stated fails: an object whose [records] member is a string is
    neither of the two shapes, and [fetch_aqi_data] reports success. *)
Lemma other_shape_accepted :
  ¬ records_shape (JObj [("records", JStr "x")])
  ∧ fetch_aqi_data (Sample.world (JObj [("records", JStr "x")])) init
    = (Ret true, {| self_data := JStr "x"; self_map := None; effects := [] |}).
Proof.
  split; [|vm_compute; reflexivity].
  intros [(items & [=])|(members & items & [= <-] & H)].
  vm_compute in H. discriminate H.
Qed.

(** C5 (amended). A bare array and an object whose [records] member is
    that array leave the same list in [self.data], so the whole run, the
    enriched frame included, is the same for both; an object without a
    [records] key makes [fetch_aqi_data] return [False]. *)
Theorem response_shapes_equivalent
  (parse_float : string → option pyfloat)
  (geodesic_km : json * json → Q * Q → result pyfloat)
  (DataFrame_other : json → result DataFrame)
  (w : World) (self : Monitor) (members : list (string * json)) :
  (∀ items,
     dict_of members !! "records" = Some (JArr items) →
     fetch_aqi_data (answering w (JObj members)) self
     = fetch_aqi_data (answering w (JArr items)) self
     ∧ (fetch_aqi_data (answering w (JArr items)) self).1 = Ret true
     ∧ self_data (fetch_aqi_data (answering w (JArr items)) self).2 = JArr items
     ∧ run parse_float geodesic_km DataFrame_other (answering w (JObj members)) self
       = run parse_float geodesic_km DataFrame_other (answering w (JArr items)) self)
  ∧ (dict_of members !! "records" = None →
     (fetch_aqi_data (answering w (JObj members)) self).1 = Ret false
     ∧ self_data (fetch_aqi_data (answering w (JObj members)) self).2 = self_data self).
Proof.
  split.
  - intros items H.
    rewrite (fetch_records_object _ _ _ _ H), fetch_bare_array.
    repeat split; try reflexivity.
    apply run_depends_on_fetch; try reflexivity.
    by rewrite (fetch_records_object _ _ _ _ H), fetch_bare_array.
  - intros H. rewrite (fetch_object_without_records _ _ _ H). done.
Qed.

(** The sample records, sent bare and sent inside an object with other
    members, give the same run. *)
Lemma response_shapes_equivalent_witness :
  Sample.run (answering (Sample.world JNull)
                (JObj [("total", JNum (Fin 3)); ("records", Sample.null_aqi)])) init
  = Sample.run (answering (Sample.world JNull) Sample.null_aqi) init
  ∧ (fetch_aqi_data (answering (Sample.world JNull) (JObj [("total", JNum (Fin 3))])) init).1
    = Ret false.
Proof.
  destruct (response_shapes_equivalent
              Sample.parse_float Sample.geodesic_km Sample.DataFrame_other
              (Sample.world JNull) init
              [("total", JNum (Fin 3)); ("records", Sample.null_aqi)]) as [Hsame _].
  destruct (response_shapes_equivalent
              Sample.parse_float Sample.geodesic_km Sample.DataFrame_other
              (Sample.world JNull) init [("total", JNum (Fin 3))]) as [_ Hnone].
  split.
  - apply (Hsame (JObj <$> Sample.null_aqi_records)). vm_compute. reflexivity.
  - apply Hnone. vm_compute. reflexivity.
Defined.

(** * Further properties *)

(** ** The fetcher *)

(** What [fetch_aqi_data] does, case by case of the HTTP answer. *)
Lemma fetch_outcome w self :
  fetch_aqi_data w self
  = match http_get w with
    | HttpRaises RequestException =>
        (Ret false, logged "獲取數據時發生錯誤" self)
    | HttpRaises JSONDecodeError =>
        (Ret false, logged "JSON 解析錯誤" self)
    | HttpRaises e => (Raise e, self)
    | HttpBody (JArr items) => (Ret true, with_data (JArr items) self)
    | HttpBody body =>
        match py_contains "records" body with
        | Raise e => (Raise e, self)
        | Ret false =>
            (Ret false, logged "回應內容" (logged "API 回應格式錯誤" self))
        | Ret true =>
            match py_getitem body "records" with
            | Raise e => (Raise e, self)
            | Ret records =>
                match py_len records with
                | Ret _ => (Ret true, with_data records self)
                | Raise e => (Raise e, with_data records self)
                end
            end
        end
    end.
Proof.
  unfold fetch_aqi_data, try_catch, mbind, M_bind, lift.
  destruct (http_get w) as [e|body].
  - destruct e; reflexivity.
  - destruct body; try reflexivity.
    + cbn [py_contains py_getitem].
      destruct (bool_decide _); reflexivity.
    + cbn [py_contains py_getitem].
      destruct (bool_decide _) eqn:Hin; [|reflexivity].
      apply bool_decide_eq_true in Hin as [v Hv]. rewrite Hv.
      cbv beta iota. unfold set_data. destruct v; reflexivity.
Qed.

(** X1. When [fetch_aqi_data] returns [False] it has changed neither
    [self.data] nor [self.map] and has made no call on the file system. At
    level ERROR it has logged the line of the failed request, the line of
    the body that is no JSON, or the two lines of the response of another
    shape, and nothing else. *)
Theorem fetch_false_keeps_state w self s1 :
  fetch_aqi_data w self = (Ret false, s1) →
  self_data s1 = self_data self ∧ self_map s1 = self_map self
  ∧ ∃ messages,
      effects s1 = (effects self ++ (LogError <$> messages))%list
      ∧ ((http_get w = HttpRaises RequestException
          ∧ messages = ["獲取數據時發生錯誤"])
         ∨ (http_get w = HttpRaises JSONDecodeError ∧ messages = ["JSON 解析錯誤"])
         ∨ ((∃ body, http_get w = HttpBody body
                     ∧ py_contains "records" body = Ret false)
            ∧ messages = ["API 回應格式錯誤"; "回應內容"])).
Proof.
  rewrite fetch_outcome. intros H.
  destruct (http_get w) as [e|body] eqn:Hhttp.
  - destruct e; simplify_eq; cbn [logged self_data self_map effects];
      (split; [done|]; split; [done|]);
      [exists ["獲取數據時發生錯誤"]|exists ["JSON 解析錯誤"]];
      (split; [reflexivity|]); auto.
  - destruct body as [| | |s|items|members]; simplify_eq;
      destruct (py_contains "records" _) as [[]|] eqn:Hin; simplify_eq;
      repeat case_match; simplify_eq;
      cbn [logged self_data self_map effects];
      (split; [done|]; split; [done|]);
      exists ["API 回應格式錯誤"; "回應內容"];
      (split; [by rewrite <- app_assoc|]); right; right; eauto.
Qed.

(** An object without a [records] member: nothing is stored, the two lines
    of the unrecognised shape are logged. *)
Lemma fetch_false_keeps_state_witness :
  let w := Sample.world (JObj [("total", JNum (Fin 3))]) in
  let s1 := (fetch_aqi_data w init).2 in
  self_data s1 = self_data init ∧ self_map s1 = self_map init
  ∧ ∃ messages,
      effects s1 = (effects init ++ (LogError <$> messages))%list
      ∧ ((http_get w = HttpRaises RequestException
          ∧ messages = ["獲取數據時發生錯誤"])
         ∨ (http_get w = HttpRaises JSONDecodeError ∧ messages = ["JSON 解析錯誤"])
         ∨ ((∃ body, http_get w = HttpBody body
                     ∧ py_contains "records" body = Ret false)
            ∧ messages = ["API 回應格式錯誤"; "回應內容"])).
Proof.
  apply (fetch_false_keeps_state (Sample.world (JObj [("total", JNum (Fin 3))])) init).
  vm_compute. reflexivity.
Defined.

(** X2. When [fetch_aqi_data] returns [True], the response had a body,
    [self.data] holds that body if it is a list and its [records] member
    otherwise, and [len(self.data)] is defined; [self.map] is unchanged, no
    line is logged at level ERROR and no call is made on the file system. *)
Theorem fetch_true_stores_records w self s1 :
  fetch_aqi_data w self = (Ret true, s1) →
  ∃ body,
    http_get w = HttpBody body
    ∧ ((∃ items, body = JArr items ∧ self_data s1 = body)
       ∨ ((∀ items, body ≠ JArr items)
          ∧ py_getitem body "records" = Ret (self_data s1)))
    ∧ (∃ n, py_len (self_data s1) = Ret n)
    ∧ self_map s1 = self_map self ∧ effects s1 = effects self.
Proof.
  rewrite fetch_outcome. intros H.
  destruct (http_get w) as [[]|body]; try discriminate H.
  exists body. split; [reflexivity|].
  destruct body as [| | | |items|members].
  5: { injection H as <-. simpl. split; [left; eauto|]. split; [eauto|done]. }
  all: repeat case_match; simplify_eq; simpl;
       (split; [right; split; [discriminate|done]|]); (split; [eauto|done]).
Qed.

(** The sample record sent inside an object: [self.data] is the list of
    the [records] member. *)
Lemma fetch_true_stores_records_witness :
  let w := Sample.world (JObj [("records", Sample.daan)]) in
  ∃ body,
    http_get w = HttpBody body
    ∧ ((∃ items, body = JArr items ∧ self_data (fetch_aqi_data w init).2 = body)
       ∨ ((∀ items, body ≠ JArr items)
          ∧ py_getitem body "records" = Ret (self_data (fetch_aqi_data w init).2)))
    ∧ (∃ n, py_len (self_data (fetch_aqi_data w init).2) = Ret n)
    ∧ self_map (fetch_aqi_data w init).2 = self_map init
    ∧ effects (fetch_aqi_data w init).2 = effects init.
Proof.
  apply (fetch_true_stores_records (Sample.world (JObj [("records", Sample.daan)])) init).
  vm_compute. reflexivity.
Defined.

(** X3. [fetch_aqi_data] never lets a [RequestException] or a
    [JSONDecodeError] escape. When it raises, no line has been logged at
    level ERROR and no call has been made on the file system, and
    either the monitor is unchanged or [self.data] has already been
    overwritten by a [records] member that has no length. *)
Theorem fetch_raise_cases w self e s1 :
  fetch_aqi_data w self = (Raise e, s1) →
  e ≠ RequestException ∧ e ≠ JSONDecodeError
  ∧ effects s1 = effects self ∧ self_map s1 = self_map self
  ∧ (s1 = self
     ∨ ∃ body records,
         http_get w = HttpBody body
         ∧ py_getitem body "records" = Ret records
         ∧ py_len records = Raise e
         ∧ self_data s1 = records).
Proof.
  rewrite fetch_outcome. intros H.
  destruct (http_get w) as [e'|body].
  - destruct e'; try discriminate H; injection H as <- <-;
      (split; [discriminate|]; split; [discriminate|]; auto).
  - destruct body as [| | |s| |members]; try discriminate H.
    1-3: (cbn [py_contains] in H; injection H as <- <-;
          split; [discriminate|]; split; [discriminate|]; auto).
    + cbn [py_contains py_getitem] in H.
      destruct (bool_decide _); [|discriminate H]. injection H as <- <-.
      split; [discriminate|]. split; [discriminate|]. auto.
    + cbn [py_contains] in H.
      destruct (bool_decide _); [|discriminate H].
      destruct (py_getitem (JObj members) "records") as [v|e'] eqn:Hv.
      * destruct v; try discriminate H; cbn [py_len] in H; injection H as <- <-;
          (split; [discriminate|]; split; [discriminate|];
           split; [reflexivity|]; split; [reflexivity|];
           right; eexists _, _; eauto).
      * unfold py_getitem in Hv. destruct (dict_of members !! "records"); [discriminate|].
        injection Hv as <-. injection H as <- <-.
        split; [discriminate|]. split; [discriminate|]. auto.
Qed.

(** A [records] member that is a number: [TypeError] escapes after
    [self.data] has been set to that number. *)
Lemma fetch_raise_cases_witness :
  let w := Sample.world (JObj [("records", JNum (Fin 5))]) in
  TypeError ≠ RequestException ∧ TypeError ≠ JSONDecodeError
  ∧ effects (fetch_aqi_data w init).2 = effects init
  ∧ self_map (fetch_aqi_data w init).2 = self_map init
  ∧ ((fetch_aqi_data w init).2 = init
     ∨ ∃ body records,
         http_get w = HttpBody body
         ∧ py_getitem body "records" = Ret records
         ∧ py_len records = Raise TypeError
         ∧ self_data (fetch_aqi_data w init).2 = records).
Proof.
  apply (fetch_raise_cases (Sample.world (JObj [("records", JNum (Fin 5))])) init).
  vm_compute. reflexivity.
Defined.

(** ** The orchestrator, stage by stage *)

Lemma fetch_depends_on_http w w' self :
  http_get w = http_get w' → fetch_aqi_data w self = fetch_aqi_data w' self.
Proof. intros H. by rewrite !fetch_outcome, H. Qed.

Lemma fetch_true_effects w self s1 :
  fetch_aqi_data w self = (Ret true, s1) →
  effects s1 = effects self ∧ self_map s1 = self_map self.
Proof.
  rewrite fetch_outcome. intros H. repeat case_match; simplify_eq; done.
Qed.

Lemma fetch_false_logged w self s1 :
  fetch_aqi_data w self = (Ret false, s1) →
  self_map s1 = self_map self
  ∧ ∃ messages, effects s1 = (effects self ++ (LogError <$> messages))%list.
Proof.
  rewrite fetch_outcome. intros H.
  repeat case_match; simplify_eq; cbn [logged self_data self_map effects];
    (split; [done|]);
    first [by eexists [_] | exists ["API 回應格式錯誤"; "回應內容"]; by rewrite <- app_assoc].
Qed.

(** What [run] returns or raises, from what its stages do. *)
Lemma run_value parse_float geodesic_km DataFrame_other w self :
  (run parse_float geodesic_km DataFrame_other w self).1
  = match fetch_aqi_data w self with
    | (Raise e, _) => Raise e
    | (Ret false, _) => Ret false
    | (Ret true, s1) =>
        match process_data parse_float geodesic_km DataFrame_other (self_data s1) with
        | Raise e => Raise e
        | Ret None => Ret false
        | Ret (Some df) =>
            if empty df then Ret false
            else match create_map df s1 with
                 | (Raise e, _) => Raise e
                 | (Ret _, _) =>
                     match fs_makedirs w "outputs" with
                     | Some e => Raise e
                     | None => Ret true
                     end
                 end
        end
    end.
Proof.
  unfold run, mbind at 1, M_bind at 1.
  destruct (fetch_aqi_data w self) as [[[]|e] s1]; [|reflexivity..].
  change (negb true) with false. cbv iota.
  unfold mbind at 1 2, M_bind at 1 2, get_data, lift.
  destruct (process_data _ _ _ (self_data s1)) as [[df|]|e] eqn:Hdf; [|reflexivity..].
  cbv beta iota.
  destruct (empty df) eqn:Hempty; [reflexivity|].
  unfold mbind at 1, M_bind at 1.
  destruct (create_map df s1) as [[aqi_map|e] s2] eqn:Hmap; [|reflexivity].
  apply create_map_inv in Hmap. rewrite Hempty in Hmap.
  destruct Hmap as (Hd2 & He2 & m & -> & Hm2 & _).
  unfold mbind at 1, M_bind at 1.
  destruct (save_map w _ s2) as [[saved|e] s3] eqn:Hsave;
    eapply save_map_inv in Hsave as (Hd3 & Hm3 & Hsave); [|exact Hm2| |exact Hm2].
  - destruct Hsave as (Hdir & _).
    change (dirname "outputs/taiwan_aqi_map.html") with "outputs" in Hdir.
    rewrite Hdir.
    unfold mbind at 1, M_bind at 1.
    destruct (save_data _ _ _ w _ s3) as [[csv|e] s4] eqn:Hcsv; [reflexivity|].
    eapply save_data_inv in Hcsv as (_ & _ & Hdir' & _);
      [|rewrite Hd3, Hd2; exact Hdf].
    change (dirname "outputs/aqi_data.csv") with "outputs" in Hdir'. congruence.
  - destruct Hsave as (Hdir & _).
    change (dirname "outputs/taiwan_aqi_map.html") with "outputs" in Hdir.
    by rewrite Hdir.
Qed.

(** X4. When the HTTP request fails with a [RequestException] or the body
    is no JSON, [run] returns [False]: it has logged the fetcher's line and
    its own, and has changed nothing else. *)
Theorem run_aborts_on_request_error
  (parse_float : string → option pyfloat)
  (geodesic_km : json * json → Q * Q → result pyfloat)
  (DataFrame_other : json → result DataFrame)
  (w : World) (self : Monitor) (e : exn) :
  http_get w = HttpRaises e →
  e = RequestException ∨ e = JSONDecodeError →
  ∃ message,
    run parse_float geodesic_km DataFrame_other w self
    = (Ret false, logged "無法獲取 AQI 數據" (logged message self)).
Proof.
  intros Hhttp He. unfold run, mbind at 1, M_bind at 1.
  rewrite fetch_outcome, Hhttp.
  destruct He as [-> | ->]; eexists; reflexivity.
Qed.

(** A world in which the request times out. *)
Lemma run_aborts_on_request_error_witness :
  let w := {| http_get := HttpRaises RequestException;
              fs_makedirs := fun _ => None;
              fs_map_save := fun _ => None;
              fs_to_csv := fun _ => None |} in
  ∃ message,
    Sample.run w init = (Ret false, logged "無法獲取 AQI 數據" (logged message init)).
Proof.
  apply (run_aborts_on_request_error
           Sample.parse_float Sample.geodesic_km Sample.DataFrame_other
           _ init RequestException); [reflexivity|by left].
Defined.

(** X5. A run that returns [False] has made no call on the file system
    and has left [self.map] as it was: all it has added to the trace are
    error lines. *)
Theorem run_false_touches_no_file
  (parse_float : string → option pyfloat)
  (geodesic_km : json * json → Q * Q → result pyfloat)
  (DataFrame_other : json → result DataFrame)
  (w : World) (self self' : Monitor) :
  run parse_float geodesic_km DataFrame_other w self = (Ret false, self') →
  self_map self' = self_map self
  ∧ ∃ messages, effects self' = (effects self ++ (LogError <$> messages))%list.
Proof.
  unfold run. intros H.
  apply bind_M_Ret_inv in H as (fetched & s1 & Hfetch & H).
  destruct fetched.
  - apply fetch_true_effects in Hfetch as [He1 Hm1].
    change (negb true) with false in H. cbv iota in H.
    apply bind_M_Ret_inv in H as (data & s & Hget & H).
    injection Hget as <- <-.
    apply bind_M_Ret_inv in H as (odf & s & Hdf & H).
    apply lift_inv in Hdf as [Hdf ->].
    destruct odf as [df|].
    + destruct (empty df) eqn:Hempty.
      * injection H as <-. simpl. rewrite He1, Hm1. split; [done|].
        by exists ["數據處理失敗"].
      * apply bind_M_Ret_inv in H as (aqi_map & s2 & Hmap & H).
        apply create_map_inv in Hmap. rewrite Hempty in Hmap.
        destruct Hmap as (_ & _ & m & -> & _).
        apply bind_M_Ret_inv in H as (saved & s3 & _ & H).
        apply bind_M_Ret_inv in H as (csv & s4 & _ & H). discriminate H.
    + injection H as <-. simpl. rewrite He1, Hm1. split; [done|].
      by exists ["數據處理失敗"].
  - apply fetch_false_logged in Hfetch as (Hm1 & messages & He1).
    injection H as <-. simpl. rewrite He1, Hm1. split; [done|].
    exists (messages ++ ["無法獲取 AQI 數據"])%list. by rewrite fmap_app, app_assoc.
Qed.

(** The record of an unknown station: [run] returns [False] with one line
    logged. *)
Lemma run_false_touches_no_file_witness :
  let out := Sample.run (Sample.world Sample.unknown_station) init in
  self_map out.2 = self_map init
  ∧ ∃ messages, effects out.2 = (effects init ++ (LogError <$> messages))%list.
Proof.
  apply (run_false_touches_no_file
           Sample.parse_float Sample.geodesic_km Sample.DataFrame_other
           (Sample.world Sample.unknown_station) init).
  vm_compute. reflexivity.
Defined.

(** X6. What [run] returns or raises does not depend on whether
    [map.save] or [to_csv] fail: two worlds with the same HTTP answer and
    the same outcome of [os.makedirs] give the same result. *)
Theorem run_ignores_write_outcomes
  (parse_float : string → option pyfloat)
  (geodesic_km : json * json → Q * Q → result pyfloat)
  (DataFrame_other : json → result DataFrame)
  (w w' : World) (self : Monitor) :
  http_get w = http_get w' →
  fs_makedirs w "outputs" = fs_makedirs w' "outputs" →
  (run parse_float geodesic_km DataFrame_other w self).1
  = (run parse_float geodesic_km DataFrame_other w' self).1.
Proof.
  intros Hhttp Hdirs.
  by rewrite !run_value, (fetch_depends_on_http w w' self Hhttp), Hdirs.
Qed.

(** With and without a failing [map.save], the run on the sample records
    returns the same. *)
Lemma run_ignores_write_outcomes_witness :
  (Sample.run (Sample.world Sample.null_aqi) init).1
  = (Sample.run (Sample.world_no_map_save Sample.null_aqi) init).1.
Proof.
  apply (run_ignores_write_outcomes
           Sample.parse_float Sample.geodesic_km Sample.DataFrame_other);
    reflexivity.
Defined.

(** X7. A run that returns [True] has handed at least one station to both
    writers, and as many circle markers to [map.save] as rows to [to_csv]. *)
Theorem run_true_persists_stations
  (parse_float : string → option pyfloat)
  (geodesic_km : json * json → Q * Q → result pyfloat)
  (DataFrame_other : json → result DataFrame)
  (w : World) (self self' : Monitor) :
  run parse_float geodesic_km DataFrame_other w self = (Ret true, self') →
  ∃ df m,
    MapSave "outputs/taiwan_aqi_map.html" m ∈ effects self'
    ∧ ToCsv "outputs/aqi_data.csv" df ∈ effects self'
    ∧ self_map self' = Some m
    ∧ length (circle_markers m) = length (rows df)
    ∧ (0 < length (rows df))%nat.
Proof.
  intros H.
  apply run_true_inv in H
    as (s1 & df & m & saved & _ & Hdf & Hempty & _ & Hmap & Hmarkers & _ & _ & Heffects).
  exists df, m. rewrite Heffects. repeat split.
  - rewrite !elem_of_app. right. left. left. do 2 constructor.
  - rewrite !elem_of_app. right. right. left. do 2 constructor.
  - exact Hmap.
  - symmetry. by eapply list.Forall2_length.
  - rewrite (enriched_empty _ _ _ _ _ Hdf) in Hempty.
    apply bool_decide_eq_false in Hempty. destruct (rows df); [done|simpl; lia].
Qed.

(** The run on the sample records. *)
Lemma run_true_persists_stations_witness :
  ∃ df m,
    MapSave "outputs/taiwan_aqi_map.html" m ∈ effects Sample.null_aqi_final
    ∧ ToCsv "outputs/aqi_data.csv" df ∈ effects Sample.null_aqi_final
    ∧ self_map Sample.null_aqi_final = Some m
    ∧ length (circle_markers m) = length (rows df)
    ∧ (0 < length (rows df))%nat.
Proof.
  apply (run_true_persists_stations
           Sample.parse_float Sample.geodesic_km Sample.DataFrame_other
           (Sample.world Sample.null_aqi) init Sample.null_aqi_final).
  vm_compute. reflexivity.
Defined.

(** ** The persister, case by case *)

Lemma save_map_value w filename self :
  (save_map w filename self).1
  = match self_map self with
    | None => Ret false
    | Some _ =>
        match fs_makedirs w (dirname filename) with
        | Some e => Raise e
        | None => Ret (bool_decide (fs_map_save w filename = None))
        end
    end.
Proof.
  unfold save_map, os_makedirs, try_catch, mbind, M_bind, get_map, emit.
  destruct (self_map self); [|reflexivity]. cbv beta iota.
  destruct (fs_makedirs w (dirname filename)); [reflexivity|]. cbv beta iota.
  destruct (fs_map_save w filename); reflexivity.
Qed.

(** X8. [save_map] raises exactly when there is a map to save and the
    directory of the file cannot be created, and then with the exception of
    [os.makedirs]; it returns [True] exactly when there is a map, the
    directory could be created and [map.save] succeeded. A failure of
    [map.save] itself never escapes. *)
Theorem save_map_raises_iff (w : World) (filename : string) (self : Monitor) :
  (∀ e, (save_map w filename self).1 = Raise e
        ↔ is_Some (self_map self) ∧ fs_makedirs w (dirname filename) = Some e)
  ∧ ((save_map w filename self).1 = Ret true
     ↔ is_Some (self_map self) ∧ fs_makedirs w (dirname filename) = None
       ∧ fs_map_save w filename = None).
Proof.
  rewrite save_map_value.
  destruct (self_map self) as [m|].
  - destruct (fs_makedirs w (dirname filename)) as [e'|].
    + split; [intros e|]; split.
      * intros [= ->]. split; [eauto|done].
      * intros [_ [= ->]]. done.
      * discriminate.
      * intros (_ & [=] & _).
    + split; [intros e|]; split.
      * discriminate.
      * intros [_ [=]].
      * intros [= H]. apply bool_decide_eq_true in H. split; [eauto|done].
      * intros (_ & _ & H). f_equal. by apply bool_decide_eq_true.
  - split; [intros e|]; split; intros H; try discriminate H;
      destruct H as [[? [=]] _].
Qed.

Lemma save_data_value parse_float geodesic_km DataFrame_other w filename self :
  (save_data parse_float geodesic_km DataFrame_other w filename self).1
  = match self_data self with
    | JNull => Ret (Some false)
    | _ =>
        match fs_makedirs w (dirname filename) with
        | Some e => Raise e
        | None =>
            match process_data parse_float geodesic_km DataFrame_other (self_data self) with
            | Ret (Some _) => Ret (Some (bool_decide (fs_to_csv w filename = None)))
            | Ret None => Ret None
            | Raise _ => Ret (Some false)
            end
        end
    end.
Proof.
  unfold save_data, mbind at 1, M_bind at 1, get_data.
  destruct (process_data _ _ _ (self_data self)) as [[df|]|e] eqn:Hdf;
    destruct (self_data self) eqn:Hdata; try reflexivity;
    unfold os_makedirs, try_catch, mbind, M_bind, emit, lift;
    cbn [self_data self_map effects];
    (destruct (fs_makedirs w (dirname filename)); [reflexivity|]);
    rewrite ?Hdf; cbv beta iota; try reflexivity;
    destruct (fs_to_csv w filename); reflexivity.
Qed.

(** X9. [save_data] raises exactly when there is data and the directory of
    the file cannot be created. It returns [True] exactly when, besides,
    [process_data] returns a frame and [to_csv] succeeds, and it falls off
    the end of its body, returning [None], exactly when [process_data]
    returns [None]. An exception of [process_data] is caught: the method
    then returns [False]. *)
Theorem save_data_outcomes
  (parse_float : string → option pyfloat)
  (geodesic_km : json * json → Q * Q → result pyfloat)
  (DataFrame_other : json → result DataFrame)
  (w : World) (filename : string) (self : Monitor) :
  let out := (save_data parse_float geodesic_km DataFrame_other w filename self).1 in
  let normalized := process_data parse_float geodesic_km DataFrame_other (self_data self) in
  (∀ e, out = Raise e
        ↔ self_data self ≠ JNull ∧ fs_makedirs w (dirname filename) = Some e)
  ∧ (out = Ret (Some true)
     ↔ self_data self ≠ JNull ∧ fs_makedirs w (dirname filename) = None
       ∧ (∃ df, normalized = Ret (Some df)) ∧ fs_to_csv w filename = None)
  ∧ (out = Ret None
     ↔ self_data self ≠ JNull ∧ fs_makedirs w (dirname filename) = None
       ∧ normalized = Ret None)
  ∧ (∀ e, self_data self ≠ JNull → fs_makedirs w (dirname filename) = None →
          normalized = Raise e → out = Ret (Some false)).
Proof.
  intros out normalized. unfold out, normalized. rewrite save_data_value.
  assert (self_data self = JNull ∨ self_data self ≠ JNull) as [Hnull|Hdata]
    by (destruct (self_data self); auto; right; discriminate).
  { rewrite Hnull. repeat split; intros; destruct_and?; simplify_eq; done. }
  assert (∀ x : result (option bool),
            match self_data self with JNull => Ret (Some false) | _ => x end = x) as ->
    by (intros x; destruct (self_data self); done).
  destruct (fs_makedirs w (dirname filename)) as [e'|];
    [|destruct (process_data _ _ _ (self_data self)) as [[df|]|e']];
    repeat split; intros; destruct_and?;
    repeat match goal with
           | H : ∃ _, _ |- _ => destruct H
           | H : bool_decide _ = true |- _ => apply bool_decide_eq_true in H
           end;
    simplify_eq; eauto;
    try (do 2 f_equal; by apply bool_decide_eq_true);
    try (eapply bool_decide_eq_true_1; eassumption).
Qed.

(** A response without site names: the [KeyError] of [process_data] is
    caught inside [save_data], which returns [False]. *)
Lemma save_data_outcomes_witness :
  (save_data Sample.parse_float Sample.geodesic_km Sample.DataFrame_other
     (Sample.world JNull) "outputs/aqi_data.csv"
     (with_data Sample.no_sitename init)).1
  = Ret (Some false).
Proof.
  destruct (save_data_outcomes
              Sample.parse_float Sample.geodesic_km Sample.DataFrame_other
              (Sample.world JNull) "outputs/aqi_data.csv"
              (with_data Sample.no_sitename init)) as (_ & _ & _ & Hcaught).
  apply (Hcaught (KeyError "sitename")).
  - discriminate.
  - reflexivity.
  - vm_compute. reflexivity.
Defined.

(** ** Frames made of records *)

Lemma as_records_objects (records : list (list (string * json))) :
  as_records (JArr (JObj <$> records)) = Some records.
Proof.
  unfold as_records. induction records as [|record records IH]; [reflexivity|].
  rewrite fmap_cons.
  change (mapM as_record (JObj record :: (JObj <$> records)))
    with (y ← as_record (JObj record); k ← mapM as_record (JObj <$> records); mret (y :: k)).
  rewrite IH. reflexivity.
Qed.

Lemma dict_of_lookup_from (d : gmap string json) (members : list (string * json)) c :
  is_Some (foldl (fun d kv => <[kv.1 := kv.2]> d) d members !! c)
  ↔ is_Some (d !! c) ∨ c ∈ members.*1.
Proof.
  revert d. induction members as [|[k v] members IH]; intros d; cbn [foldl].
  - rewrite fmap_nil, elem_of_nil. tauto.
  - rewrite IH, fmap_cons, elem_of_cons. cbn [fst snd].
    destruct (decide (c = k)) as [->|Hne].
    + rewrite lookup_insert_eq. split; [auto|]. intros _. left. eauto.
    + rewrite lookup_insert_ne by done. tauto.
Qed.

Lemma dict_of_is_Some (members : list (string * json)) c :
  is_Some (dict_of members !! c) ↔ c ∈ members.*1.
Proof.
  unfold dict_of. rewrite dict_of_lookup_from, lookup_empty.
  split; [intros [[? [=]]|]; done|auto].
Qed.

Lemma add_keys_elem (seen : list string) (members : list (string * json)) c :
  c ∈ add_keys seen members ↔ c ∈ seen ∨ c ∈ members.*1.
Proof.
  unfold add_keys. revert seen.
  induction members as [|[k v] members IH]; intros seen; cbn [foldl].
  - rewrite fmap_nil, elem_of_nil. tauto.
  - rewrite IH, fmap_cons, elem_of_cons. cbn [fst].
    case_decide as Hk.
    + split; [tauto|]. intros [?|[->|?]]; auto.
    + rewrite elem_of_app, elem_of_cons, elem_of_nil. tauto.
Qed.

Lemma frame_columns_elem_from (seen : list string) (records : list (list (string * json))) c :
  c ∈ foldl add_keys seen records
  ↔ c ∈ seen ∨ ∃ record, record ∈ records ∧ c ∈ record.*1.
Proof.
  revert seen. induction records as [|record records IH]; intros seen; cbn [foldl].
  - split; [auto|]. intros [?|(? & H & _)]; [done|by apply elem_of_nil in H].
  - rewrite IH, add_keys_elem. split.
    + intros [[?|?]|(r & Hr & Hc)]; [auto| |].
      * right. exists record. split; [left|done].
      * right. exists r. split; [by right|done].
    + intros [?|(r & Hr & Hc)]; [auto|].
      apply elem_of_cons in Hr as [->|Hr]; [auto|]. right. eauto.
Qed.

(** A label is a column of the frame made of the records exactly when one
    of the records has it as a key. *)
Lemma frame_columns_elem (records : list (list (string * json))) c :
  c ∈ columns (frame_of_records records)
  ↔ ∃ record, record ∈ records ∧ is_Some (dict_of record !! c).
Proof.
  unfold frame_of_records. cbn [columns].
  rewrite frame_columns_elem_from, elem_of_nil.
  setoid_rewrite dict_of_is_Some. tauto.
Qed.

(** ** The outcome of the normalizer *)

Lemma coordinates_get_hashable x :
  hashable x = true → coordinates_get x = Ret (or_default (JNull, JNull) (coordinates_get x)).
Proof.
  destruct x; try discriminate; try reflexivity.
  intros _. unfold coordinates_get.
  by destruct (station_coordinates !! s) as [[lat lon]|].
Qed.

Lemma mapM_coordinates_hashable (proj : json * json → json) (cells : list json) :
  Forall (fun x => hashable x = true) cells →
  mapM (fun x => c ← coordinates_get x; mret (proj c)) cells
  = Ret ((fun x => proj (or_default (JNull, JNull) (coordinates_get x))) <$> cells).
Proof.
  induction 1 as [|x cells Hx _ IH]; [reflexivity|].
  rewrite fmap_cons.
  change (mapM ?f (x :: cells)) with (y ← f x; k ← mapM f cells; mret (y :: k)).
  rewrite IH, (coordinates_get_hashable x Hx). reflexivity.
Qed.

Lemma mapM_coordinates_unhashable (proj : json * json → json) (cells : list json) :
  Exists (fun x => hashable x = false) cells →
  mapM (fun x => c ← coordinates_get x; mret (proj c)) cells = Raise TypeError.
Proof.
  induction 1 as [x cells Hx|x cells _ IH].
  - change (mapM ?f (x :: cells)) with (y ← f x; k ← mapM f cells; mret (y :: k)).
    destruct x; try discriminate; reflexivity.
  - change (mapM ?f (x :: cells)) with (y ← f x; k ← mapM f cells; mret (y :: k)).
    rewrite IH. destruct (hashable x) eqn:Hx.
    + rewrite (coordinates_get_hashable x Hx). reflexivity.
    + destruct x; try discriminate; reflexivity.
Qed.

Lemma mapM_returns {A B} (f : A → result B) (d : B) (l : list A) :
  (∀ x, ∃ y, f x = Ret y) → mapM f l = Ret ((fun x => or_default d (f x)) <$> l).
Proof.
  intros Hf. induction l as [|x l IH]; [reflexivity|].
  rewrite fmap_cons.
  change (mapM f (x :: l)) with (y ← f x; k ← mapM f l; mret (y :: k)).
  destruct (Hf x) as [y Hy]. rewrite IH, Hy. reflexivity.
Qed.

Lemma Ret_bind {A B} (a : A) (f : A → result B) : Ret a ≫= f = f a.
Proof. reflexivity. Qed.

Section Outcome.

Set Default Proof Using "Type".

Variable parse_float : string → option pyfloat.
Variable geodesic_km : json * json → Q * Q → result pyfloat.
Variable DataFrame_other : json → result DataFrame.

Lemma sitename_available (records : list (list (string * json))) :
  "sitename" ∈ filter (fun col => col ∈ columns (frame_of_records records)) columns_to_keep
  ↔ ∃ record, record ∈ records ∧ is_Some (dict_of record !! "sitename").
Proof.
  rewrite list_elem_of_filter, frame_columns_elem.
  split; [by intros [H _]|]. intros H. split; [exact H|]. unfold columns_to_keep. left.
Qed.

Lemma process_data_no_sitename records :
  records ≠ [] →
  (∀ record, record ∈ records → dict_of record !! "sitename" = None) →
  process_data parse_float geodesic_km DataFrame_other (JArr (JObj <$> records))
  = Raise (KeyError "sitename").
Proof.
  intros Hne Hnone. unfold process_data, pd_DataFrame.
  rewrite as_records_objects.
  assert (negb (truthy (JArr (JObj <$> records))) = false) as ->
    by (by destruct records).
  change (Ret ?a ≫= ?f) with (f a). cbv beta zeta.
  set (available := filter _ columns_to_keep).
  set (dfa := getitem_columns (frame_of_records records) available).
  assert (getitem_column dfa "sitename" = Raise (KeyError "sitename")) as ->;
    [|reflexivity].
  unfold getitem_column. cbn [columns dfa getitem_columns].
  rewrite decide_False; [done|].
  intros Hin. apply sitename_available in Hin as (record & Hrecord & [v Hv]).
  by rewrite (Hnone record Hrecord) in Hv.
Qed.

Lemma process_data_unhashable records :
  (∃ record, record ∈ records ∧ is_Some (dict_of record !! "sitename")) →
  (∃ record, record ∈ records ∧ hashable (site_of record) = false) →
  process_data parse_float geodesic_km DataFrame_other (JArr (JObj <$> records))
  = Raise TypeError.
Proof.
  intros Hsome (bad & Hbad & Hunhashable). unfold process_data, pd_DataFrame.
  rewrite as_records_objects.
  assert (negb (truthy (JArr (JObj <$> records))) = false) as ->.
  { destruct records; [by apply elem_of_nil in Hbad|done]. }
  change (Ret ?a ≫= ?f) with (f a). cbv beta zeta.
  set (available := filter _ columns_to_keep).
  set (dfa := getitem_columns (frame_of_records records) available).
  assert ("sitename" ∈ available) as Hin by (by apply sitename_available).
  assert (getitem_column dfa "sitename" = Ret (cell "sitename" <$> rows dfa)) as ->.
  { unfold getitem_column. cbn [columns dfa getitem_columns]. by rewrite decide_True. }
  change (Ret ?a ≫= ?f) with (f a). cbv beta.
  rewrite (mapM_coordinates_unhashable fst); [reflexivity|].
  apply list.Exists_exists. exists (site_of bad). split; [|exact Hunhashable].
  apply list_elem_of_fmap. eexists. split; [|cbn [rows dfa getitem_columns];
    apply list_elem_of_fmap_2, list_elem_of_fmap_2, Hbad].
  unfold site_of, cell. by rewrite lookup_project.
Qed.

Lemma process_data_returns records :
  (∃ record, record ∈ records ∧ is_Some (dict_of record !! "sitename")) →
  (∀ record, record ∈ records → hashable (site_of record) = true) →
  ∃ df, process_data parse_float geodesic_km DataFrame_other (JArr (JObj <$> records))
        = Ret (Some df).
Proof.
  intros Hsome Hhashable. unfold process_data, pd_DataFrame.
  rewrite as_records_objects.
  assert (negb (truthy (JArr (JObj <$> records))) = false) as ->.
  { destruct Hsome as (record & Hrecord & _).
    destruct records; [by apply elem_of_nil in Hrecord|done]. }
  change (Ret ?a ≫= ?f) with (f a). cbv beta zeta.
  set (available := filter _ columns_to_keep).
  set (dfa := getitem_columns (frame_of_records records) available).
  assert ("sitename" ∈ available) as Hin by (by apply sitename_available).
  assert (Forall (fun x => hashable x = true) (cell "sitename" <$> rows dfa)) as Hcells.
  { cbn [rows dfa getitem_columns frame_of_records]. rewrite <- !list_fmap_compose.
    apply Forall_fmap, list.Forall_forall. intros record Hrecord.
    cbn [compose]. unfold cell. rewrite lookup_project by done.
    by apply Hhashable. }
  assert (getitem_column dfa "sitename" = Ret (cell "sitename" <$> rows dfa)) as ->.
  { unfold getitem_column. cbn [columns dfa getitem_columns]. by rewrite decide_True. }
  change (Ret ?a ≫= ?f) with (f a). cbv beta.
  rewrite (mapM_coordinates_hashable fst) by exact Hcells.
  change (Ret ?a ≫= ?f) with (f a). cbv beta.
  rewrite <- list_fmap_compose.
  set (df1 := setitem_column dfa "latitude" _).
  assert (rows df1 = (fun row => <["latitude" := latitude_of row]> row) <$> rows dfa) as Hr1.
  { unfold df1. rewrite setitem_column_rows. apply list_fmap_ext. intros i row _.
    f_equal. unfold compose, latitude_of.
    by destruct (coordinates_get (cell "sitename" row)). }
  assert (getitem_column df1 "sitename" = Ret (cell "sitename" <$> rows df1)) as ->.
  { unfold getitem_column. rewrite decide_True; [done|].
    unfold df1, setitem_column. cbn [columns dfa getitem_columns].
    case_decide; [done|]. apply elem_of_app. by left. }
  clearbody df1.
  change (Ret ?a ≫= ?f) with (f a). cbv beta.
  rewrite (mapM_coordinates_hashable snd).
  2: { rewrite Hr1, <- list_fmap_compose.
       apply Forall_fmap in Hcells. apply Forall_fmap.
       eapply list.Forall_impl; [exact Hcells|]. intros row Hrow.
       cbn [compose] in *. unfold cell in *. by rewrite lookup_insert_ne. }
  rewrite Ret_bind, coerce_loop_returns, Ret_bind.
  set (df5 := if decide _ then _ else _). clearbody df5.
  rewrite (mapM_returns _ JNull).
  2: { intros row. apply calculate_distance_returns. }
  rewrite Ret_bind. eexists. reflexivity.
Qed.

End Outcome.

(** X10. The outcome of [process_data] on a list of records, classified.
    It returns [None] exactly for the empty list. It raises
    [KeyError('sitename')] exactly when the list is not empty and no record
    has a [sitename] key, and [TypeError] exactly when some record has the
    key and the site name of some record is a list or an object, which
    cannot be looked up in the coordinate table. In every other case, that
    is when some record has the key and every site name is hashable, it
    returns a frame: nothing else in the records makes it fail. *)
Theorem process_data_outcome
  (parse_float : string → option pyfloat)
  (geodesic_km : json * json → Q * Q → result pyfloat)
  (DataFrame_other : json → result DataFrame)
  (records : list (list (string * json))) :
  let out := process_data parse_float geodesic_km DataFrame_other
               (JArr (JObj <$> records)) in
  let named := ∃ record, record ∈ records ∧ is_Some (dict_of record !! "sitename") in
  let unhashable := ∃ record, record ∈ records ∧ hashable (site_of record) = false in
  (out = Ret None ↔ records = [])
  ∧ (out = Raise (KeyError "sitename") ↔ records ≠ [] ∧ ¬ named)
  ∧ (out = Raise TypeError ↔ named ∧ unhashable)
  ∧ ((∃ df, out = Ret (Some df)) ↔ named ∧ ¬ unhashable).
Proof.
  intros out named unhashable.
  assert (named ↔ Exists (fun record => is_Some (dict_of record !! "sitename")) records)
    as Hnamed by (symmetry; apply list.Exists_exists).
  assert (unhashable ↔ Exists (fun record => hashable (site_of record) = false) records)
    as Hunhashable by (symmetry; apply list.Exists_exists).
  destruct (decide (records = [])) as [->|Hne].
  { assert (out = Ret None) as -> by reflexivity.
    assert (¬ named) by (intros (? & H & _); by apply elem_of_nil in H).
    clearbody named unhashable.
    repeat split; intros; destruct_and?;
      repeat match goal with H : ∃ _, _ |- _ => destruct H end; simplify_eq; done. }
  destruct (decide (Exists (fun record => is_Some (dict_of record !! "sitename")) records))
    as [Hyes|Hno]; rewrite <- Hnamed in *.
  - destruct (decide (Exists (fun record => hashable (site_of record) = false) records))
      as [Hbad|Hgood]; rewrite <- Hunhashable in *.
    + assert (out = Raise TypeError) as -> by (by apply process_data_unhashable).
      clearbody named unhashable.
      repeat split; intros; destruct_and?;
        repeat match goal with H : ∃ _, _ |- _ => destruct H end; simplify_eq; done.
    + destruct (process_data_returns parse_float geodesic_km DataFrame_other records)
        as [df Hdf]; [done| |].
      { intros record Hrecord. destruct (hashable (site_of record)) eqn:Hh; [done|].
        destruct Hgood. exists record. done. }
      fold out in Hdf. rewrite Hdf. clearbody named unhashable.
      repeat split; intros; destruct_and?;
        repeat match goal with H : ∃ _, _ |- _ => destruct H end; simplify_eq;
        eauto; done.
  - assert (out = Raise (KeyError "sitename")) as ->.
    { apply process_data_no_sitename; [done|]. intros record Hrecord.
      apply eq_None_not_Some. intros ?. apply Hno. exists record. done. }
    clearbody named unhashable.
    repeat split; intros; destruct_and?;
      repeat match goal with H : ∃ _, _ |- _ => destruct H end; simplify_eq; done.
Qed.

(** A record with a list as site name. *)
Example unhashable_sitename_raises :
  process_data Sample.parse_float Sample.geodesic_km Sample.DataFrame_other
    (JArr [JObj [("sitename", JArr [JStr "Daan"]); ("aqi", JStr "42")]])
  = Raise TypeError.
Proof. vm_compute. reflexivity. Qed.

(** ** The columns of the enriched frame *)

Lemma has_field_column records c :
  has_field records c = true ↔ c ∈ columns (frame_of_records records).
Proof.
  unfold has_field. rewrite bool_decide_eq_true, list.Exists_exists, frame_columns_elem.
  by setoid_rewrite dict_of_is_Some.
Qed.

Lemma column_present_kept records c :
  c ∈ columns_to_keep →
  column_present records (if decide (c = "publishtime") then "datacreationdate" else c) = true
  ↔ c ∈ columns (frame_of_records records).
Proof.
  intros H. rewrite <- has_field_column. unfold columns_to_keep in H.
  repeat (apply elem_of_cons in H as [->|H]; [reflexivity|]).
  by apply elem_of_nil in H.
Qed.

(** The columns of the enriched frame, from the fields of the records. *)
Lemma enriched_columns_filter parse_float geodesic_km DataFrame_other data records df :
  as_records data = Some records →
  process_data parse_float geodesic_km DataFrame_other data = Ret (Some df) →
  columns df = filter (fun c => column_present records c = true) output_columns.
Proof.
  intros Hrecords Hdf.
  destruct (process_data_enriched _ _ _ _ _ _ Hrecords Hdf) as (_ & Hcols & _).
  rewrite Hcols, fmap_app, <- app_assoc.
  change output_columns
    with (((fun c => if decide (c = "publishtime") then "datacreationdate" else c)
             <$> columns_to_keep)
          ++ ["latitude"; "longitude"; "distance_to_taipei"])%list.
  rewrite list.filter_app, filter_fmap. f_equal. f_equal.
  apply filter_ext_elem. intros c Hc. symmetry. by apply column_present_kept.
Qed.

(** X11. The columns of the frame [process_data] returns are the output
    columns (sitename, county, the seven measurements, datacreationdate,
    latitude, longitude, distance_to_taipei) in that order, without those
    whose source field no record has: a column of [columns_to_keep] is
    there exactly when some record has the field ([publishtime] for
    [datacreationdate]), and the three computed columns are always there.
    So no other field of the input reaches the output, [publishtime] never
    does under its own name, and no column is repeated. *)
Theorem process_data_columns
  (parse_float : string → option pyfloat)
  (geodesic_km : json * json → Q * Q → result pyfloat)
  (DataFrame_other : json → result DataFrame)
  (data : json) (records : list (list (string * json))) (df : DataFrame) :
  as_records data = Some records →
  process_data parse_float geodesic_km DataFrame_other data = Ret (Some df) →
  columns df = filter (fun c => column_present records c = true) output_columns
  ∧ ("publishtime" ∉ columns df)
  ∧ NoDup (columns df).
Proof.
  intros Hrecords Hdf.
  pose proof (enriched_columns_filter _ _ _ _ _ _ Hrecords Hdf) as Heq.
  split; [exact Heq|]. rewrite Heq. split.
  - intros H. apply list_elem_of_filter in H as [_ H].
    unfold output_columns in H. absurd_member H.
  - apply list.NoDup_filter. unfold output_columns.
    repeat (constructor; [intros H; absurd_member H|]). constructor.
Qed.

(** The three sample records have a site name, a county and an AQI and
    no other field. *)
Lemma process_data_columns_witness :
  columns Sample.null_aqi_frame
  = filter (fun c => column_present Sample.null_aqi_records c = true) output_columns.
Proof.
  apply (process_data_columns
           Sample.parse_float Sample.geodesic_km Sample.DataFrame_other
           Sample.null_aqi Sample.null_aqi_records Sample.null_aqi_frame).
  - reflexivity.
  - vm_compute. reflexivity.
Defined.

(** ** The fields of an enriched row *)

(** Membership of a literal in a list of literals that holds it. *)
Ltac literal_member := solve [repeat first [left | right]].

Lemma normalize_row_other parse_float cols available (record : gmap string json) c :
  c ∉ numeric_columns →
  normalize_row parse_float cols available record !! c
  = if decide (c ∈ available) then record !! c else None.
Proof.
  intros Hnum. unfold normalize_row. rewrite coerce_fold_lookup.
  rewrite decide_False by (by intros [? _]).
  assert (c ≠ "latitude") by (intros ->; apply Hnum; unfold numeric_columns; do 7 right; left).
  assert (c ≠ "longitude") by (intros ->; apply Hnum; unfold numeric_columns; do 8 right; left).
  rewrite !lookup_insert_ne by done. rewrite map_lookup_filter.
  destruct (record !! c) as [x|]; simpl; [|by case_decide].
  case_decide; [by rewrite option_guard_True|by rewrite option_guard_False].
Qed.

Lemma kept_field_absent (records : list (list (string * json))) record c :
  record ∈ records →
  c ∉ filter (fun col => col ∈ columns (frame_of_records records)) columns_to_keep →
  c ∈ columns_to_keep →
  dict_of record !! c = None.
Proof.
  intros Hrecord Hout Hkept. apply eq_None_not_Some. intros Hsome. apply Hout.
  apply list_elem_of_filter. split; [|exact Hkept].
  apply frame_columns_elem. eauto.
Qed.

Lemma normalize_row_text parse_float cols (records : list (list (string * json)))
    record c :
  record ∈ records → c ∈ columns_to_keep → c ∉ numeric_columns →
  normalize_row parse_float cols
    (filter (fun col => col ∈ columns (frame_of_records records)) columns_to_keep)
    (dict_of record) !! c
  = dict_of record !! c.
Proof.
  intros Hrecord Hkept Hnum. rewrite normalize_row_other by done.
  case_decide; [done|]. symmetry. by eapply kept_field_absent.
Qed.

Lemma normalize_row_dropped parse_float cols available (record : gmap string json) c :
  available ⊆ columns_to_keep → c ∉ columns_to_keep → c ∉ numeric_columns →
  normalize_row parse_float cols available record !! c = None.
Proof.
  intros Hsub Hkept Hnum. rewrite normalize_row_other by done.
  rewrite decide_False; [done|]. intros H. by apply Hkept, Hsub.
Qed.

Lemma available_kept (records : list (list (string * json))) :
  filter (fun col => col ∈ columns (frame_of_records records)) columns_to_keep
  ⊆ columns_to_keep.
Proof. intros c Hc. by apply list_elem_of_filter in Hc as [_ Hc]. Qed.

Lemma text_not_numeric c :
  c ∈ ["sitename"; "county"; "publishtime"; "datacreationdate"] → c ∉ numeric_columns.
Proof.
  intros Hc Hnum. unfold numeric_columns in Hnum.
  repeat (apply elem_of_cons in Hc as [->|Hc]; [absurd_member Hnum|]).
  by apply elem_of_nil in Hc.
Qed.

(** X12. Field by field, what an enriched row holds of the record it comes
    from (the rows are the records of known stations, in input order): the
    site name and the county are the record's own, absent when the record
    has none; [datacreationdate] is the record's [publishtime] and the row
    has no [publishtime]; and the row has no field outside the output
    columns. A measurement that some record of the response has is, where
    every record has a [bool] for it, that [bool]; otherwise it is a
    number: the one read in the record's text, NaN for a text that is no
    number, for a null, a list, a dict or a record without the field, 0 or
    1 for a [bool], and for a number a number, the same one when it is at
    most 2^53 in absolute value. *)
Theorem process_data_fields
  (parse_float : string → option pyfloat)
  (geodesic_km : json * json → Q * Q → result pyfloat)
  (DataFrame_other : json → result DataFrame)
  (data : json) (records : list (list (string * json))) (df : DataFrame) :
  as_records data = Some records →
  process_data parse_float geodesic_km DataFrame_other data = Ret (Some df) →
  Forall2
    (fun record row =>
       row !! "sitename" = dict_of record !! "sitename"
       ∧ row !! "county" = dict_of record !! "county"
       ∧ row !! "datacreationdate" = dict_of record !! "publishtime"
       ∧ row !! "publishtime" = None
       ∧ (∀ c, c ∈ ["aqi"; "pm25"; "pm10"; "o3"; "no2"; "so2"; "co"] →
               has_field records c = true →
               if bool_column (dict_of <$> records) c
               then row !! c = dict_of record !! c
               else converted_cell parse_float (cell c (dict_of record)) (row !! c))
       ∧ (∀ c, c ∉ output_columns → row !! c = None))
    (filter (fun record => known_site (site_of record) = true) records)
    (rows df).
Proof.
  intros Hrecords Hdf.
  destruct (process_data_enriched _ _ _ _ _ _ Hrecords Hdf) as (Hin & _ & ->).
  set (available := filter _ columns_to_keep) in *.
  set (cols := converted_of _ available).
  apply Forall2_fmap_r, Forall_Forall2_diag, list.Forall_forall.
  intros record Hrecord. apply list_elem_of_filter in Hrecord as [_ Hrecord].
  pose proof (available_kept records) as Hsub. fold available in Hsub.
  assert (normalize_row parse_float cols available (dict_of record) !! "publishtime"
          = dict_of record !! "publishtime") as Hpublish.
  { apply normalize_row_text; [done| |apply text_not_numeric].
    - unfold columns_to_keep. do 9 right. left.
    - do 2 right. left. }
  assert (normalize_row parse_float cols available (dict_of record) !! "datacreationdate"
          = None) as Hdate.
  { apply normalize_row_dropped; [done| |apply text_not_numeric].
    - intros H. unfold columns_to_keep in H. absurd_member H.
    - do 3 right. left. }
  split; [|split; [|split; [|split; [|split]]]].
  - rewrite finish_row_lookup by done. by apply normalize_row_sitename.
  - rewrite finish_row_lookup by done.
    apply normalize_row_text; [done| |apply text_not_numeric].
    + unfold columns_to_keep. right. left.
    + right. left.
  - unfold finish_row. rewrite lookup_insert_ne by done. unfold rename_key.
    rewrite Hpublish. case_decide as Hp.
    + destruct (dict_of record !! "publishtime") as [v|]; [|exact Hdate].
      by rewrite lookup_insert_eq.
    + rewrite Hdate. symmetry. eapply kept_field_absent; [done|exact Hp|].
      unfold columns_to_keep. do 9 right. left.
  - unfold finish_row. rewrite lookup_insert_ne by done. unfold rename_key.
    rewrite Hpublish. case_decide as Hp.
    + destruct (dict_of record !! "publishtime") as [v|] eqn:Hv.
      * rewrite lookup_insert_ne by done. by rewrite lookup_delete_eq.
      * by rewrite Hpublish.
    + rewrite Hpublish. eapply kept_field_absent; [done|exact Hp|].
      unfold columns_to_keep. do 9 right. left.
  - intros c Hc Hfield.
    assert (c ∈ numeric_columns ∧ c ∈ columns_to_keep) as [Hnum Hkept].
    { unfold numeric_columns, columns_to_keep.
      repeat (apply elem_of_cons in Hc as [->|Hc];
              [split; literal_member|]).
      by apply elem_of_nil in Hc. }
    destruct (numeric_not_renamed _ Hnum) as (H1 & H2 & H3 & _).
    assert (c ∈ available) as Hav
      by (apply list_elem_of_filter; split; [by apply has_field_column|done]).
    assert (c ≠ "latitude") as Hla by (intros ->; by apply not_kept_latitude).
    assert (c ≠ "longitude") as Hlo by (intros ->; by apply not_kept_longitude).
    rewrite finish_row_lookup by done.
    destruct (bool_column (dict_of <$> records) c) eqn:Hbool.
    + apply normalize_row_kept; [done| |done|done].
      unfold cols, converted_of. intros Hx. apply elem_of_app in Hx as [Hx|Hx].
      * apply list_elem_of_filter in Hx as [Hx _]. congruence.
      * apply elem_of_cons in Hx as [->|Hx]; [done|].
        apply elem_of_cons in Hx as [->|Hx]; [done|by apply elem_of_nil in Hx].
    + rewrite normalize_row_numeric;
        [apply coerced_cell_converted|done|done| |done|done].
      unfold cols, converted_of. apply elem_of_app. left. by apply list_elem_of_filter.
  - intros c Hc.
    assert (c ≠ "distance_to_taipei" ∧ c ≠ "datacreationdate" ∧ c ∉ numeric_columns)
      as (Hd & Hdc & Hnum).
    { unfold output_columns, numeric_columns in *. repeat split.
      - intros ->. apply Hc. do 12 right. left.
      - intros ->. apply Hc. do 9 right. left.
      - intros H. apply Hc.
        repeat (apply elem_of_cons in H as [->|H];
                [literal_member|]).
        by apply elem_of_nil in H. }
    destruct (decide (c = "publishtime")) as [->|Hp].
    + unfold finish_row. rewrite lookup_insert_ne by done. unfold rename_key.
      rewrite Hpublish. case_decide as Hp.
      * destruct (dict_of record !! "publishtime") as [v|] eqn:Hv.
        -- rewrite lookup_insert_ne by done. by rewrite lookup_delete_eq.
        -- by rewrite Hpublish.
      * rewrite Hpublish. eapply kept_field_absent; [done|exact Hp|].
        unfold columns_to_keep. do 9 right. left.
    + rewrite finish_row_lookup by done.
      apply normalize_row_dropped; [done| |done].
      intros H. apply Hc. unfold columns_to_keep, output_columns in *.
      repeat (apply elem_of_cons in H as [->|H];
              [first [done | literal_member]|]).
      by apply elem_of_nil in H.
Qed.

(** The three sample records: the first has an empty text as AQI, and
    its row holds NaN. *)
Lemma process_data_fields_witness :
  ∃ row, rows Sample.null_aqi_frame !! 0%nat = Some row
         ∧ row !! "aqi" = Some (JNum NaN).
Proof.
  pose proof (process_data_fields
                Sample.parse_float Sample.geodesic_km Sample.DataFrame_other
                Sample.null_aqi Sample.null_aqi_records Sample.null_aqi_frame
                ltac:(reflexivity) ltac:(vm_compute; reflexivity)) as H.
  vm_compute filter in H.
  destruct (rows Sample.null_aqi_frame) as [|row rest] eqn:Hrows; [inversion H|].
  exists row. split; [reflexivity|].
  apply Forall2_cons_1 in H as [(_ & _ & _ & _ & Hnumeric & _) _].
  exact (Hnumeric "aqi" ltac:(left) ltac:(vm_compute; reflexivity)).
Defined.

(** ** The distance column *)

(** X13. In every row of the enriched frame the distance field is there
    and is the distance of the station's own coordinates, those of the
    coordinate table for the row's site name: what geopy gives for them and
    Taipei station rounded to two decimals, or [None] when geopy raises.
    Two rows of the same station so hold the same distance. *)
Theorem distance_of_table_coordinates
  (parse_float : string → option pyfloat)
  (geodesic_km : json * json → Q * Q → result pyfloat)
  (DataFrame_other : json → result DataFrame)
  (data : json) (records : list (list (string * json))) (df : DataFrame) :
  as_records data = Some records →
  process_data parse_float geodesic_km DataFrame_other data = Ret (Some df) →
  Forall (fun row =>
            ∃ s lat lon,
              row !! "sitename" = Some (JStr s)
              ∧ station_coordinates !! s = Some (lat, lon)
              ∧ row !! "distance_to_taipei"
                = Some match geodesic_km (JNum (Fin lat), JNum (Fin lon)) taipei_station with
                       | Ret d => JNum (py_round2 d)
                       | Raise _ => JNull
                       end)
    (rows df).
Proof.
  intros Hrecords Hdf.
  destruct (process_data_enriched _ _ _ _ _ _ Hrecords Hdf) as (Hin & _ & ->).
  set (available := filter _ columns_to_keep) in *.
  apply Forall_fmap, list.Forall_forall. intros record Hrecord.
  apply list_elem_of_filter in Hrecord as [Hknown _]. cbn [compose].
  destruct (coordinates_enriched parse_float geodesic_km
              (converted_of (dict_of <$> records) available) available record Hin
              (converted_latitude _ _) (converted_longitude _ _) Hknown)
    as (s & lat & lon & Hs & Htable & Hlat & Hlon).
  exists s, lat, lon. split; [exact Hs|]. split; [exact Htable|].
  unfold finish_row in *. cbv zeta in *.
  set (r := if decide ("publishtime" ∈ available) then _ else _) in *. clearbody r.
  rewrite lookup_insert_ne in Hlat, Hlon by done.
  rewrite lookup_insert_eq. f_equal. unfold distance_of, cell. rewrite Hlat, Hlon.
  cbn [default from_option id].
  destruct (calculate_distance_cases geodesic_km (JNum (Fin lat)) (JNum (Fin lon)))
    as [(d & -> & ->)|(e & -> & ->)]; reflexivity.
Qed.

(** The frame of the three sample records, with the straight-line stand-in
    for geopy. *)
Lemma distance_of_table_coordinates_witness :
  Forall (fun row => ∃ v, row !! "distance_to_taipei" = Some v) (rows Sample.null_aqi_frame).
Proof.
  eapply list.Forall_impl.
  - apply (distance_of_table_coordinates
             Sample.parse_float Sample.geodesic_km Sample.DataFrame_other
             Sample.null_aqi Sample.null_aqi_records Sample.null_aqi_frame).
    + reflexivity.
    + vm_compute. reflexivity.
  - intros row (s & lat & lon & _ & _ & H). eauto.
Defined.

(** ** The renderer *)

Lemma radius_at_least_8 (v : pyfloat) :
  py_le (Fin 0) v = true →
  py_le (Fin 8) (py_add (Fin 8) (py_div_pos v 50)) = true.
Proof.
  destruct v as [q| | |]; try discriminate; try reflexivity.
  cbn [py_div_pos py_add py_le]. intros Hq.
  assert (q / inject_Z 50 == q * (1 # 50))%Q as Hdiv by (field; discriminate).
  apply Qle_bool_iff in Hq. apply Qle_bool_iff. rewrite Hdiv. lra.
Qed.

Lemma radius_below_8 (v : pyfloat) :
  py_le v (Fin (-1)) = true →
  py_lt (py_add (Fin 8) (py_div_pos v 50)) (Fin 8) = true.
Proof.
  destruct v as [q| | |]; try discriminate; try reflexivity.
  cbn [py_div_pos py_add py_le py_lt]. intros Hq.
  assert (q / inject_Z 50 == q * (1 # 50))%Q as Hdiv by (field; discriminate).
  apply Qle_bool_iff in Hq. apply negb_true_iff.
  destruct (Qle_bool 8 (8 + q / inject_Z 50)) eqn:Hr; [|reflexivity].
  apply Qle_bool_iff in Hr. rewrite Hdiv in Hr. lra.
Qed.

Lemma validate_location_Ret lat lon loc :
  validate_location lat lon = Ret loc →
  lat = JNum loc.1 ∧ lon = JNum loc.2 ∧ is_nan loc.1 = false ∧ is_nan loc.2 = false.
Proof.
  unfold validate_location. destruct lat as [| |a| | |]; try discriminate.
  destruct lon as [| |b| | |]; try discriminate.
  destruct (is_nan a) eqn:Ha; [discriminate|].
  destruct (is_nan b) eqn:Hb; [discriminate|]. intros [= <-]. done.
Qed.

(** X14. Whenever the loop of [create_map] builds a marker for a row, the
    marker shows the row's own values: the AQI it shows is the row's, or 0
    when the row's is null, and is never NaN; color, popup color and level
    are those of that value; the tooltip names the row's site; the place is
    the row's latitude and longitude, neither of them NaN. The radius is
    8 + AQI/50 and is not clamped: it is at least 8 when the AQI is not
    negative, and below 8 when the AQI is -1 or less. *)
Theorem marker_shows_row (df : DataFrame) (row : gmap string json) (mk : CircleMarker) :
  circle_marker_of_row df row = Ret mk →
  let v := popup_aqi (popup mk) in
  is_nan v = false
  ∧ (if isna (cell "aqi" row) then v = Fin 0 else as_number (cell "aqi" row) = Ret v)
  ∧ fillColor mk = get_aqi_color v
  ∧ popup_color (popup mk) = get_aqi_color v
  ∧ popup_level (popup mk) = get_aqi_level v
  ∧ tooltip mk = (cell "sitename" row, v)
  ∧ popup_sitename (popup mk) = cell "sitename" row
  ∧ popup_county (popup mk) = cell "county" row
  ∧ popup_distance (popup mk) = cell "distance_to_taipei" row
  ∧ cell "latitude" row = JNum (location mk).1
  ∧ cell "longitude" row = JNum (location mk).2
  ∧ is_nan (location mk).1 = false ∧ is_nan (location mk).2 = false
  ∧ radius mk = py_add (Fin 8) (py_div_pos v 50)
  ∧ (py_le (Fin 0) v = true → py_le (Fin 8) (radius mk) = true)
  ∧ (py_le v (Fin (-1)) = true → py_lt (radius mk) (Fin 8) = true).
Proof.
  unfold circle_marker_of_row. intros H.
  apply bind_Ret_inv in H as (aqi & Haqi & H).
  unfold row_getitem in Haqi. case_decide; [|discriminate]. injection Haqi as <-.
  apply bind_Ret_inv in H as (aqi_value & Hvalue & H).
  apply bind_Ret_inv in H as (sitename & Hsite & H).
  unfold row_getitem in Hsite. case_decide; [|discriminate]. injection Hsite as <-.
  apply bind_Ret_inv in H as (county & Hcounty & H).
  unfold row_getitem in Hcounty. case_decide; [|discriminate]. injection Hcounty as <-.
  apply bind_Ret_inv in H as (distance & Hdistance & H).
  unfold row_getitem in Hdistance. case_decide; [|discriminate]. injection Hdistance as <-.
  apply bind_Ret_inv in H as (latitude & Hlat & H).
  unfold row_getitem in Hlat. case_decide; [|discriminate]. injection Hlat as <-.
  apply bind_Ret_inv in H as (longitude & Hlon & H).
  unfold row_getitem in Hlon. case_decide; [|discriminate]. injection Hlon as <-.
  apply bind_Ret_inv in H as (loc & Hloc & H).
  apply validate_location_Ret in Hloc as (Hla & Hlo & Hna & Hno).
  injection H as <-. cbn [popup popup_aqi fillColor popup_color popup_level tooltip
                          popup_sitename popup_county popup_distance location radius].
  assert (is_nan aqi_value = false) as Hnan.
  { destruct (cell "aqi" row) as [| |v| | |]; simpl in Hvalue; try discriminate.
    - by injection Hvalue as <-.
    - by injection Hvalue as <-; destruct b.
    - destruct (is_nan v) eqn:Hv; simpl in Hvalue; injection Hvalue as <-; done. }
  split; [exact Hnan|]. split.
  { destruct (isna (cell "aqi" row)); simpl in Hvalue; [by injection Hvalue|done]. }
  repeat (split; [done|]). split; [apply radius_at_least_8|apply radius_below_8].
Qed.

(** A row with the AQI -100: the marker has radius 6. *)
Lemma marker_shows_row_witness :
  ∃ mk, circle_marker_of_row
          {| columns := output_columns; rows := [] |}
          (dict_of [("sitename", JStr "大安"); ("county", JStr "臺北市");
                    ("aqi", JNum (Fin (-100))); ("latitude", JNum (Fin 25));
                    ("longitude", JNum (Fin 121)); ("distance_to_taipei", JNull)])
        = Ret mk
        ∧ py_lt (radius mk) (Fin 8) = true.
Proof.
  eexists. split; [vm_compute; reflexivity|].
  match goal with
  | |- py_lt (radius ?mk) _ = _ =>
      pose proof (marker_shows_row
                    {| columns := output_columns; rows := [] |}
                    (dict_of [("sitename", JStr "大安"); ("county", JStr "臺北市");
                              ("aqi", JNum (Fin (-100))); ("latitude", JNum (Fin 25));
                              ("longitude", JNum (Fin 121)); ("distance_to_taipei", JNull)])
                    mk ltac:(vm_compute; reflexivity)) as H
  end.
  cbv zeta in H. destruct H as (_ & _ & _ & _ & _ & _ & _ & _ & _ & _ & _ & _ & _ & _ & _ & H).
  apply H. reflexivity.
Defined.

(** X15. A map that [create_map] returns is the one it has stored in
    [self.map], in place of any earlier map; nothing else of the monitor
    has changed, no line is logged at level ERROR and no call is made on
    the file system. It is centered on the mean latitude
    and the mean longitude of the rows; it has one circle marker per row,
    in the order of the rows, and none from an earlier call; it has the one
    marker of Taipei station; and the colors of its legend are those the
    classifier gives at the ends of the bands the legend names. *)
Theorem create_map_result (df : DataFrame) (self self' : Monitor) (m : Map) :
  create_map df self = (Ret (Some m), self') →
  self' = with_map (Some m) self
  ∧ empty df = false
  ∧ series_mean (cell "latitude" <$> rows df) = Ret (map_location m).1
  ∧ series_mean (cell "longitude" <$> rows df) = Ret (map_location m).2
  ∧ Forall2 (fun row mk => circle_marker_of_row df row = Ret mk)
      (rows df) (circle_markers m)
  ∧ station_markers m = [taipei_station]
  ∧ legend m = [(get_aqi_color (Fin 50), "0-50 良好");
                (get_aqi_color (Fin 100), "51-100 中等");
                (get_aqi_color (Fin 101), "101+ 不健康")].
Proof.
  unfold create_map. destruct (empty df); [discriminate|]. intros H.
  apply bind_M_Ret_inv in H as (latitude & s & Hlat & H).
  apply lift_inv in Hlat as [Hlat ->].
  apply bind_M_Ret_inv in H as (center_lat & s & Hclat & H).
  apply lift_inv in Hclat as [Hclat ->].
  apply bind_M_Ret_inv in H as (longitude & s & Hlon & H).
  apply lift_inv in Hlon as [Hlon ->].
  apply bind_M_Ret_inv in H as (center_lon & s & Hclon & H).
  apply lift_inv in Hclon as [Hclon ->].
  apply bind_M_Ret_inv in H as (center & s & Hcenter & H).
  apply lift_inv in Hcenter as [Hcenter ->].
  symmetry in Hcenter. apply validate_location_Ret in Hcenter as (Hc1 & Hc2 & _ & _).
  injection Hc1 as ->. injection Hc2 as ->.
  unfold getitem_column in Hlat, Hlon.
  case_decide; [|discriminate]. case_decide; [|discriminate].
  injection Hlat as ->. injection Hlon as ->.
  apply bind_M_Ret_inv in H as (? & s1 & Hset & H).
  unfold set_map in Hset. injection Hset as _ <-.
  apply bind_M_Ret_inv in H as (? & s2 & Hloop & H).
  eapply for_each_markers in Hloop as (mks & Hs2 & Hmks); [|reflexivity]. subst s2.
  apply bind_M_Ret_inv in H as (? & s3 & Hadd & H).
  injection Hadd as _ <-. injection H as <- <-.
  cbn [with_map add_markers self_map self_data effects map_location circle_markers
       station_markers legend fst snd app].
  repeat split; auto.
Qed.

(** The one record of 大安: the map has one marker and is centered on the
    station. *)
Lemma create_map_result_witness :
  ∃ m self',
    create_map {| columns := output_columns;
                  rows := [dict_of [("sitename", JStr "大安"); ("county", JStr "臺北市");
                                    ("aqi", JNum (Fin 42)); ("latitude", JNum (Fin 25));
                                    ("longitude", JNum (Fin 121));
                                    ("distance_to_taipei", JNull)]] |} init
    = (Ret (Some m), self')
    ∧ station_markers m = [taipei_station].
Proof.
  eexists _, _. split; [vm_compute; reflexivity|].
  match goal with
  | |- station_markers ?m = _ =>
      pose proof (create_map_result
                    {| columns := output_columns;
                       rows := [dict_of [("sitename", JStr "大安"); ("county", JStr "臺北市");
                                         ("aqi", JNum (Fin 42)); ("latitude", JNum (Fin 25));
                                         ("longitude", JNum (Fin 121));
                                         ("distance_to_taipei", JNull)]] |}
                    init _ m ltac:(vm_compute; reflexivity)) as H
  end.
  destruct H as (_ & _ & _ & _ & _ & H & _). exact H.
Defined.

(** ** When a run succeeds *)

Lemma known_site_named record :
  known_site (site_of record) = true → is_Some (dict_of record !! "sitename").
Proof.
  intros H. destruct (coordinates_of_known _ H) as (s & lat & lon & Hs & _).
  unfold site_of, cell in Hs.
  destruct (dict_of record !! "sitename") as [x|]; [eauto|discriminate Hs].
Qed.

Lemma known_site_hashable x : known_site x = true → hashable x = true.
Proof. by destruct x. Qed.

Lemma circle_marker_columns df row mk :
  circle_marker_of_row df row = Ret mk → "aqi" ∈ columns df ∧ "county" ∈ columns df.
Proof.
  unfold circle_marker_of_row. intros H.
  apply bind_Ret_inv in H as (aqi & Haqi & H).
  unfold row_getitem in Haqi. case_decide; [|discriminate].
  apply bind_Ret_inv in H as (aqi_value & _ & H).
  apply bind_Ret_inv in H as (sitename & _ & H).
  apply bind_Ret_inv in H as (county & Hcounty & _).
  unfold row_getitem in Hcounty. case_decide; [|discriminate]. done.
Qed.

Lemma field_column parse_float geodesic_km DataFrame_other data records df c :
  as_records data = Some records →
  process_data parse_float geodesic_km DataFrame_other data = Ret (Some df) →
  c ∈ ["aqi"; "county"] →
  c ∈ columns df ↔ has_field records c = true.
Proof.
  intros Hrecords Hdf Hc.
  rewrite (enriched_columns_filter _ _ _ _ _ _ Hrecords Hdf), list_elem_of_filter.
  apply elem_of_cons in Hc as [->|Hc].
  { change (column_present records "aqi") with (has_field records "aqi").
    split; [by intros [? _]|]. intros ?. split; [done|]. unfold output_columns.
    do 2 right. left. }
  apply elem_of_cons in Hc as [->|Hc]; [|by apply elem_of_nil in Hc].
  change (column_present records "county") with (has_field records "county").
  split; [by intros [? _]|]. intros ?. split; [done|]. unfold output_columns.
  right. left.
Qed.

(** X16. When the API answers with a list of records, [run] returns [True]
    exactly when every site name can be hashed, some record is of a station
    of the coordinate table, some record has an [aqi] field and some a
    [county] field, and the directory [outputs] can be made. Nothing else
    in the response or in the file system matters: not the other fields,
    and not whether the two files could be written. *)
Theorem run_succeeds_iff
  (parse_float : string → option pyfloat)
  (geodesic_km : json * json → Q * Q → result pyfloat)
  (DataFrame_other : json → result DataFrame)
  (w : World) (self : Monitor) (records : list (list (string * json))) :
  http_get w = HttpBody (JArr (JObj <$> records)) →
  (run parse_float geodesic_km DataFrame_other w self).1 = Ret true
  ↔ (∀ record, record ∈ records → hashable (site_of record) = true)
    ∧ (∃ record, record ∈ records ∧ known_site (site_of record) = true)
    ∧ has_field records "aqi" = true
    ∧ has_field records "county" = true
    ∧ fs_makedirs w "outputs" = None.
Proof.
  intros Hhttp.
  pose proof (as_records_objects records) as Hrecords.
  split.
  - intros Hrun.
    destruct (run parse_float geodesic_km DataFrame_other w self) as [r self'] eqn:E.
    cbn [fst] in Hrun. subst r.
    apply run_true_inv in E
      as (s1 & df & m & saved & Hfetch & Hdf & Hempty & _ & _ & Hmarkers & Hdirs & _).
    rewrite fetch_outcome, Hhttp in Hfetch.
    assert (s1 = with_data (JArr (JObj <$> records)) self) as ->.
    { destruct records; cbn [fmap list_fmap] in Hfetch; by injection Hfetch. }
    cbn [self_data with_data] in Hdf.
    destruct (process_data_enriched _ _ _ _ _ _ Hrecords Hdf) as (Hin & _ & Hrows).
    apply sitename_available in Hin.
    rewrite (enriched_empty _ _ _ _ _ Hdf) in Hempty.
    apply bool_decide_eq_false in Hempty.
    split; [|split; [|split; [|split]]].
    + intros record Hrecord. destruct (hashable (site_of record)) eqn:Hh; [done|].
      rewrite (process_data_unhashable parse_float geodesic_km DataFrame_other records)
        in Hdf; [discriminate|done|eauto].
    + destruct (filter (fun record => known_site (site_of record) = true) records)
        as [|record rest] eqn:Hfilter; [by rewrite Hrows in Hempty|].
      assert (record ∈ filter (fun record => known_site (site_of record) = true) records)
        as Hk by (rewrite Hfilter; left).
      apply list_elem_of_filter in Hk as [? ?]. eauto.
    + destruct Hmarkers as [|row mk rest mks Hmk _]; [done|].
      apply circle_marker_columns in Hmk as [Haqi _].
      eapply field_column; [exact Hrecords|exact Hdf| |exact Haqi]. left.
    + destruct Hmarkers as [|row mk rest mks Hmk _]; [done|].
      apply circle_marker_columns in Hmk as [_ Hcounty].
      eapply field_column; [exact Hrecords|exact Hdf| |exact Hcounty]. right. left.
    + exact Hdirs.
  - intros (Hhashable & (known & Hknown & Hsite) & Haqi & Hcounty & Hdirs).
    rewrite run_value, fetch_outcome, Hhttp.
    assert (∀ items (x y : result bool * Monitor),
              match JArr items with JArr items' => x | _ => y end = x) as Hmatch by done.
    destruct (process_data_returns parse_float geodesic_km DataFrame_other records)
      as [df Hdf]; [|done|].
    { exists known. split; [done|]. by apply known_site_named. }
    destruct (process_data_enriched _ _ _ _ _ _ Hrecords Hdf) as (_ & _ & Hrows).
    assert (rows df ≠ []) as Hne.
    { rewrite Hrows. intros Hnil. apply fmap_nil_inv in Hnil.
      assert (known ∈ filter (fun record => known_site (site_of record) = true) records)
        as Hk by (by apply list_elem_of_filter).
      rewrite Hnil in Hk. by apply elem_of_nil in Hk. }
    destruct (create_map_enriched parse_float geodesic_km DataFrame_other _ records df
                (with_data (JArr (JObj <$> records)) self) Hrecords Hdf Hne)
      as (m & Hmap & _).
    { eapply field_column; [exact Hrecords|exact Hdf| |exact Haqi]. left. }
    { eapply field_column; [exact Hrecords|exact Hdf| |exact Hcounty]. right. left. }
    assert (fetch_true : ∀ s1,
              s1 = with_data (JArr (JObj <$> records)) self →
              match (Ret true, s1) with
              | (Raise e, _) => Raise e
              | (Ret false, _) => Ret false
              | (Ret true, s1) =>
                  match process_data parse_float geodesic_km DataFrame_other
                          (self_data s1) with
                  | Raise e => Raise e
                  | Ret None => Ret false
                  | Ret (Some df) =>
                      if empty df then Ret false
                      else match create_map df s1 with
                           | (Raise e, _) => Raise e
                           | (Ret _, _) =>
                               match fs_makedirs w "outputs" with
                               | Some e => Raise e
                               | None => Ret true
                               end
                           end
                  end
              end = Ret true).
    { intros s1 ->. cbn [self_data with_data]. rewrite Hdf.
      rewrite (enriched_empty _ _ _ _ _ Hdf), bool_decide_eq_false_2 by done.
      destruct (create_map df _) as [[om|e] s2]; [|discriminate Hmap].
      by rewrite Hdirs. }
    destruct records; apply fetch_true; reflexivity.
Qed.

(** The three sample records, one of them of an unknown station and one
    with an AQI that is no number: the run succeeds. *)
Lemma run_succeeds_iff_witness :
  (Sample.run (Sample.world Sample.null_aqi) init).1 = Ret true.
Proof.
  apply (run_succeeds_iff
           Sample.parse_float Sample.geodesic_km Sample.DataFrame_other
           (Sample.world Sample.null_aqi) init Sample.null_aqi_records).
  - reflexivity.
  - split; [|split; [|split; [|split]]].
    + intros record Hrecord. unfold Sample.null_aqi_records in Hrecord.
      repeat (apply elem_of_cons in Hrecord as [->|Hrecord]; [reflexivity|]).
      by apply elem_of_nil in Hrecord.
    + eexists. split; [left|]. vm_compute. reflexivity.
    + vm_compute. reflexivity.
    + vm_compute. reflexivity.
    + reflexivity.
Defined.

(** ** The entry point *)

(** X17. What [main] reports. Without an API key in the environment, or
    with an empty one, it makes no monitor at all: nothing is requested and
    no file is touched. With a key, an exception of [run] leaves [main] and
    neither closing message is printed; the failure message is printed
    exactly when [run] returns [False]; and when the two output files are
    announced, the run has handed a map and a frame to the writers under
    the very names announced, whether or not the writes succeeded. *)
Theorem main_report
  (parse_float : string → option pyfloat)
  (geodesic_km : json * json → Q * Q → result pyfloat)
  (DataFrame_other : json → result DataFrame)
  (getenv : string → option string) (w : World) :
  let session := main parse_float geodesic_km DataFrame_other getenv w in
  let key := getenv "MOENV_API_KEY" in
  let ran := run parse_float geodesic_km DataFrame_other w init in
  (monitor session = None ↔ key = None ∨ key = Some "")
  ∧ (∀ self, monitor session = Some self → self = ran.2)
  ∧ (∀ e, outcome session = Raise e ↔ monitor session ≠ None ∧ ran.1 = Raise e)
  ∧ ("❌ 監測失敗，請檢查日誌訊息。" ∈ printed session
     ↔ monitor session ≠ None ∧ ran.1 = Ret false)
  ∧ ("📍 地圖文件：outputs/taiwan_aqi_map.html" ∈ printed session
     ∨ "📊 數據文件：outputs/aqi_data.csv" ∈ printed session →
     ran.1 = Ret true
     ∧ ∃ self m df,
         monitor session = Some self
         ∧ MapSave "outputs/taiwan_aqi_map.html" m ∈ effects self
         ∧ ToCsv "outputs/aqi_data.csv" df ∈ effects self).
Proof.
  intros session key ran. unfold session, main. fold key. fold ran.
  assert (∀ self', ran = (Ret true, self') →
            ∃ m df, MapSave "outputs/taiwan_aqi_map.html" m ∈ effects self'
                    ∧ ToCsv "outputs/aqi_data.csv" df ∈ effects self') as Hfiles.
  { intros self' H. apply run_true_inv in H
      as (s1 & df & m & saved & _ & _ & _ & _ & _ & _ & _ & _ & ->).
    exists m, df. rewrite !elem_of_app. split.
    - right. left. left. do 2 constructor.
    - right. right. left. do 2 constructor. }
  clearbody ran. clear session.
  destruct key as [[|c key]|]; cbn [printed outcome monitor app].
  1, 3: repeat split; intros; destruct_and?;
    repeat match goal with
           | H : _ ∨ _ |- _ => destruct H
           | H : _ ∈ _ |- _ => absurd_member H
           end; simplify_eq; auto; done.
  destruct ran as [[[|]|e] self']; cbn [printed outcome monitor app fst snd].
  - destruct (Hfiles self' eq_refl) as (m & df & Hm & Hdf).
    repeat split; intros; destruct_and?;
      repeat match goal with
             | H : _ ∨ _ |- _ => destruct H
             | H : _ ∈ _ ++ _ |- _ => cbn [app] in H
             end; simplify_eq; eauto 10; try done;
      try match goal with H : _ ∈ _ |- _ => absurd_member H end.
  - repeat split; intros; destruct_and?;
      repeat match goal with
             | H : _ ∨ _ |- _ => destruct H
             end; simplify_eq; eauto; try done;
      try match goal with H : _ ∈ _ |- _ => absurd_member H end.
    do 4 right. left.
  - repeat split; intros; destruct_and?;
      repeat match goal with
             | H : _ ∨ _ |- _ => destruct H
             end; simplify_eq; eauto; try done;
      try match goal with H : _ ∈ _ |- _ => absurd_member H end.
Qed.

(** The three sample records with a key in the environment: the files are
    announced and were handed to the writers. *)
Lemma main_report_witness :
  let session := main Sample.parse_float Sample.geodesic_km Sample.DataFrame_other
                   (fun _ => Some "key") (Sample.world Sample.null_aqi) in
  ∃ self m df,
    monitor session = Some self
    ∧ MapSave "outputs/taiwan_aqi_map.html" m ∈ effects self
    ∧ ToCsv "outputs/aqi_data.csv" df ∈ effects self.
Proof.
  intros session.
  destruct (main_report Sample.parse_float Sample.geodesic_km Sample.DataFrame_other
              (fun _ => Some "key") (Sample.world Sample.null_aqi))
    as (_ & _ & _ & _ & H).
  apply H. left. vm_compute. do 5 right. left.
Defined.

(** ** A frame without a column that the renderer reads

    [process_data] keeps the columns of [columns_to_keep] that the response
    has, and tests each numeric column before it converts it. [create_map]
    reads [row['aqi']] and [row['county']] of every row without such a
    test. *)


Lemma circle_marker_without_county df row :
  "aqi" ∈ columns df → "sitename" ∈ columns df → "county" ∉ columns df →
  (∃ v, row !! "aqi" = Some (JNum v)) ∨ (∃ b, row !! "aqi" = Some (JBool b)) →
  circle_marker_of_row df row = Raise (KeyError "county").
Proof.
  intros Haqi Hsite Hcounty Hcell. unfold circle_marker_of_row, row_getitem.
  rewrite (decide_True (P := "aqi" ∈ columns df)) by done.
  rewrite (decide_True (P := "sitename" ∈ columns df)) by done.
  rewrite (decide_False (P := "county" ∈ columns df)) by done.
  unfold cell. destruct Hcell as [[v ->]|[b ->]]; simpl.
  - by destruct (is_nan v).
  - reflexivity.
Qed.

(** The renderer on an enriched frame the first row of which it cannot
    draw: the exception leaves [create_map], after [self.map] was set and
    with nothing logged. *)
Lemma create_map_raises parse_float geodesic_km DataFrame_other data records df self
    row rest e :
  as_records data = Some records →
  process_data parse_float geodesic_km DataFrame_other data = Ret (Some df) →
  rows df = row :: rest →
  circle_marker_of_row df row = Raise e →
  ∃ self', create_map df self = (Raise e, self')
           ∧ self_data self' = self_data self
           ∧ effects self' = effects self.
Proof.
  intros Hrecords Hdf Hrows Hmk.
  destruct (enriched_columns _ _ _ _ _ _ Hrecords Hdf) as (Hsite & Hlat & Hlon & Hdist).
  pose proof (enriched_rows_coordinates _ _ _ _ _ _ Hrecords Hdf) as Hcoord.
  destruct (series_mean_of_finite (cell "latitude" <$> rows df)) as [clat Hclat].
  { by rewrite Hrows. }
  { apply Forall_fmap. eapply list.Forall_impl; [exact Hcoord|].
    intros r (s & lat & lon & _ & _ & Hla & _). exists lat. unfold cell. by rewrite Hla. }
  destruct (series_mean_of_finite (cell "longitude" <$> rows df)) as [clon Hclon].
  { by rewrite Hrows. }
  { apply Forall_fmap. eapply list.Forall_impl; [exact Hcoord|].
    intros r (s & lat & lon & _ & _ & _ & Hlo). exists lon. unfold cell. by rewrite Hlo. }
  unfold create_map.
  rewrite (enriched_empty _ _ _ _ _ Hdf), bool_decide_eq_false_2 by (by rewrite Hrows).
  unfold getitem_column. rewrite !decide_True by done.
  unfold mbind at 1 2 3 4 5 6, M_bind at 1 2 3 4 5 6, lift.
  rewrite Hclat, Hclon. cbn [validate_location is_nan orb]. unfold set_map.
  unfold mbind at 1, M_bind at 1.
  rewrite Hrows. cbn [for_each]. unfold mbind at 1, M_bind at 1.
  unfold add_row_marker. unfold mbind at 1, M_bind at 1, lift. rewrite Hmk.
  eexists. split; [reflexivity|]. split; reflexivity.
Qed.

(** An exception of the renderer leaves [run]. *)
Lemma run_create_map_raises parse_float geodesic_km DataFrame_other w self items df e self' :
  http_get w = HttpBody (JArr items) →
  process_data parse_float geodesic_km DataFrame_other (JArr items) = Ret (Some df) →
  empty df = false →
  create_map df (with_data (JArr items) self) = (Raise e, self') →
  run parse_float geodesic_km DataFrame_other w self = (Raise e, self').
Proof.
  intros Hhttp Hdf Hempty Hmap.
  unfold run, mbind at 1, M_bind at 1. rewrite fetch_outcome, Hhttp.
  change (negb true) with false. cbv iota.
  unfold mbind at 1 2, M_bind at 1 2, get_data, lift.
  cbn [self_data with_data]. rewrite Hdf. cbv beta iota. rewrite Hempty.
  unfold mbind at 1, M_bind at 1. rewrite Hmap. reflexivity.
Qed.

(** The first row of an enriched frame raises: so do the renderer and
    [run], and [run] has touched no file and logged no error by then. *)
Lemma first_row_raises parse_float geodesic_km DataFrame_other w self records df
    row rest e :
  http_get w = HttpBody (JArr (JObj <$> records)) →
  process_data parse_float geodesic_km DataFrame_other (JArr (JObj <$> records))
  = Ret (Some df) →
  rows df = row :: rest →
  circle_marker_of_row df row = Raise e →
  (∀ self', (create_map df self').1 = Raise e)
  ∧ (run parse_float geodesic_km DataFrame_other w self).1 = Raise e
  ∧ effects (run parse_float geodesic_km DataFrame_other w self).2 = effects self.
Proof.
  intros Hhttp Hdf Hrows Hmk.
  pose proof (as_records_objects records) as Hrecords.
  split.
  { intros self'.
    destruct (create_map_raises _ _ _ _ _ _ self' _ _ _ Hrecords Hdf Hrows Hmk)
      as (s & -> & _). reflexivity. }
  destruct (create_map_raises _ _ _ _ _ _ (with_data (JArr (JObj <$> records)) self)
              _ _ _ Hrecords Hdf Hrows Hmk) as (s & Hmap & _ & Heffects).
  assert (empty df = false) as Hempty.
  { rewrite (enriched_empty _ _ _ _ _ Hdf). apply bool_decide_eq_false_2. by rewrite Hrows. }
  rewrite (run_create_map_raises _ _ _ _ _ _ _ _ _ Hhttp Hdf Hempty Hmap).
  split; [reflexivity|exact Heffects].
Qed.

Lemma enriched_first_row parse_float geodesic_km DataFrame_other records :
  (∀ record, record ∈ records → hashable (site_of record) = true) →
  (∃ record, record ∈ records ∧ known_site (site_of record) = true) →
  ∃ df row rest,
    process_data parse_float geodesic_km DataFrame_other (JArr (JObj <$> records))
    = Ret (Some df)
    ∧ rows df = row :: rest.
Proof.
  intros Hhashable (known & Hknown & Hsite).
  destruct (process_data_returns parse_float geodesic_km DataFrame_other records)
    as [df Hdf]; [|done|].
  { exists known. split; [done|]. by apply known_site_named. }
  destruct (process_data_enriched _ _ _ _ _ _ (as_records_objects records) Hdf)
    as (_ & _ & Hrows).
  destruct (rows df) as [|row rest] eqn:Hdfrows; [|eauto].
  symmetry in Hrows. apply fmap_nil_inv in Hrows.
  assert (known ∈ filter (fun record => known_site (site_of record) = true) records)
    as Hk by (by apply list_elem_of_filter).
  rewrite Hrows in Hk. by apply elem_of_nil in Hk.
Qed.

Lemma has_field_false_column parse_float geodesic_km DataFrame_other data records df c :
  as_records data = Some records →
  process_data parse_float geodesic_km DataFrame_other data = Ret (Some df) →
  c ∈ ["aqi"; "county"] → has_field records c = false → c ∉ columns df.
Proof.
  intros Hrecords Hdf Hc Hfield Hin.
  apply (field_column _ _ _ _ _ _ c Hrecords Hdf Hc) in Hin. congruence.
Qed.

(** C7 (the code departs from the claim). For a response whose records
    have an [aqi] field and no [county] field, with a record of a station
    of the coordinate table, the enriched frame is not empty and the
    renderer produces no map all the same: it raises [KeyError] at
    [row['county']] on the first row, whatever the library routines do.
    The exception leaves [run], which has logged no error and made no call
    on the file system by then. *)
Theorem renderer_raises_without_county
  (parse_float : string → option pyfloat)
  (geodesic_km : json * json → Q * Q → result pyfloat)
  (DataFrame_other : json → result DataFrame)
  (w : World) (self : Monitor) (records : list (list (string * json))) :
  http_get w = HttpBody (JArr (JObj <$> records)) →
  (∀ record, record ∈ records → hashable (site_of record) = true) →
  (∃ record, record ∈ records ∧ known_site (site_of record) = true) →
  has_field records "aqi" = true →
  has_field records "county" = false →
  ∃ df,
    process_data parse_float geodesic_km DataFrame_other (JArr (JObj <$> records))
    = Ret (Some df)
    ∧ rows df ≠ []
    ∧ (∀ self', (create_map df self').1 = Raise (KeyError "county"))
    ∧ (run parse_float geodesic_km DataFrame_other w self).1 = Raise (KeyError "county")
    ∧ effects (run parse_float geodesic_km DataFrame_other w self).2 = effects self.
Proof.
  intros Hhttp Hhashable Hknown Haqi Hcounty.
  destruct (enriched_first_row parse_float geodesic_km DataFrame_other records
              Hhashable Hknown) as (df & row & rest & Hdf & Hrows).
  pose proof (as_records_objects records) as Hrecords.
  destruct (enriched_columns _ _ _ _ _ _ Hrecords Hdf) as (Hsite & _).
  assert ("aqi" ∈ columns df) as Hcol
    by (eapply field_column; [exact Hrecords|exact Hdf|left|exact Haqi]).
  assert ("county" ∉ columns df) as Hno
    by (eapply has_field_false_column; [exact Hrecords|exact Hdf|right; left|exact Hcounty]).
  pose proof (process_data_numeric _ _ _ _ _ _ "aqi" Hrecords Hdf
                ltac:(unfold numeric_columns; left) Hcol) as Hnum.
  rewrite Hrows in Hnum. inversion Hnum as [|? ? Hcell _]; subst.
  assert (circle_marker_of_row df row = Raise (KeyError "county")) as Hmk.
  { apply circle_marker_without_county; [done..|].
    destruct Hcell as [[v Hv]|(b & Hb & _)]; eauto. }
  exists df. split; [exact Hdf|]. split; [by rewrite Hrows|].
  by eapply first_row_raises.
Qed.

(** The record of 大安 without a county. *)
Lemma renderer_raises_without_county_witness :
  (Sample.run (Sample.world Sample.no_county) init).1 = Raise (KeyError "county").
Proof.
  destruct (renderer_raises_without_county
              Sample.parse_float Sample.geodesic_km Sample.DataFrame_other
              (Sample.world Sample.no_county) init
              [[("sitename", JStr "大安"); ("aqi", JStr "45")]])
    as (df & _ & _ & _ & Hrun & _).
  - reflexivity.
  - intros record Hrecord. apply list_elem_of_singleton in Hrecord as ->. reflexivity.
  - eexists. split; [left|]. vm_compute. reflexivity.
  - vm_compute. reflexivity.
  - vm_compute. reflexivity.
  - exact Hrun.
Defined.





(** The same on a response without AQI: the exception is that of
    [row['aqi']]. *)
Example missing_aqi_escapes_run :
  (Sample.run (Sample.world Sample.no_aqi) init).1 = Raise (KeyError "aqi").
Proof. vm_compute. reflexivity. Qed.

(** The part of the claim that holds: on an enriched frame the renderer
    returns no map exactly when the frame has no rows, and a response in
    which no record is of a known station gives such a frame, whatever the
    records hold besides. *)
Lemma renderer_none_iff_no_rows parse_float geodesic_km DataFrame_other data df self :
  process_data parse_float geodesic_km DataFrame_other data = Ret (Some df) →
  (create_map df self).1 = Ret None ↔ rows df = [].
Proof.
  intros Hdf. rewrite create_map_None_iff, (enriched_empty _ _ _ _ _ Hdf).
  apply bool_decide_eq_true.
Qed.

Lemma unknown_stations_give_no_map parse_float geodesic_km DataFrame_other w self records :
  http_get w = HttpBody (JArr (JObj <$> records)) →
  (∃ record, record ∈ records ∧ is_Some (dict_of record !! "sitename")) →
  (∀ record, record ∈ records → hashable (site_of record) = true) →
  (∀ record, record ∈ records → known_site (site_of record) = false) →
  ∃ df,
    process_data parse_float geodesic_km DataFrame_other (JArr (JObj <$> records))
    = Ret (Some df)
    ∧ rows df = []
    ∧ (∀ self', create_map df self' = (Ret None, logged "沒有有效數據可創建地圖" self'))
    ∧ (run parse_float geodesic_km DataFrame_other w self).1 = Ret false.
Proof.
  intros Hhttp Hnamed Hhashable Hunknown.
  destruct (process_data_returns parse_float geodesic_km DataFrame_other records
              Hnamed Hhashable) as [df Hdf].
  destruct (process_data_enriched _ _ _ _ _ _ (as_records_objects records) Hdf)
    as (_ & _ & Hrows).
  assert (rows df = []) as Hnil.
  { rewrite Hrows.
    destruct (filter (fun record => known_site (site_of record) = true) records)
      as [|record rest] eqn:Hfilter; [reflexivity|].
    assert (record ∈ filter (fun record => known_site (site_of record) = true) records)
      as Hin by (rewrite Hfilter; left).
    apply list_elem_of_filter in Hin as [Hknown Hin].
    rewrite (Hunknown _ Hin) in Hknown. discriminate Hknown. }
  assert (empty df = true) as Hempty
    by (rewrite (enriched_empty _ _ _ _ _ Hdf); by apply bool_decide_eq_true_2).
  exists df. split; [exact Hdf|]. split; [exact Hnil|]. split.
  - intros self'. unfold create_map. rewrite Hempty. reflexivity.
  - rewrite run_value, fetch_outcome, Hhttp. cbn [self_data with_data].
    by rewrite Hdf, Hempty.
Qed.

(** The scenario of the specification: the one record of a station that is
    not in the coordinate table. *)
Example unknown_station_gives_no_map :
  (Sample.run (Sample.world Sample.unknown_station) init).1 = Ret false.
Proof.
  destruct (unknown_stations_give_no_map
              Sample.parse_float Sample.geodesic_km Sample.DataFrame_other
              (Sample.world Sample.unknown_station) init
              [[("sitename", JStr "未知測站"); ("aqi", JStr "80")]])
    as (df & _ & _ & _ & Hrun).
  - reflexivity.
  - eexists. split; [left|]. vm_compute. eauto.
  - intros record Hrecord. apply list_elem_of_singleton in Hrecord as ->. reflexivity.
  - intros record Hrecord. apply list_elem_of_singleton in Hrecord as ->.
    vm_compute. reflexivity.
  - exact Hrun.
Qed.
